(** * Coal-pile self-ignition dashboard: a shallow embedding of the front end

    The development follows the JavaScript sources of the dashboard:

    - [frontend/src/services/dataProcessor.js]: formatters, risk colours,
      calendar entries for predictions, the metrics summary, the upload check;
    - [frontend/src/pages/PredictionsCalendar.jsx]: the [events] list of the
      calendar, the evaluation fetch [loadRealFiresData], the initial
      [fetchPredictions], the pile filter and the clicks;
    - [frontend/src/pages/DatePileMatrix.jsx]: the per-date statistics and
      the loading of the stored predictions;
    - [frontend/src/pages/Dashboard.jsx]: [handlePredict], the uploads;
    - [frontend/src/components/FileUpload.jsx]: [onDrop];
    - [frontend/src/services/api.js]: the response interceptor;
    - the components [PredictionCard], [RiskBadge] and [MetricsChart].

    JavaScript values are modelled by [jsval]; numbers are IEEE binary64
    floats (Rocq's primitive floats); exceptions are the [Throw] branch of
    [Result]; React state is an explicit record threaded through a small
    state-and-exception monad. *)

From Stdlib Require Import ZArith Floats Ascii String DecimalString DecimalPos DecimalZ.
From stdpp Require Import gmap strings list sorting.

(* Decimal float literals stand for the nearest binary64 value, as in
   JavaScript. *)
#[local] Set Warnings "-inexact-float".

Local Open Scope Z_scope.

(* ===================================================================== *)
(** * Part I: the JavaScript values and built-ins the sources rely on     *)
(* ===================================================================== *)

Module Js.

(** ** Values *)

(** The primitive values: what a field of a JSON response can hold, short of
    nested objects and arrays (those are records and lists below), and what
    a missing field reads as. *)
Inductive prim : Type :=
| JUndefined
| JNull
| JBool (b : bool)
| JNum (x : float)
| JStr (s : string).

(** What a property read on an object literal of strings returns: a
    primitive, or one of the built-in objects reached through
    [Object.prototype], named by its path ([Object] for the constructor,
    [Object.prototype.toString], ...). *)
Inductive jsval : Type :=
| Prim (p : prim)
| Builtin (name : string).

(** ** Completions: a value or a thrown exception *)

(** The exceptions: the built-in errors with their message, and the error
    of a rejected HTTP call with its [response.data.detail] and its
    [message]. *)
Inductive exn : Type :=
| TypeError (msg : string)
| RangeError (msg : string)
| Error (msg : string)
| HttpError (detail message : prim).

Inductive Result (A : Type) : Type :=
| Ok (a : A)
| Throw (e : exn).
Arguments Ok {A} a.
Arguments Throw {A} e.

Definition rbind {A B : Type} (r : Result A) (k : A -> Result B) : Result B :=
  match r with
  | Ok a => k a
  | Throw e => Throw e
  end.

Definition rmap {A B : Type} (f : A -> B) (r : Result A) : Result B :=
  rbind r (fun a => Ok (f a)).

(** ** Numbers *)

Definition nan : float := PrimFloat.nan.

(** [Number.isNaN] on a number. *)
Definition is_nan (x : float) : bool := PrimFloat.is_nan x.

(** [x === 0] on numbers: both zeros. *)
Definition is_zero (x : float) : bool := PrimFloat.is_zero x.

(** The sign and the magnitude [m * 2^e] of a finite float; a zero has no
    sign. *)
Definition finite_value (x : float) : option (bool * Z * Z) :=
  match Prim2SF x with
  | S754_zero _ => Some (false, 0, 0)
  | S754_finite neg m e => Some (neg, Z.pos m, e)
  | _ => None
  end.

(** The float nearest to an integer. *)
Definition float_of_Z (z : Z) : float :=
  SF2Prim (binary_normalize prec emax z 0 false).

(** ** Decimal digits of integers *)

Definition digits (z : Z) : string := NilZero.string_of_int (Z.to_int z).

Fixpoint zeros (n : nat) : string :=
  match n with
  | O => EmptyString
  | S n' => String "0"%char (zeros n')
  end.

Fixpoint string_take (n : nat) (s : string) : string :=
  match n, s with
  | S n', String c s' => String c (string_take n' s')
  | _, _ => EmptyString
  end.

Fixpoint string_drop (n : nat) (s : string) : string :=
  match n, s with
  | S n', String _ s' => string_drop n' s'
  | _, _ => s
  end.

(** ** Exact arithmetic on scaled integers

    A triple [(z, a, b)] stands for the rational [z * 2^a * 10^b]; a finite
    float is such a triple with [b = 0]. *)

Definition scaled : Type := (Z * Z * Z)%type.

Definition pow2 (a : Z) : Z := 2 ^ Z.max a 0.
Definition pow10 (b : Z) : Z := 10 ^ Z.max b 0.

(** Numerator and denominator of a triple. *)
Definition sc_num (t : scaled) : Z :=
  let '(z, a, b) := t in z * pow2 a * pow10 b.
Definition sc_den (t : scaled) : Z :=
  let '(_, a, b) := t in pow2 (- a) * pow10 (- b).

Definition sc_compare (t u : scaled) : comparison :=
  (sc_num t * sc_den u ?= sc_num u * sc_den t).

Definition sc_ltb (t u : scaled) : bool :=
  match sc_compare t u with Lt => true | _ => false end.
Definition sc_leb (t u : scaled) : bool :=
  match sc_compare t u with Gt => false | _ => true end.

(** [floor] of a non-negative triple. *)
Definition sc_floor (t : scaled) : Z := sc_num t / sc_den t.

(** ** [Number.prototype.toFixed]

    ECMA-262, 21.1.3.3: for a magnitude below [10^21] the result is the
    decimal notation of the integer [n] for which [n / 10^f - x] is as close
    to zero as possible, the larger [n] of two; the sign goes in front. *)

(** The integer [n] for the magnitude [m * 2^e]: ties go up. *)
Definition toFixed_n (f m e : Z) : Z :=
  if 0 <=? e then m * 2 ^ e * 10 ^ f
  else (2 * m * 10 ^ f + 2 ^ (- e)) / 2 ^ (- e + 1).

(** The digits of [n] with the decimal point [f] places from the right. *)
Definition fixed_notation (f n : Z) : string :=
  let s := digits n in
  if f =? 0 then s
  else
    let k := Z.of_nat (String.length s) in
    let s' := if k <=? f then zeros (Z.to_nat (f + 1 - k)) +:+ s else s in
    let k' := Z.of_nat (String.length s') in
    string_take (Z.to_nat (k' - f)) s' +:+ "." +:+ string_drop (Z.to_nat (k' - f)) s'.

(** ** [Number::toString] (radix 10)

    ECMA-262, 6.1.6.1.20: the shortest digit string [s] (of [k] digits, scaled
    by [10^(n-k)]) that reads back as the same float, the closest to the float
    among the shortest. A decimal reads back as [m * 2^e] when it lies in the
    rounding interval of that float: between the midpoints to its two
    neighbours, the midpoints included when [m] is even. *)

Definition interval_lo (m e : Z) : scaled :=
  if (m =? 2 ^ 52) && (-1074 <? e) then (4 * m - 1, e - 2, 0)
  else (2 * m - 1, e - 1, 0).

Definition interval_hi (m e : Z) : scaled := (2 * m + 1, e - 1, 0).

Definition in_interval (m e : Z) (v : scaled) : bool :=
  if Z.even m
  then sc_leb (interval_lo m e) v && sc_leb v (interval_hi m e)
  else sc_ltb (interval_lo m e) v && sc_ltb v (interval_hi m e).

(** The [n] with [10^(n-1) <= m * 2^e < 10^n], from an estimate one off at
    most. *)
Fixpoint adjust_exponent (fuel : nat) (m e n : Z) : Z :=
  match fuel with
  | O => n
  | S fuel' =>
      if sc_leb (1, 0, n) (m, e, 0) then adjust_exponent fuel' m e (n + 1)
      else if sc_ltb (m, e, 0) (1, 0, n - 1) then adjust_exponent fuel' m e (n - 1)
      else n
  end.

Definition decimal_exponent (m e : Z) : Z :=
  adjust_exponent 4 m e ((Z.log2 m + e) * 30103 / 100000 + 1).

(** The candidate of [k] digits, if one reads back: the digits below or
    above the float at that precision, the closer one (the even one of two
    equally close). *)
Definition candidate (m e n0 k : Z) : option (Z * Z) :=
  let scale := n0 - k in
  let s_lo := sc_floor (m, e, - scale) in
  let s_hi := s_lo + 1 in
  let ok_lo := in_interval m e (s_lo, 0, scale) in
  let ok_hi := in_interval m e (s_hi, 0, scale) in
  let pick_hi :=
    match sc_compare (2 * m, e, 0) (2 * s_lo + 1, 0, scale) with
    | Lt => false
    | Gt => true
    | Eq => Z.even s_hi
    end in
  let up := if s_hi =? 10 ^ k then (10 ^ (k - 1), n0 + 1) else (s_hi, n0) in
  match ok_lo, ok_hi with
  | true, true => Some (if pick_hi then up else (s_lo, n0))
  | true, false => Some (s_lo, n0)
  | false, true => Some up
  | false, false => None
  end.

(** The first [k] from [k] up that has a candidate; 17 digits always do. *)
Fixpoint shortest (fuel : nat) (m e n0 k : Z) : Z * Z * Z :=
  match fuel with
  | O => (sc_floor (m, e, k - n0), n0, k)
  | S fuel' =>
      match candidate m e n0 k with
      | Some (s, n) => (s, n, k)
      | None => shortest fuel' m e n0 (k + 1)
      end
  end.

(** The notation of [s * 10^(n-k)], [s] of [k] digits: steps 7 to 11. *)
Definition decimal_notation (s n k : Z) : string :=
  let ds := digits s in
  if (-6 <? n) && (n <=? 21) then
    if k <=? n then ds +:+ zeros (Z.to_nat (n - k))
    else if 0 <? n then
      string_take (Z.to_nat n) ds +:+ "." +:+ string_drop (Z.to_nat n) ds
    else "0." +:+ zeros (Z.to_nat (- n)) +:+ ds
  else
    let e' := n - 1 in
    let sign := if e' <? 0 then "-" else "+" in
    if k =? 1 then ds +:+ "e" +:+ sign +:+ digits (Z.abs e')
    else string_take 1 ds +:+ "." +:+ string_drop 1 ds
         +:+ "e" +:+ sign +:+ digits (Z.abs e').

Definition magnitudeToString (m e : Z) : string :=
  let '(s, n, k) := shortest 17 m e (decimal_exponent m e) 1 in
  decimal_notation s n k.

Definition numberToString (x : float) : string :=
  match Prim2SF x with
  | S754_nan => "NaN"
  | S754_zero _ => "0"
  | S754_infinity neg => if neg then "-Infinity" else "Infinity"
  | S754_finite neg m e =>
      (if neg then "-" else "") +:+ magnitudeToString (Z.pos m) e
  end.

(** [x.toFixed(f)]: steps 6 to 12, for [f] in range, and the whole. *)
Definition toFixed_text (f : Z) (x : float) : string :=
  match finite_value x with
  | Some (neg, m, e) =>
      (if neg then "-" else "")
      +:+ (if sc_leb (1, 0, 21) (m, e, 0)
           then magnitudeToString m e
           else fixed_notation f (toFixed_n f m e))
  | None => numberToString x
  end.

Definition toFixed (f : Z) (x : float) : Result string :=
  if (f <? 0) || (100 <? f)
  then Throw (RangeError "toFixed() digits argument must be between 0 and 100")
  else Ok (toFixed_text f x).

(** ** Conversions and operators on primitives *)

(** [ToBoolean]. *)
Definition truthy (p : prim) : bool :=
  match p with
  | JUndefined | JNull => false
  | JBool b => b
  | JNum x => negb (is_zero x || is_nan x)
  | JStr s => negb (String.eqb s "")
  end.

(** [ToString]: what a template literal and a property key make of a
    primitive. *)
Definition ToString (p : prim) : string :=
  match p with
  | JUndefined => "undefined"
  | JNull => "null"
  | JBool b => if b then "true" else "false"
  | JNum x => numberToString x
  | JStr s => s
  end.

(** [a === b]. *)
Definition strict_eq (a b : prim) : bool :=
  match a, b with
  | JUndefined, JUndefined => true
  | JNull, JNull => true
  | JBool x, JBool y => Bool.eqb x y
  | JNum x, JNum y => PrimFloat.eqb x y
  | JStr x, JStr y => String.eqb x y
  | _, _ => false
  end.

(** [SameValueZero], the equality of the elements of a [Set]: [NaN] is
    equal to itself, and the two zeros are equal. *)
Definition same_value_zero (a b : prim) : bool :=
  match a, b with
  | JNum x, JNum y => PrimFloat.eqb x y || (is_nan x && is_nan y)
  | _, _ => strict_eq a b
  end.

(** [value === null || value === undefined || Number.isNaN(value)]. *)
Definition is_unknown (value : prim) : bool :=
  match value with
  | JNull | JUndefined => true
  | JNum x => is_nan x
  | _ => false
  end.

(** [a || b] on values: objects are truthy. *)
Definition or_else (a b : jsval) : jsval :=
  match a with
  | Prim p => if truthy p then a else b
  | Builtin _ => a
  end.

(** ** Strings *)

Definition lower_ascii (c : ascii) : ascii :=
  let n := nat_of_ascii c in
  if ((65 <=? n) && (n <=? 90))%nat then ascii_of_nat (n + 32) else c.

(** [s.toLowerCase()] on the letters A to Z; the bytes of other characters
    are kept. (Of the other characters only the Kelvin sign lowers to one of
    the letters a to z, to k, and no key below that is in lower case has
    a k.) *)
Fixpoint toLowerCase (s : string) : string :=
  match s with
  | EmptyString => EmptyString
  | String c s' => String (lower_ascii c) (toLowerCase s')
  end.

(** [s.endsWith(suffix)]. *)
Definition endsWith (s suffix : string) : bool :=
  let n := String.length s in
  let k := String.length suffix in
  (k <=? n)%nat && String.eqb (string_drop (n - k) s) suffix.

(** ** Property reads on object literals

    [o[key]] on an object literal finds an own property, or else a property
    of [Object.prototype]. *)

Definition object_prototype : list (string * string) :=
  [ ("constructor", "Object");
    ("__proto__", "Object.prototype");
    ("hasOwnProperty", "Object.prototype.hasOwnProperty");
    ("isPrototypeOf", "Object.prototype.isPrototypeOf");
    ("propertyIsEnumerable", "Object.prototype.propertyIsEnumerable");
    ("toLocaleString", "Object.prototype.toLocaleString");
    ("toString", "Object.prototype.toString");
    ("valueOf", "Object.prototype.valueOf");
    ("__defineGetter__", "Object.prototype.__defineGetter__");
    ("__defineSetter__", "Object.prototype.__defineSetter__");
    ("__lookupGetter__", "Object.prototype.__lookupGetter__");
    ("__lookupSetter__", "Object.prototype.__lookupSetter__") ].

Fixpoint assoc (key : string) (l : list (string * string)) : option string :=
  match l with
  | [] => None
  | (k, v) :: l' => if String.eqb key k then Some v else assoc key l'
  end.

Definition inherited (key : string) : option string := assoc key object_prototype.

Definition get (o : gmap string prim) (key : prim) : jsval :=
  let k := ToString key in
  match o !! k with
  | Some v => Prim v
  | None =>
      match inherited k with
      | Some name => Builtin name
      | None => Prim JUndefined
      end
  end.

(** ** Dates

    A Date object is its time value: milliseconds since the epoch, [None]
    for an invalid date ([NaN]). What a calendar entry is anchored at, and
    what date-fns's [format] is given, is a Date object or a raw primitive. *)

Inductive dateval : Type :=
| RawValue (p : prim)
| DateObj (t : option Z).

Definition msPerDay : Z := 86400000.

(** The civil date [(year, month, day)] of a day number (days since
    1970-01-01, proleptic Gregorian calendar). *)
Definition civil_from_days (z : Z) : Z * Z * Z :=
  let z := z + 719468 in
  let era := z / 146097 in
  let doe := z - era * 146097 in
  let yoe := (doe - doe / 1460 + doe / 36524 - doe / 146096) / 365 in
  let doy := doe - (365 * yoe + yoe / 4 - yoe / 100) in
  let mp := (5 * doy + 2) / 153 in
  let d := doy - (153 * mp + 2) / 5 + 1 in
  let m := if mp <? 10 then mp + 3 else mp - 9 in
  (yoe + era * 400 + (if m <=? 2 then 1 else 0), m, d).

(** The day number of a civil date. *)
Definition days_from_civil (y m d : Z) : Z :=
  let y := if m <=? 2 then y - 1 else y in
  let era := y / 400 in
  let yoe := y - era * 400 in
  let mp := (m + 9) mod 12 in
  let doy := (153 * mp + 2) / 5 + d - 1 in
  let doe := yoe * 365 + yoe / 4 - yoe / 100 + doy in
  era * 146097 + doe - 719468.

(** [YearFromTime(t)]. *)
Definition YearFromTime (t : Z) : Z :=
  let '(y, _, _) := civil_from_days (t / msPerDay) in y.

(** The integer part of a finite float. *)
Definition truncate (x : float) : option Z :=
  match finite_value x with
  | Some (neg, m, e) =>
      let v := if 0 <=? e then m * 2 ^ e else m / 2 ^ (- e) in
      Some (if neg then - v else v)
  | None => None
  end.

(** [TimeClip]: a time value from a number. *)
Definition TimeClip (x : float) : option Z :=
  match truncate x with
  | Some t => if Z.abs t <=? 8640000000000000 then Some t else None
  | None => None
  end.

(** ** What the host supplies

    The reading of date strings and the time zone, the conversion of strings
    to numbers and the logarithm are the host's; [parseISO] and [format] are
    the date-fns library's. The model takes them as parameters. *)

(** [Date.parse]: a time value, [None] for [NaN]. *)
Class DateParse := dateParse : string -> option Z.
(** The offset of local time from UTC, in milliseconds, at a time value. *)
Class LocalTZA := localTZA : Z -> Z.
(** [Number(string)]. *)
Class StringToNumber := stringToNumber : string -> float.
(** [Math.log]. *)
Class MathLog := Math_log : float -> float.
(** date-fns [parseISO] and [format]. *)
Class ParseISO := parseISO : string -> dateval.
Class Format := format : dateval -> string -> Result string.
(** date-fns [parseISO] on an argument that is no string, and [isValid]. *)
Class ParseISOOther := parseISOOther : prim -> Result dateval.
Class IsValid := isValid : dateval -> bool.
(** [a < b] on strings: the order by UTF-16 code units. *)
Class CodeUnitOrder := codeUnitLt : string -> string -> bool.

End Js.

(** ** An example host

    The host's time zone, its reading of date strings, its logarithm, and
    the date-fns library are parameters of the model below. This module
    supplies one host to evaluate the model on concrete inputs: the time
    zone has offset zero, [Date.parse] and date-fns's [parseISO] read the
    forms [YYYY-MM-DD] and [YYYY-MM-DDTHH:mm:ss] (with an optional [Z]) and
    nothing else, date-fns's [format] knows the tokens [dd MM yyyy HH mm],
    [Math.log] sums a series in float arithmetic, strings are compared
    byte by byte, and [Number] reads strings of decimal digits. *)

Module ExampleHost.
Import Js.

(** [Math.log]: [ln (m * 2^k) = k * ln 2 + 2 * atanh ((m - 1) / (m + 1))],
    with [m] between the square roots of one half and of two. *)
Fixpoint atanh_series (n : nat) (z2 term : float) (k : Z) : float :=
  match n with
  | O => 0%float
  | S n' => (term / float_of_Z k + atanh_series n' z2 (term * z2) (k + 2))%float
  end.

Definition log : MathLog := fun x =>
  match Prim2SF x with
  | S754_nan => nan
  | S754_zero _ => neg_infinity
  | S754_infinity neg => if neg then nan else infinity
  | S754_finite true _ _ => nan
  | S754_finite false _ _ =>
      let '(m, k) := Z.frexp x in
      let '(m, k) := if (m <? 0.7071067811865476)%float
                     then ((m * 2)%float, k - 1) else (m, k) in
      let z := ((m - 1) / (m + 1))%float in
      (float_of_Z k * 0.6931471805599453 + 2 * atanh_series 14 (z * z) z 1)%float
  end.

Definition localTZA : LocalTZA := fun t => 0.

Definition digit (c : ascii) : option Z :=
  let n := nat_of_ascii c in
  if ((48 <=? n) && (n <=? 57))%nat then Some (Z.of_nat (n - 48)) else None.

Fixpoint number (acc : Z) (cs : list ascii) : option Z :=
  match cs with
  | [] => Some acc
  | c :: cs' =>
      match digit c with
      | Some d => number (10 * acc + d) cs'
      | None => None
      end
  end.

Definition is_leap (y : Z) : bool :=
  (y mod 4 =? 0) && (negb (y mod 100 =? 0) || (y mod 400 =? 0)).

Definition days_in_month (y m : Z) : Z :=
  if m =? 2 then (if is_leap y then 29 else 28)
  else if (m =? 4) || (m =? 6) || (m =? 9) || (m =? 11) then 30 else 31.

Definition make_time (y mo d h mi sec : option Z) : option Z :=
  match y, mo, d, h, mi, sec with
  | Some y, Some mo, Some d, Some h, Some mi, Some sec =>
      if (1 <=? mo) && (mo <=? 12) && (1 <=? d) && (d <=? days_in_month y mo)
         && ((h <=? 23) && (mi <=? 59) && (sec <=? 59)
             || (h =? 24) && (mi =? 0) && (sec =? 0))
      then Some (days_from_civil y mo d * msPerDay
                 + h * 3600000 + mi * 60000 + sec * 1000)
      else None
  | _, _, _, _, _, _ => None
  end.

Definition dateParse : DateParse := fun s =>
  let zero := Some 0 in
  match list_ascii_of_string s with
  | [y1; y2; y3; y4; "-"; m1; m2; "-"; d1; d2]%char =>
      make_time (number 0 [y1; y2; y3; y4]) (number 0 [m1; m2])
                (number 0 [d1; d2]) zero zero zero
  | [y1; y2; y3; y4; "-"; m1; m2; "-"; d1; d2; "T";
     h1; h2; ":"; mi1; mi2; ":"; s1; s2]%char
  | [y1; y2; y3; y4; "-"; m1; m2; "-"; d1; d2; "T";
     h1; h2; ":"; mi1; mi2; ":"; s1; s2; "Z"]%char =>
      make_time (number 0 [y1; y2; y3; y4]) (number 0 [m1; m2])
                (number 0 [d1; d2]) (number 0 [h1; h2])
                (number 0 [mi1; mi2]) (number 0 [s1; s2])
  | _ => None
  end.

(** date-fns [parseISO]: a Date object. *)
Definition parseISO : ParseISO := fun s => DateObj (dateParse s).

Definition pad (width : nat) (z : Z) : string :=
  let ds := digits z in
  zeros (width - String.length ds) +:+ ds.

Definition is_letter (c : ascii) : bool :=
  let n := nat_of_ascii c in
  ((65 <=? n) && (n <=? 90) || (97 <=? n) && (n <=? 122))%nat.

(** The pattern cut into runs of one letter and single other characters. *)
Fixpoint tokens (cur : string) (cs : list ascii) : list string :=
  match cs with
  | [] => match cur with EmptyString => [] | _ => [cur] end
  | c :: cs' =>
      match cur with
      | EmptyString =>
          if is_letter c then tokens (String c EmptyString) cs'
          else String c EmptyString :: tokens EmptyString cs'
      | String c0 _ =>
          if Ascii.eqb c c0 then tokens (cur +:+ String c EmptyString) cs'
          else if is_letter c then cur :: tokens (String c EmptyString) cs'
          else cur :: String c EmptyString :: tokens EmptyString cs'
      end
  end.

Definition format_token (t : Z) (tok : string) : Result string :=
  let '(y, mo, d) := civil_from_days (t / msPerDay) in
  let ms := t mod msPerDay in
  if String.eqb tok "dd" then Ok (pad 2 d)
  else if String.eqb tok "MM" then Ok (pad 2 mo)
  else if String.eqb tok "yyyy" then Ok (pad 4 y)
  else if String.eqb tok "HH" then Ok (pad 2 (ms / 3600000))
  else if String.eqb tok "mm" then Ok (pad 2 (ms mod 3600000 / 60000))
  else match tok with
       | String c _ =>
           if is_letter c
           then Throw (RangeError "Format string contains an unescaped latin alphabet character")
           else Ok tok
       | EmptyString => Ok tok
       end.

Fixpoint format_tokens (t : Z) (toks : list string) : Result string :=
  match toks with
  | [] => Ok EmptyString
  | tok :: toks' =>
      rbind (format_token t tok) (fun a =>
      rbind (format_tokens t toks') (fun b => Ok (a +:+ b)))
  end.

(** date-fns [format]: a Date object or a number of milliseconds is
    formatted; anything else is an invalid date, and an invalid date
    throws. *)
Definition format : Format := fun date pattern =>
  let time :=
    match date with
    | DateObj t => t
    | RawValue (JNum x) => TimeClip x
    | RawValue _ => None
    end in
  match time with
  | Some t =>
      format_tokens (t + localTZA t) (tokens EmptyString (list_ascii_of_string pattern))
  | None => Throw (RangeError "Invalid time value")
  end.

(** date-fns [parseISO] on an argument that is no string: an invalid
    date. *)
Definition parseISOOther : ParseISOOther := fun _ => Ok (DateObj None).

(** date-fns [isValid]: a Date object with a time value, or a number that
    is one. *)
Definition isValid : IsValid := fun date =>
  match date with
  | DateObj t => bool_decide (is_Some t)
  | RawValue (JNum x) => bool_decide (is_Some (TimeClip x))
  | RawValue _ => false
  end.

(** The order of strings of ASCII characters. *)
Fixpoint string_ltb (a b : string) : bool :=
  match a, b with
  | _, EmptyString => false
  | EmptyString, String _ _ => true
  | String x a', String y b' =>
      (nat_of_ascii x <? nat_of_ascii y)%nat
      || (nat_of_ascii x =? nat_of_ascii y)%nat && string_ltb a' b'
  end.

Definition codeUnitLt : CodeUnitOrder := string_ltb.

(** [Number(string)]: the empty string is zero, a string of decimal digits
    is the float nearest to the integer it spells, and nothing else is a
    number. *)
Definition stringToNumber : StringToNumber := fun s =>
  match s with
  | EmptyString => 0%float
  | _ =>
      match number 0 (list_ascii_of_string s) with
      | Some n => float_of_Z n
      | None => nan
      end
  end.

End ExampleHost.

(* ===================================================================== *)
(** * Part II: the data model                                             *)
(* ===================================================================== *)

Import Js.

(** A prediction record of the [predictions] array of [POST /api/predict].
    A field that the response may leave out reads as [JUndefined]. *)
Module Prediction.
Record t : Type := mk {
  pile_id : Z;
  stockyard : prim;
  coal_grade : prim;
  observation_date : prim;
  predicted_fire_date : prim;
  predicted_days_to_fire : prim;
  predicted_days_to_fire_rounded : prim;
  confidence : prim;
  risk_level : prim;
  features : gmap string prim
}.
End Prediction.

(** An evaluation match record of [matched_predictions]. *)
Module MatchRecord.
Record t : Type := mk {
  pile_id : Z;
  is_match : bool;
  days_difference : prim;
  predicted_fire_date : prim;
  real_fire_date : prim;
  stockyard : prim;
  coal_grade : prim
}.
End MatchRecord.

(** The [extendedProps] object of a calendar entry: the prediction record
    whose fields [...pred] copies in, if any, and what the other keys of the
    object literals read as ([JUndefined] for a key that the entry does not
    have; [stockyard] is a key of the prediction record too). *)
Module ExtendedProps.
Record t : Type := mk {
  spread : option Prediction.t;
  type : prim;
  pileId : Z;
  daysToFire : prim;
  predictedDate : prim;
  realDate : prim;
  daysDifference : prim;
  stockyard : prim;
  coalGrade : prim
}.
End ExtendedProps.

(** A calendar entry, as handed to the calendar widget; [id] is
    [JUndefined] for an entry without one. *)
Module Event.
Record t : Type := mk {
  id : prim;
  title : string;
  start : dateval;
  backgroundColor : jsval;
  borderColor : jsval;
  extendedProps : ExtendedProps.t
}.
End Event.

(** A numeric field of the evaluation response: a number, [null], or left
    out. *)
Inductive optnum : Type :=
| NUndefined
| NNull
| Num (x : float).

(** The evaluation metrics object. *)
Module Metrics.
Record t : Type := mk {
  mae : optnum;
  accuracy_pm1 : optnum;
  accuracy_pm2 : optnum;
  accuracy_pm3 : optnum;
  total_predictions : optnum;
  correct_pm2 : optnum
}.
End Metrics.

(** The summary that [calculateMetricsSummary] returns. *)
Module Summary.
Record t : Type := mk {
  mae : string;
  accuracyPm2 : string;
  totalPredictions : float;
  correctPm2 : float;
  meetsTarget : bool
}.
End Summary.

(** A [File] of the File API: its name and its size in bytes. *)
Module File.
Record t : Type := mk {
  name : string;
  size : Z
}.
End File.

(** The [date_range] object of a prediction response. *)
Module DateRange.
Record t : Type := mk {
  data_start_date : prim;
  data_end_date : prim;
  data_years : option (list Z);
  primary_year : option Z
}.
End DateRange.

(** The response of [POST /api/predict]. *)
Module PredictResponse.
Record t : Type := mk {
  predictions : list Prediction.t;
  date_range : option DateRange.t
}.
End PredictResponse.

(** The response of [POST /api/evaluate]; [matched_predictions] is [None]
    when the response has none. *)
Module EvalResponse.
Record t : Type := mk {
  matched_predictions : option (list MatchRecord.t);
  mae : optnum;
  accuracy_pm1 : optnum;
  accuracy_pm2 : optnum;
  accuracy_pm3 : optnum;
  total_predictions : optnum;
  correct_pm2 : optnum
}.
End EvalResponse.

(** The session storage ([localStorage]), by its three keys; the JSON text
    of a stored value is the value. *)
Module Storage.
Record t : Type := mk {
  firesUploaded : option string;
  predictionDateRange : option DateRange.t;
  predictions : option (list Prediction.t)
}.
End Storage.

(** The [dateStats] object of the date/pile matrix. *)
Module DateStats.
Record t : Type := mk {
  total : nat;
  critical : nat;
  high : nat;
  medium : nat;
  low : nat
}.
End DateStats.

(** The result object of [validateCSVFile]. *)
Module Validation.
Record t : Type := mk {
  valid : bool;
  error : option string
}.
End Validation.

(* ===================================================================== *)
(** * Part III: [services/dataProcessor.js]                               *)
(* ===================================================================== *)

(** More of [Math] and of numbers, for [formatFileSize]. *)

(** [floor] of a finite float, as an integer. *)
Definition floorZ (x : float) : option Z :=
  match finite_value x with
  | Some (neg, m, e) =>
      let v := if neg then - m else m in
      Some (if 0 <=? e then v * 2 ^ e else v / 2 ^ (- e))
  | None => None
  end.

(** [Math.round]: the nearest integer, the one towards plus infinity of
    two. *)
Definition Math_round (x : float) : float :=
  match Prim2SF x with
  | S754_finite neg m e =>
      if 0 <=? e then x
      else
        let v := if neg then Z.neg m else Z.pos m in
        let n := (2 * v + 2 ^ (- e)) / 2 ^ (- e + 1) in
        if n =? 0 then (if neg then (-0)%float else 0%float) else float_of_Z n
  | _ => x
  end.

(** [Math.floor]. *)
Definition Math_floor (x : float) : float :=
  match floorZ x with
  | Some n => if is_zero x then x else float_of_Z n
  | None => x
  end.

(** [Math.pow(1024, i)] for the [i] that [Math.floor] returns: an integer
    (the power of two [2^(10 * i)], rounded; beyond two hundred either way
    it is an infinity or a zero already), an infinity or [NaN]. *)
Definition Math_pow_1024 (i : float) : float :=
  match floorZ i with
  | Some n =>
      SF2Prim (binary_normalize prec emax 1 (10 * Z.max (-200) (Z.min 200 n)) false)
  | None =>
      match Prim2SF i with
      | S754_infinity neg => if neg then 0%float else infinity
      | _ => nan
      end
  end.

(** [list[i]] for a number [i]: the element at an index, [undefined]
    otherwise. *)
Definition at_index (l : list string) (i : float) : prim :=
  match floorZ i with
  | Some n =>
      if (0 <=? n) && PrimFloat.eqb (float_of_Z n) i
      then from_option JStr JUndefined (l !! Z.to_nat n)
      else JUndefined
  | None => JUndefined
  end.

Section DataProcessor.

Context `{!StringToNumber, !MathLog, !ParseISO, !Format}.

(** [Number(value)]. *)
Definition ToNumber (value : prim) : float :=
  match value with
  | JUndefined => nan
  | JNull => 0%float
  | JBool b => if b then 1%float else 0%float
  | JNum x => x
  | JStr s => stringToNumber s
  end.

(** [formatDate]: lines 4 to 8. *)
Definition formatDate (date : prim) : Result string :=
  if negb (truthy date) then Ok ""
  else
    let dateObj := match date with JStr s => parseISO s | _ => RawValue date end in
    format dateObj "dd.MM.yyyy".

(** [formatDateTime]: lines 10 to 14. *)
Definition formatDateTime (date : prim) : Result string :=
  if negb (truthy date) then Ok ""
  else
    let dateObj := match date with JStr s => parseISO s | _ => RawValue date end in
    format dateObj "dd.MM.yyyy HH:mm".

(** [getRiskColor]: lines 16 to 24. *)
Definition colors : gmap string prim :=
  {[ "critical" := JStr "#dc2626";
     "high" := JStr "#ea580c";
     "medium" := JStr "#eab308";
     "low" := JStr "#16a34a" ]}.

Definition getRiskColor (riskLevel : prim) : jsval :=
  or_else (get colors riskLevel) (get colors (JStr "low")).

(** [formatValue]: lines 27 to 32. *)
Definition formatValue (value defaultValue : prim) : prim :=
  if is_unknown value then defaultValue else value.

(** [formatNumber]: lines 35 to 40. *)
Definition formatNumber (value : prim) (decimals : Z) (defaultValue : prim)
  : Result prim :=
  if is_unknown value then Ok defaultValue
  else rmap JStr (toFixed decimals (ToNumber value)).

(** [formatPercentage]: lines 43 to 48. *)
Definition formatPercentage (value : prim) (decimals : Z) (defaultValue : prim)
  : Result prim :=
  if is_unknown value then Ok defaultValue
  else rmap (fun s => JStr (s +:+ "%"))
            (toFixed decimals (ToNumber value * 100)%float).

(** The default of the [defaultValue] parameters. *)
Definition dash : prim := JStr "—".

(** [formatConfidence]: lines 51 to 61. A truthy value that is no string has
    no [toLowerCase] method: the call throws. *)
Definition confidenceMap : gmap string prim :=
  {[ "high" := JStr "Высокая";
     "medium" := JStr "Средняя";
     "low" := JStr "Низкая" ]}.

Definition formatConfidence (confidence defaultValue : prim) : Result jsval :=
  if negb (truthy confidence) then Ok (Prim defaultValue)
  else
    match confidence with
    | JStr s =>
        Ok (or_else (get confidenceMap (JStr (toLowerCase s))) (Prim defaultValue))
    | _ => Throw (TypeError "confidence.toLowerCase is not a function")
    end.

(** [getRiskLabel]: lines 63 to 71. *)
Definition labels : gmap string prim :=
  {[ "critical" := JStr "Критический";
     "high" := JStr "Высокий";
     "medium" := JStr "Средний";
     "low" := JStr "Низкий" ]}.

Definition getRiskLabel (riskLevel : prim) : jsval :=
  or_else (get labels riskLevel) (Prim (JStr "Неизвестно")).

(** [processCalendarEvents]: lines 73 to 86. *)
Definition newline : string := String (ascii_of_nat 10) EmptyString.

Definition calendarEntry (pred : Prediction.t) : Event.t :=
  {| Event.id := JStr ("pile_" +:+ digits (Prediction.pile_id pred));
     Event.title :=
       "Штабель #" +:+ digits (Prediction.pile_id pred) +:+ " - "
       +:+ ToString (Prediction.coal_grade pred) +:+ newline
       +:+ "Склад " +:+ ToString (Prediction.stockyard pred) +:+ " | "
       +:+ ToString (Prediction.predicted_days_to_fire_rounded pred) +:+ " дней";
     Event.start := RawValue (Prediction.predicted_fire_date pred);
     Event.extendedProps :=
       {| ExtendedProps.spread := Some pred;
          ExtendedProps.type := JUndefined;
          ExtendedProps.pileId := Prediction.pile_id pred;
          ExtendedProps.daysToFire := Prediction.predicted_days_to_fire_rounded pred;
          ExtendedProps.predictedDate := JUndefined;
          ExtendedProps.realDate := JUndefined;
          ExtendedProps.daysDifference := JUndefined;
          ExtendedProps.stockyard := Prediction.stockyard pred;
          ExtendedProps.coalGrade := JUndefined |};
     Event.backgroundColor := getRiskColor (Prediction.risk_level pred);
     Event.borderColor := getRiskColor (Prediction.risk_level pred) |}.

Definition processCalendarEvents (predictions : list Prediction.t) : list Event.t :=
  map calendarEntry predictions.

(** [calculateMetricsSummary]: lines 88 to 98. *)
Definition optnum_number (v : optnum) : float :=
  match v with
  | NUndefined => nan
  | NNull => 0%float
  | Num x => x
  end.

(** [v || 0] on a numeric field. *)
Definition optnum_or_zero (v : optnum) : float :=
  match v with
  | Num x => if is_zero x || is_nan x then 0%float else x
  | _ => 0%float
  end.

(** [s || 'N/A'] on a string. *)
Definition string_or (s fallback : string) : string :=
  if String.eqb s "" then fallback else s.

Definition calculateMetricsSummary (metrics : option Metrics.t)
  : Result (option Summary.t) :=
  match metrics with
  | None => Ok None
  | Some metrics =>
      rbind (match Metrics.mae metrics with
             | Num x => rmap (fun s => string_or s "N/A") (toFixed 2 x)
             | _ => Ok "N/A"
             end) (fun mae =>
      rbind (toFixed 1 (optnum_number (Metrics.accuracy_pm2 metrics) * 100)%float)
            (fun pct =>
      Ok (Some {| Summary.mae := mae;
                  Summary.accuracyPm2 := pct +:+ "%";
                  Summary.totalPredictions :=
                    optnum_or_zero (Metrics.total_predictions metrics);
                  Summary.correctPm2 :=
                    optnum_or_zero (Metrics.correct_pm2 metrics);
                  Summary.meetsTarget :=
                    (0.7 <=? optnum_number (Metrics.accuracy_pm2 metrics))%float |})))
  end.

(** [formatFileSize]: lines 100 to 106. [fileSizeText] is lines 102 to 105,
    on the number [bytes]. *)
Definition sizes : list string := ["Bytes"; "KB"; "MB"; "GB"].

Definition fileSizeText (bytes : Z) : string :=
  let bytes := float_of_Z bytes in
  let i := Math_floor (Math_log bytes / Math_log 1024)%float in
  numberToString (Math_round (bytes / Math_pow_1024 i * 100) / 100)%float
  +:+ " " +:+ ToString (at_index sizes i).

Definition formatFileSize (bytes : Z) : string :=
  if bytes =? 0 then "0 Bytes" else fileSizeText bytes.

(** [validateCSVFile]: lines 108 to 120. [VITE_MAX_FILE_SIZE] is the number
    that the build-time setting of that name spells, when it is set: a
    setting is a string, truthy whatever number it spells, compared as a
    number with [file.size], and never [=== 0] in [formatFileSize]. *)
Definition maxSize (VITE_MAX_FILE_SIZE : option Z) : Z :=
  default 52428800 VITE_MAX_FILE_SIZE.

Definition validateCSVFile (VITE_MAX_FILE_SIZE : option Z) (file : File.t)
  : Validation.t :=
  if negb (endsWith (File.name file) ".csv") then
    {| Validation.valid := false;
       Validation.error := Some "Файл должен быть в формате CSV" |}
  else if File.size file >? maxSize VITE_MAX_FILE_SIZE then
    {| Validation.valid := false;
       Validation.error :=
         Some ("Размер файла не должен превышать "
               +:+ match VITE_MAX_FILE_SIZE with
                   | Some n => fileSizeText n
                   | None => formatFileSize 52428800
                   end) |}
  else {| Validation.valid := true; Validation.error := None |}.

End DataProcessor.

(* ===================================================================== *)
(** * Part IV: the calendar entries and the per-date statistics           *)
(* ===================================================================== *)

Section Calendar.

Context `{!DateParse, !LocalTZA}.

(** [new Date(value)], as a time value. *)
Definition newDate (value : dateval) : option Z :=
  match value with
  | DateObj t => t
  | RawValue (JStr s) => dateParse s
  | RawValue JUndefined => None
  | RawValue JNull => Some 0
  | RawValue (JBool b) => Some (if b then 1 else 0)
  | RawValue (JNum x) => TimeClip x
  end.

(** [date.getFullYear()]: [None] for [NaN]. *)
Definition getFullYear (t : option Z) : option Z :=
  match t with
  | Some t => Some (YearFromTime (t + localTZA t))
  | None => None
  end.

(** [PredictionsCalendar.jsx], lines 101 to 182: the [events] memo. *)

(** [selectedPiles.size === 0 || selectedPiles.has(pile_id)]. *)
Definition included (selectedPiles : gset Z) (pile_id : Z) : bool :=
  (size selectedPiles =? 0)%nat || bool_decide (pile_id ∈ selectedPiles).

(** Lines 126 to 140. *)
Definition matchEntry (m : MatchRecord.t) : Event.t :=
  {| Event.id := JUndefined;
     Event.title := "✅ Совпадение: Штабель #" +:+ digits (MatchRecord.pile_id m);
     Event.start := DateObj (newDate (RawValue (MatchRecord.real_fire_date m)));
     Event.backgroundColor := Prim (JStr "#16a34a");
     Event.borderColor := Prim (JStr "#16a34a");
     Event.extendedProps :=
       {| ExtendedProps.spread := None;
          ExtendedProps.type := JStr "match";
          ExtendedProps.pileId := MatchRecord.pile_id m;
          ExtendedProps.daysToFire := JUndefined;
          ExtendedProps.predictedDate := MatchRecord.predicted_fire_date m;
          ExtendedProps.realDate := MatchRecord.real_fire_date m;
          ExtendedProps.daysDifference := MatchRecord.days_difference m;
          ExtendedProps.stockyard := MatchRecord.stockyard m;
          ExtendedProps.coalGrade := MatchRecord.coal_grade m |} |}.

(** Lines 143 to 155. *)
Definition predictionEntry (m : MatchRecord.t) : Event.t :=
  {| Event.id := JUndefined;
     Event.title := "🔮 Прогноз: Штабель #" +:+ digits (MatchRecord.pile_id m);
     Event.start := DateObj (newDate (RawValue (MatchRecord.predicted_fire_date m)));
     Event.backgroundColor := Prim (JStr "#3b82f6");
     Event.borderColor := Prim (JStr "#3b82f6");
     Event.extendedProps :=
       {| ExtendedProps.spread := None;
          ExtendedProps.type := JStr "prediction";
          ExtendedProps.pileId := MatchRecord.pile_id m;
          ExtendedProps.daysToFire := JUndefined;
          ExtendedProps.predictedDate := MatchRecord.predicted_fire_date m;
          ExtendedProps.realDate := JUndefined;
          ExtendedProps.daysDifference := JUndefined;
          ExtendedProps.stockyard := MatchRecord.stockyard m;
          ExtendedProps.coalGrade := MatchRecord.coal_grade m |} |}.

(** Lines 157 to 169. *)
Definition realEntry (m : MatchRecord.t) : Event.t :=
  {| Event.id := JUndefined;
     Event.title := "🔥 Реальное: Штабель #" +:+ digits (MatchRecord.pile_id m);
     Event.start := DateObj (newDate (RawValue (MatchRecord.real_fire_date m)));
     Event.backgroundColor := Prim (JStr "#dc2626");
     Event.borderColor := Prim (JStr "#dc2626");
     Event.extendedProps :=
       {| ExtendedProps.spread := None;
          ExtendedProps.type := JStr "real";
          ExtendedProps.pileId := MatchRecord.pile_id m;
          ExtendedProps.daysToFire := JUndefined;
          ExtendedProps.predictedDate := JUndefined;
          ExtendedProps.realDate := MatchRecord.real_fire_date m;
          ExtendedProps.daysDifference := JUndefined;
          ExtendedProps.stockyard := MatchRecord.stockyard m;
          ExtendedProps.coalGrade := MatchRecord.coal_grade m |} |}.

(** The body of the [forEach] of line 120: what one match record pushes. *)
Definition pushMatch (allEvents : list Event.t) (m : MatchRecord.t) : list Event.t :=
  if MatchRecord.is_match m then allEvents ++ [matchEntry m]
  else (allEvents ++ [predictionEntry m]) ++ [realEntry m].

(** What one match record contributes, and the comparison entries of a
    list of records before the filter on the year. *)
Definition matchEvents (m : MatchRecord.t) : list Event.t :=
  if MatchRecord.is_match m then [matchEntry m]
  else [predictionEntry m; realEntry m].

Definition comparisonEvents (selectedPiles : gset Z) (fires : list MatchRecord.t)
  : list Event.t :=
  flat_map matchEvents
    (List.filter (fun m => included selectedPiles (MatchRecord.pile_id m)) fires).

(** Line 177: [new Date(event.start).getFullYear()]. *)
Definition eventYear (event : Event.t) : option Z :=
  getFullYear (newDate (Event.start event)).

(** Line 178: [eventYear === currentYear]. *)
Definition inYear (currentYear : Z) (event : Event.t) : bool :=
  match eventYear event with
  | Some y => y =? currentYear
  | None => false
  end.

Definition events (predictions : list Prediction.t) (currentYear : Z)
    (showComparison : bool) (realFiresData : option (list MatchRecord.t))
    (selectedPiles : gset Z) : list Event.t :=
  if (length predictions =? 0)%nat then []
  else
    let filteredPredictions :=
      List.filter (fun p => included selectedPiles (Prediction.pile_id p)) predictions in
    let allEvents :=
      match realFiresData with
      | Some fires =>
          if showComparison && negb (length fires =? 0)%nat then
            let filteredRealFires :=
              List.filter (fun m => included selectedPiles (MatchRecord.pile_id m))
                          fires in
            fold_left pushMatch filteredRealFires []
          else processCalendarEvents filteredPredictions
      | None => processCalendarEvents filteredPredictions
      end in
    List.filter (inYear currentYear) allEvents.

End Calendar.

(** [DatePileMatrix.jsx], lines 44 to 62: the piles and the statistics of
    the selected date. *)
Definition onDate (selectedDate : prim) (p : Prediction.t) : bool :=
  strict_eq (Prediction.predicted_fire_date p) selectedDate.

Definition hasRisk (level : string) (p : Prediction.t) : bool :=
  strict_eq (Prediction.risk_level p) (JStr level).

Definition pilesForDate (selectedDate : prim) (predictions : list Prediction.t)
  : list Prediction.t :=
  if truthy selectedDate && (0 <? length predictions)%nat
  then List.filter (onDate selectedDate) predictions
  else [].

Definition dateStats (selectedDate : prim) (predictions : list Prediction.t)
  : DateStats.t :=
  if truthy selectedDate && (0 <? length predictions)%nat then
    let filtered := List.filter (onDate selectedDate) predictions in
    {| DateStats.total := length filtered;
       DateStats.critical := length (List.filter (hasRisk "critical") filtered);
       DateStats.high := length (List.filter (hasRisk "high") filtered);
       DateStats.medium := length (List.filter (hasRisk "medium") filtered);
       DateStats.low := length (List.filter (hasRisk "low") filtered) |}
  else
    {| DateStats.total := 0; DateStats.critical := 0; DateStats.high := 0;
       DateStats.medium := 0; DateStats.low := 0 |}.

(** Line 145: the risk level a pile card is drawn with,
    [pile.risk_level || 'low']. *)
Definition cardRiskLevel (pile : Prediction.t) : prim :=
  if truthy (Prediction.risk_level pile) then Prediction.risk_level pile
  else JStr "low".

(* ===================================================================== *)
(** * Part V: the handlers that call the service                          *)
(* ===================================================================== *)

(** ** A state-and-exception monad

    A handler runs on a world: the state of its page, the session storage,
    and what it has shown or scheduled so far. An awaited call is the
    completion it settles with, given to the handler as an argument. *)

Module World.
Record t (S : Type) : Type := mk {
  page : S;
  storage : Storage.t;
  alerts : list string;
  console : list string;
  calendar : list prim;
  timers : list string
}.
Arguments mk {S}.
Arguments page {S}.
Arguments storage {S}.
Arguments alerts {S}.
Arguments console {S}.
Arguments calendar {S}.
Arguments timers {S}.
End World.

Definition M (S A : Type) : Type := World.t S -> Result A * World.t S.

#[export] Instance M_ret {S : Type} : MRet (M S) :=
  fun A a w => (Ok a, w).

#[export] Instance M_bind {S : Type} : MBind (M S) :=
  fun A B k c w =>
    match c w with
    | (Ok a, w') => k a w'
    | (Throw e, w') => (Throw e, w')
    end.

Definition throw {S A : Type} (e : exn) : M S A := fun w => (Throw e, w).

(** [await call]: the value the call resolves with, or its rejection
    thrown. *)
Definition await {S A : Type} (call : Result A) : M S A := fun w => (call, w).

(** [try { body } catch (e) { handler } finally { final }]. *)
Definition try_catch_finally {S : Type} (body : M S unit)
    (handler : exn -> M S unit) (final : M S unit) : M S unit :=
  fun w =>
    let '(r, w1) := body w in
    let '(r', w2) := match r with
                     | Ok a => (Ok a, w1)
                     | Throw e => handler e w1
                     end in
    match final w2 with
    | (Ok _, w3) => (r', w3)
    | (Throw e, w3) => (Throw e, w3)
    end.

Definition setPage {S : Type} (f : S -> S) : M S unit :=
  fun w => (Ok tt, World.mk (f (World.page w)) (World.storage w) (World.alerts w)
                            (World.console w) (World.calendar w) (World.timers w)).

Definition setStorage {S : Type} (f : Storage.t -> Storage.t) : M S unit :=
  fun w => (Ok tt, World.mk (World.page w) (f (World.storage w)) (World.alerts w)
                            (World.console w) (World.calendar w) (World.timers w)).

Definition getStorage {S : Type} : M S Storage.t :=
  fun w => (Ok (World.storage w), w).

(** [alert(message)]. *)
Definition alert {S : Type} (message : prim) : M S unit :=
  fun w => (Ok tt, World.mk (World.page w) (World.storage w)
                            (World.alerts w ++ [ToString message])
                            (World.console w) (World.calendar w) (World.timers w)).

(** [console.error(label, error)]. *)
Definition console_error {S : Type} (label : string) : M S unit :=
  fun w => (Ok tt, World.mk (World.page w) (World.storage w) (World.alerts w)
                            (World.console w ++ [label]) (World.calendar w)
                            (World.timers w)).

(** [calendarRef.current.getApi().gotoDate(date)]. *)
Definition gotoDate {S : Type} (date : prim) : M S unit :=
  fun w => (Ok tt, World.mk (World.page w) (World.storage w) (World.alerts w)
                            (World.console w) (World.calendar w ++ [date])
                            (World.timers w)).

(** [setTimeout(() => navigate(path), delay)]. *)
Definition navigateLater {S : Type} (path : string) : M S unit :=
  fun w => (Ok tt, World.mk (World.page w) (World.storage w) (World.alerts w)
                            (World.console w) (World.calendar w)
                            (World.timers w ++ [path])).

(** [a || b] on primitives. *)
Definition prim_or (a b : prim) : prim := if truthy a then a else b.

(** [error.response?.data?.detail] and [error.message]. *)
Definition exn_detail (e : exn) : prim :=
  match e with
  | HttpError detail _ => detail
  | _ => JUndefined
  end.

Definition exn_message (e : exn) : prim :=
  match e with
  | TypeError msg | RangeError msg | Error msg => JStr msg
  | HttpError _ message => message
  end.

(** ** [PredictionsCalendar.jsx]: the state of the page *)

Module CalendarPage.
Record t : Type := mk {
  predictions : list Prediction.t;
  loading : bool;
  dateRange : option DateRange.t;
  currentYear : Z;
  availableYears : list Z;
  realFiresData : option (list MatchRecord.t);
  showComparison : bool;
  evaluationMetrics : option Metrics.t;
  selectedPiles : gset Z;
  availablePiles : list Z
}.

Definition setPredictions v s :=
  mk v (loading s) (dateRange s) (currentYear s) (availableYears s)
     (realFiresData s) (showComparison s) (evaluationMetrics s)
     (selectedPiles s) (availablePiles s).
Definition setLoading v s :=
  mk (predictions s) v (dateRange s) (currentYear s) (availableYears s)
     (realFiresData s) (showComparison s) (evaluationMetrics s)
     (selectedPiles s) (availablePiles s).
Definition setDateRange v s :=
  mk (predictions s) (loading s) v (currentYear s) (availableYears s)
     (realFiresData s) (showComparison s) (evaluationMetrics s)
     (selectedPiles s) (availablePiles s).
Definition setCurrentYear v s :=
  mk (predictions s) (loading s) (dateRange s) v (availableYears s)
     (realFiresData s) (showComparison s) (evaluationMetrics s)
     (selectedPiles s) (availablePiles s).
Definition setAvailableYears v s :=
  mk (predictions s) (loading s) (dateRange s) (currentYear s) v
     (realFiresData s) (showComparison s) (evaluationMetrics s)
     (selectedPiles s) (availablePiles s).
Definition setRealFiresData v s :=
  mk (predictions s) (loading s) (dateRange s) (currentYear s) (availableYears s)
     v (showComparison s) (evaluationMetrics s)
     (selectedPiles s) (availablePiles s).
Definition setShowComparison v s :=
  mk (predictions s) (loading s) (dateRange s) (currentYear s) (availableYears s)
     (realFiresData s) v (evaluationMetrics s)
     (selectedPiles s) (availablePiles s).
Definition setEvaluationMetrics v s :=
  mk (predictions s) (loading s) (dateRange s) (currentYear s) (availableYears s)
     (realFiresData s) (showComparison s) v
     (selectedPiles s) (availablePiles s).
Definition setSelectedPiles v s :=
  mk (predictions s) (loading s) (dateRange s) (currentYear s) (availableYears s)
     (realFiresData s) (showComparison s) (evaluationMetrics s)
     v (availablePiles s).
Definition setAvailablePiles v s :=
  mk (predictions s) (loading s) (dateRange s) (currentYear s) (availableYears s)
     (realFiresData s) (showComparison s) (evaluationMetrics s)
     (selectedPiles s) v.

(** The initial state: lines 10 to 20; [thisYear] is
    [new Date().getFullYear()]. *)
Definition initial (thisYear : Z) : t :=
  mk [] true None thisYear [] None false None ∅ [].
End CalendarPage.

(** The messages of lines 71, 79 and 93. *)
Definition uploadFiresFirst : string :=
  "Для сравнения необходимо сначала загрузить файл fires.csv на странице Dashboard.".

Definition noComparisonData : string :=
  "Ответ от сервера не содержит данных для сравнения.".

Definition realFiresNotLoaded : string :=
  "Не удалось загрузить данные о реальных возгораниях. Убедитесь, что файл fires.csv загружен и сервер доступен.".

(** ** [loadRealFiresData]: lines 68 to 99.

    [evaluatePredictions] is how the evaluation call settles: a response
    ([None] for an empty one) or a rejection. *)
Definition loadRealFiresData (evaluatePredictions : Result (option EvalResponse.t))
  : M CalendarPage.t unit :=
  store ← getStorage;
  if negb (bool_decide (Storage.firesUploaded store = Some "true")) then
    alert (JStr uploadFiresFirst)
  else
    try_catch_finally
      (setPage (CalendarPage.setLoading true);;
       response ← await evaluatePredictions;
       match response with
       | Some (EvalResponse.mk (Some matched) mae pm1 pm2 pm3 total correct) =>
           setPage (CalendarPage.setRealFiresData (Some matched));;
           setPage (CalendarPage.setEvaluationMetrics
                      (Some (Metrics.mk mae pm1 pm2 pm3 total correct)));;
           setPage (CalendarPage.setShowComparison true)
       | _ => throw (Error noComparisonData)
       end)
      (fun error =>
         console_error "Error loading real fires data:";;
         alert (prim_or (prim_or (exn_detail error) (exn_message error))
                        (JStr realFiresNotLoaded));;
         setPage (CalendarPage.setShowComparison false))
      (setPage (CalendarPage.setLoading false)).

(** ** [fetchPredictions]: lines 25 to 63.

    [getPredictions] is how the prediction call settles; [calendarRef] tells
    whether the calendar widget is mounted; [thisYear] is
    [new Date().getFullYear()]. *)
Definition distinct_sorted (l : list Z) : list Z :=
  merge_sort Z.le (remove_dups l).

Definition fetchPredictions (getPredictions : Result (option PredictResponse.t))
    (calendarRef : bool) (thisYear : Z) : M CalendarPage.t unit :=
  setPage (CalendarPage.setLoading true);;
  try_catch_finally
    (response ← await getPredictions;
     match response with
     | None =>
         throw (TypeError "Cannot read properties of undefined (reading 'predictions')")
     | Some response =>
         setPage (CalendarPage.setPredictions (PredictResponse.predictions response));;
         let piles :=
           distinct_sorted (map Prediction.pile_id (PredictResponse.predictions response)) in
         setPage (CalendarPage.setAvailablePiles piles);;
         setPage (CalendarPage.setSelectedPiles (list_to_set piles));;
         match PredictResponse.date_range response with
         | None => mret tt
         | Some range =>
             setPage (CalendarPage.setDateRange (Some range));;
             setStorage (fun st => Storage.mk (Storage.firesUploaded st) (Some range)
                                              (Storage.predictions st));;
             let years := default [] (DateRange.data_years range) in
             setPage (CalendarPage.setAvailableYears years);;
             let primaryYear :=
               match DateRange.primary_year range with
               | Some y => if y =? 0 then default thisYear (last years) else y
               | None => default thisYear (last years)
               end in
             setPage (CalendarPage.setCurrentYear primaryYear);;
             if calendarRef then gotoDate (DateRange.data_end_date range) else mret tt
         end
     end)
    (fun error =>
       console_error "Error fetching predictions:";;
       store ← getStorage;
       match Storage.predictions store with
       | Some stored => setPage (CalendarPage.setPredictions stored)
       | None => mret tt
       end)
    (setPage (CalendarPage.setLoading false)).

(** ** [Dashboard.jsx]: the state of the page and [handlePredict], lines 59
    to 86 *)

Module DashboardPage.
Record files_t : Type := mk_files {
  supplies : option File.t;
  fires : option File.t;
  temperature : option File.t;
  weather : list File.t
}.

Record t : Type := mk {
  files : files_t;
  predicting : bool;
  error : prim;
  success : prim;
  dateRange : option DateRange.t
}.

Definition setPredicting v s := mk (files s) v (error s) (success s) (dateRange s).
Definition setError v s := mk (files s) (predicting s) v (success s) (dateRange s).
Definition setSuccess v s := mk (files s) (predicting s) (error s) v (dateRange s).
Definition setDateRange v s := mk (files s) (predicting s) (error s) (success s) v.
End DashboardPage.

(** The messages of lines 61 and 82. *)
Definition requiredFilesMissing : string :=
  "Необходимо загрузить обязательные файлы: поставки, температура и хотя бы один файл погоды".

Definition predictionError : string := "Ошибка при выполнении прогноза".

(** [triggerPrediction] is how the prediction call settles. *)
Definition handlePredict (triggerPrediction : Result (option PredictResponse.t))
  : M DashboardPage.t unit :=
  fun w =>
    let files := DashboardPage.files (World.page w) in
    (if negb (bool_decide (is_Some (DashboardPage.supplies files)))
        || negb (bool_decide (is_Some (DashboardPage.temperature files)))
        || (length (DashboardPage.weather files) =? 0)%nat
     then
       setPage (DashboardPage.setError (JStr requiredFilesMissing))
     else
       setPage (DashboardPage.setPredicting true);;
       setPage (DashboardPage.setError JNull);;
       try_catch_finally
         (result ← await triggerPrediction;
          match result with
          | None =>
              throw (TypeError "Cannot read properties of undefined (reading 'date_range')")
          | Some result =>
              match PredictResponse.date_range result with
              | Some range =>
                  setPage (DashboardPage.setDateRange (Some range));;
                  setStorage (fun st => Storage.mk (Storage.firesUploaded st) (Some range)
                                                   (Storage.predictions st))
              | None => mret tt
              end;;
              setPage (DashboardPage.setSuccess (JStr "Прогноз успешно выполнен!"));;
              navigateLater "/calendar"
          end)
         (fun err =>
            setPage (DashboardPage.setError
                       (prim_or (exn_message err) (JStr predictionError))))
         (setPage (DashboardPage.setPredicting false))) w.

(* ===================================================================== *)
(** * Part V, continued: the client, the other handlers and the components *)
(* ===================================================================== *)

(** ** [services/api.js]: the response interceptor

    A rejected call reaches the handlers as [new Error(message)], with the
    message of the response body, or else of the error, or else a fixed
    text. *)

(** The error the HTTP client rejects with: [error.response?.data?.message]
    and [error.message]. *)
Module AxiosError.
Record t : Type := mk {
  response_data_message : prim;
  message : prim
}.
End AxiosError.

Definition rejectionMessage (error : AxiosError.t) : prim :=
  prim_or (prim_or (AxiosError.response_data_message error) (AxiosError.message error))
          (JStr "Произошла ошибка").

Definition responseInterceptor (error : AxiosError.t) : exn :=
  Error (ToString (rejectionMessage error)).

(** How a call through the client settles, from how the request does: the
    body of the response, or the error of the interceptor. *)
Definition apiCall {A : Type} (settled : AxiosError.t + A) : Result A :=
  match settled with
  | inl error => Throw (responseInterceptor error)
  | inr data => Ok data
  end.

(** ** [PredictionsCalendar.jsx]: the pile filter, the clicks and the
    render *)

(** [togglePileSelection]: lines 184 to 194. *)
Definition togglePileSelection (pileId : Z) (s : CalendarPage.t) : CalendarPage.t :=
  let prev := CalendarPage.selectedPiles s in
  CalendarPage.setSelectedPiles
    (if bool_decide (pileId ∈ prev) then prev ∖ {[pileId]} else prev ∪ {[pileId]}) s.

(** [selectAllPiles] and [deselectAllPiles]: lines 196 to 202. *)
Definition selectAllPiles (s : CalendarPage.t) : CalendarPage.t :=
  CalendarPage.setSelectedPiles (list_to_set (CalendarPage.availablePiles s)) s.

Definition deselectAllPiles (s : CalendarPage.t) : CalendarPage.t :=
  CalendarPage.setSelectedPiles ∅ s.

(** [handleEventClick]: lines 204 to 208; the value that
    [setSelectedPrediction] is given, [None] for [undefined]. *)
Definition handleEventClick (predictions : list Prediction.t) (event : Event.t)
  : option Prediction.t :=
  let pileId := ExtendedProps.pileId (Event.extendedProps event) in
  List.find (fun p => Prediction.pile_id p =? pileId) predictions.

(** [handleYearChange]: lines 210 to 216. *)
Definition handleYearChange (year : Z) (calendarRef : bool) : M CalendarPage.t unit :=
  setPage (CalendarPage.setCurrentYear year);;
  if calendarRef then gotoDate (JStr (digits year +:+ "-01-01")) else mret tt.

(** [getInitialDate]: lines 218 to 234; [today] is
    [new Date().toISOString().split('T')[0]]. *)
Definition getInitialDate (today : string) (w : World.t CalendarPage.t) : prim :=
  let stored :=
    match Storage.predictionDateRange (World.storage w) with
    | Some parsed =>
        if truthy (DateRange.data_end_date parsed) then DateRange.data_end_date parsed
        else JStr today
    | None => JStr today
    end in
  match CalendarPage.dateRange (World.page w) with
  | Some range =>
      if truthy (DateRange.data_end_date range) then DateRange.data_end_date range
      else stored
  | None => stored
  end.

(** The two buttons of the view mode: lines 281 to 299. *)
Definition predictionsOnlyClick : M CalendarPage.t unit :=
  setPage (CalendarPage.setShowComparison false).

Definition comparisonClick (evaluatePredictions : Result (option EvalResponse.t))
  : M CalendarPage.t unit :=
  fun w =>
    match CalendarPage.realFiresData (World.page w) with
    | None => loadRealFiresData evaluatePredictions w
    | Some _ => setPage (CalendarPage.setShowComparison true) w
    end.

Section CalendarRender.

Context `{!DateParse, !LocalTZA}.

(** The [events] memo on the state of the page. *)
Definition shownEvents (s : CalendarPage.t) : list Event.t :=
  events (CalendarPage.predictions s) (CalendarPage.currentYear s)
         (CalendarPage.showComparison s) (CalendarPage.realFiresData s)
         (CalendarPage.selectedPiles s).

End CalendarRender.

(** What a numeric field renders as, as a child of an element: nothing for
    [null] and [undefined]. *)
Definition optnum_text (v : optnum) : string :=
  match v with
  | Num x => numberToString x
  | _ => ""
  end.

(** [v.toFixed(f)] on a numeric field: [null] and [undefined] have no
    properties. *)
Definition optnum_toFixed (f : Z) (v : optnum) : Result string :=
  match v with
  | Num x => toFixed f x
  | NNull => Throw (TypeError "Cannot read properties of null (reading 'toFixed')")
  | NUndefined =>
      Throw (TypeError "Cannot read properties of undefined (reading 'toFixed')")
  end.

(** [(v * 100).toFixed(1)] followed by the percent sign. *)
Definition percentText (v : optnum) : Result string :=
  rmap (fun s => s +:+ "%") (toFixed 1 (optnum_number v * 100)%float).

(** The metrics block of the calendar page, lines 251 to 277: the texts of
    its five values, [None] when the block is not rendered. *)
Definition metricsBlock (s : CalendarPage.t) : Result (option (list string)) :=
  match CalendarPage.evaluationMetrics s with
  | Some metrics =>
      if CalendarPage.showComparison s then
        rbind (optnum_toFixed 2 (Metrics.mae metrics)) (fun mae =>
        rbind (percentText (Metrics.accuracy_pm1 metrics)) (fun pm1 =>
        rbind (percentText (Metrics.accuracy_pm2 metrics)) (fun pm2 =>
        rbind (percentText (Metrics.accuracy_pm3 metrics)) (fun pm3 =>
        Ok (Some [mae +:+ " дней"; pm1; pm2; pm3;
                  optnum_text (Metrics.total_predictions metrics)])))))
      else Ok None
  | None => Ok None
  end.

(** ** The components that print a prediction and the metrics *)

(** A bar of the chart of [MetricsChart]; [target] is [false] for a bar
    without that key. *)
Module Bar.
Record t : Type := mk {
  name : string;
  accuracy : string;
  target : bool
}.
End Bar.

(** [MetricsChart]: the [data] of the chart, [None] when the component
    renders nothing. *)
Definition MetricsChart (metrics : option Metrics.t) : Result (option (list Bar.t)) :=
  match metrics with
  | None => Ok None
  | Some metrics =>
      rbind (toFixed 1 (optnum_number (Metrics.accuracy_pm1 metrics) * 100)%float)
            (fun pm1 =>
      rbind (toFixed 1 (optnum_number (Metrics.accuracy_pm2 metrics) * 100)%float)
            (fun pm2 =>
      rbind (toFixed 1 (optnum_number (Metrics.accuracy_pm3 metrics) * 100)%float)
            (fun pm3 =>
      Ok (Some [ {| Bar.name := "±1 день"; Bar.accuracy := pm1; Bar.target := false |};
                 {| Bar.name := "±2 дня"; Bar.accuracy := pm2; Bar.target := true |};
                 {| Bar.name := "±3 дня"; Bar.accuracy := pm3; Bar.target := false |} ]))))
  end.

(** The top-level fields [days_to_fire], [stock_tons] and [temp_max_mean]
    that [PredictionCard] reads of a prediction record besides those of
    [Prediction.t]; [JUndefined] for a field that the record does not
    have. *)
Module Legacy.
Record t : Type := mk {
  days_to_fire : prim;
  stock_tons : prim;
  temp_max_mean : prim
}.
End Legacy.

(** What [PredictionCard] prints. *)
Module Card.
Record t : Type := mk {
  title : string;
  badgeClass : string;
  badge : jsval;
  stockyard : prim;
  coal_grade : prim;
  observation_date : string;
  predicted_fire_date : string;
  days : prim;
  stock : prim;
  temperature : prim;
  confidence : jsval
}.
End Card.

Section Components.

Context `{!StringToNumber, !ParseISO, !Format}.

(** [formatDate(date) || '—']. *)
Definition cardDate (date : prim) : Result string :=
  rmap (fun s => string_or s "—") (formatDate date).

(** [formatValue(rounded || Math.round(days_to_fire))]. *)
Definition cardDays (rounded days_to_fire : prim) : prim :=
  formatValue (prim_or rounded (JNum (Math_round (ToNumber days_to_fire)))) dash.

(** [prediction.features?.key || legacy], for a key that names no property
    of [Object.prototype]. *)
Definition cardFeature (prediction : Prediction.t) (key : string) (legacy : prim) : prim :=
  prim_or (default JUndefined (Prediction.features prediction !! key)) legacy.

(** The temperature: [formatNumber(v, 1)] with the unit, unless it is the
    dash. *)
Definition cardTemperature (value : prim) : Result prim :=
  rbind (formatNumber value 1 dash) (fun text =>
  if negb (strict_eq text dash)
  then rmap (fun text' => JStr (ToString text' +:+ "°C")) (formatNumber value 1 dash)
  else Ok dash).

(** [RiskBadge]: the class and the label. *)
Definition badgeClass (level : prim) : string :=
  "risk-badge badge-" +:+ ToString level.

Definition PredictionCard (prediction : Prediction.t) (legacy : Legacy.t)
  : Result Card.t :=
  rbind (cardDate (Prediction.observation_date prediction)) (fun observed =>
  rbind (cardDate (Prediction.predicted_fire_date prediction)) (fun predicted =>
  rbind (formatNumber (cardFeature prediction "stock_tons" (Legacy.stock_tons legacy))
                      1 dash) (fun stock =>
  rbind (cardTemperature
           (cardFeature prediction "temp_max_mean" (Legacy.temp_max_mean legacy)))
        (fun temperature =>
  rbind (formatConfidence (Prediction.confidence prediction) dash) (fun confidence =>
  Ok {| Card.title := "Штабель #" +:+ digits (Prediction.pile_id prediction);
        Card.badgeClass := badgeClass (Prediction.risk_level prediction);
        Card.badge := getRiskLabel (Prediction.risk_level prediction);
        Card.stockyard := formatValue (Prediction.stockyard prediction) (JStr "Нет данных");
        Card.coal_grade := formatValue (Prediction.coal_grade prediction) (JStr "Нет данных");
        Card.observation_date := observed;
        Card.predicted_fire_date := predicted;
        Card.days := cardDays (Prediction.predicted_days_to_fire_rounded prediction)
                              (Legacy.days_to_fire legacy);
        Card.stock := stock;
        Card.temperature := temperature;
        Card.confidence := confidence |}))))).

End Components.

(** ** [DatePileMatrix.jsx]: the state of the page and the loading of the
    stored predictions, lines 19 to 41 *)

Module MatrixPage.
Record t : Type := mk {
  predictions : list Prediction.t;
  selectedDate : prim;
  availableDates : list prim
}.

Definition setPredictions v s := mk v (selectedDate s) (availableDates s).
Definition setSelectedDate v s := mk (predictions s) v (availableDates s).
Definition setAvailableDates v s := mk (predictions s) (selectedDate s) v.

(** The initial state: lines 6 to 9. *)
Definition initial : t := mk [] JNull [].
End MatrixPage.

(** [[...new Set(values)]]: the values in the order of their first
    occurrence. *)
Fixpoint distinct (seen values : list prim) : list prim :=
  match values with
  | [] => []
  | value :: values' =>
      if existsb (same_value_zero value) seen then distinct seen values'
      else value :: distinct (value :: seen) values'
  end.

(** [list.filter(f)] for an [f] that may throw. *)
Fixpoint filterR {A : Type} (f : A -> Result bool) (l : list A) : Result (list A) :=
  match l with
  | [] => Ok []
  | x :: l' =>
      rbind (f x) (fun keep =>
      rbind (filterR f l') (fun kept => Ok (if keep then x :: kept else kept)))
  end.

(** A computation without effects, in a handler. *)
Definition eval {S A : Type} (r : Result A) : M S A := fun w => (r, w).

Section Matrix.

Context `{!ParseISO, !ParseISOOther, !IsValid, !CodeUnitOrder}.

(** [list.sort()]: by the order of the strings of the values; values with
    the same string keep their order. *)
Fixpoint sort_insert (value : prim) (sorted : list prim) : list prim :=
  match sorted with
  | [] => [value]
  | first :: sorted' =>
      if codeUnitLt (ToString first) (ToString value)
      then first :: sort_insert value sorted'
      else value :: sorted
  end.

Fixpoint sort (values : list prim) : list prim :=
  match values with
  | [] => []
  | value :: values' => sort_insert value (sort values')
  end.

(** [parseISO(date)] on any argument. *)
Definition parseISOArgument (date : prim) : Result dateval :=
  match date with
  | JStr s => Ok (parseISO s)
  | _ => parseISOOther date
  end.

(** Line 28: [date && isValid(parseISO(date))]. *)
Definition validDate (date : prim) : Result bool :=
  if truthy date then rmap isValid (parseISOArgument date) else Ok false.

(** Lines 27 to 29. *)
Definition uniqueDates (predictions : list Prediction.t) : Result (list prim) :=
  rmap sort (filterR validDate (distinct [] (map Prediction.predicted_fire_date predictions))).

(** The effect of lines 19 to 41. *)
Definition loadPredictions : M MatrixPage.t unit :=
  store ← getStorage;
  match Storage.predictions store with
  | None => mret tt
  | Some parsedPredictions =>
      try_catch_finally
        (setPage (MatrixPage.setPredictions parsedPredictions);;
         dates ← eval (uniqueDates parsedPredictions);
         setPage (MatrixPage.setAvailableDates dates);;
         match dates with
         | first :: _ => setPage (MatrixPage.setSelectedDate first)
         | [] => mret tt
         end)
        (fun error => console_error "Error loading predictions:")
        (mret tt)
  end.

End Matrix.

(** The page as it is mounted, on a session storage. *)
Definition matrixMounted (store : Storage.t) : World.t MatrixPage.t :=
  {| World.page := MatrixPage.initial;
     World.storage := store;
     World.alerts := [];
     World.console := [];
     World.calendar := [];
     World.timers := [] |}.

(** ** [Dashboard.jsx]: the uploads, lines 19 to 57, and [canPredict],
    line 88 *)

(** The four kinds of files: the [type] of the four calls of
    [handleUpload]. *)
Inductive fileType : Type := Supplies | Fires | Temperature | Weather.

(** The initial state of the dashboard: lines 8 to 17. *)
Definition dashboardInitial : DashboardPage.t :=
  {| DashboardPage.files :=
       {| DashboardPage.supplies := None;
          DashboardPage.fires := None;
          DashboardPage.temperature := None;
          DashboardPage.weather := [] |};
     DashboardPage.predicting := false;
     DashboardPage.error := JNull;
     DashboardPage.success := JNull;
     DashboardPage.dateRange := None |}.

Definition setFiles (f : DashboardPage.files_t -> DashboardPage.files_t)
    (s : DashboardPage.t) : DashboardPage.t :=
  DashboardPage.mk (f (DashboardPage.files s)) (DashboardPage.predicting s)
                   (DashboardPage.error s) (DashboardPage.success s)
                   (DashboardPage.dateRange s).

(** Lines 30 to 38: the file is added to the weather files, or takes the
    place of the file of its kind. *)
Definition withFile (type : fileType) (file : File.t) (prev : DashboardPage.files_t)
  : DashboardPage.files_t :=
  match type with
  | Supplies =>
      DashboardPage.mk_files (Some file) (DashboardPage.fires prev)
                             (DashboardPage.temperature prev) (DashboardPage.weather prev)
  | Fires =>
      DashboardPage.mk_files (DashboardPage.supplies prev) (Some file)
                             (DashboardPage.temperature prev) (DashboardPage.weather prev)
  | Temperature =>
      DashboardPage.mk_files (DashboardPage.supplies prev) (DashboardPage.fires prev)
                             (Some file) (DashboardPage.weather prev)
  | Weather =>
      DashboardPage.mk_files (DashboardPage.supplies prev) (DashboardPage.fires prev)
                             (DashboardPage.temperature prev)
                             (DashboardPage.weather prev ++ [file])
  end.

(** [setTimeout(() => setSuccess(null), 3000)]. *)
Definition clearSuccessLater : M DashboardPage.t unit :=
  fun w => (Ok tt, World.mk (World.page w) (World.storage w) (World.alerts w)
                            (World.console w) (World.calendar w)
                            (World.timers w ++ ["setSuccess(null)"])).

(** [handleUpload]: [upload] is how the upload call of the file settles. *)
Definition handleUpload (type : fileType) (file : File.t) (upload : Result unit)
  : M DashboardPage.t unit :=
  try_catch_finally
    (await upload;;
     setPage (setFiles (withFile type file));;
     match type with
     | Fires =>
         setStorage (fun st => Storage.mk (Some "true") (Storage.predictionDateRange st)
                                          (Storage.predictions st))
     | _ => mret tt
     end;;
     setPage (DashboardPage.setSuccess
                (JStr ("Файл " +:+ File.name file +:+ " успешно загружен")));;
     clearSuccessLater)
    (fun err => throw err)
    (mret tt).

(** [list.filter((_, i) => i !== index)], from the position [i]. *)
Fixpoint filter_index {A : Type} (keep : nat -> bool) (i : nat) (l : list A) : list A :=
  match l with
  | [] => []
  | x :: l' =>
      if keep i then x :: filter_index keep (S i) l' else filter_index keep (S i) l'
  end.

(** [handleRemoveWeatherFile]: lines 52 to 57. *)
Definition handleRemoveWeatherFile (index : nat) : M DashboardPage.t unit :=
  setPage (setFiles (fun prev =>
    DashboardPage.mk_files (DashboardPage.supplies prev) (DashboardPage.fires prev)
                           (DashboardPage.temperature prev)
                           (filter_index (fun i => negb (i =? index)%nat) 0
                                         (DashboardPage.weather prev)))).

(** [canPredict], as the button takes it: enabled when truthy. *)
Definition canPredict (files : DashboardPage.files_t) : bool :=
  bool_decide (is_Some (DashboardPage.supplies files))
  && bool_decide (is_Some (DashboardPage.temperature files))
  && (0 <? length (DashboardPage.weather files))%nat.

(** ** [FileUpload.jsx]: [onDrop], lines 9 to 52 *)

(** The state of the component, and the page it is part of. *)
Module Upload.
Record t (P : Type) : Type := mk {
  uploading : bool;
  error : prim;
  parent : P
}.
Arguments mk {P}.
Arguments uploading {P}.
Arguments error {P}.
Arguments parent {P}.

Definition setUploading {P : Type} (v : bool) (s : t P) : t P :=
  mk v (error s) (parent s).
Definition setError {P : Type} (v : prim) (s : t P) : t P :=
  mk (uploading s) v (parent s).

(** The initial state: lines 6 and 7. *)
Definition initial {P : Type} (page : P) : t P := mk false JNull page.
End Upload.

(** The world of the page, of the world of the component. *)
Definition parentWorld {P : Type} (w : World.t (Upload.t P)) : World.t P :=
  World.mk (Upload.parent (World.page w)) (World.storage w) (World.alerts w)
           (World.console w) (World.calendar w) (World.timers w).

(** A handler of the page, run from the component. *)
Definition onParent {P A : Type} (c : M P A) : M (Upload.t P) A :=
  fun w =>
    let '(r, w') := c (parentWorld w) in
    (r, World.mk (Upload.mk (Upload.uploading (World.page w))
                            (Upload.error (World.page w)) (World.page w'))
                 (World.storage w') (World.alerts w') (World.console w')
                 (World.calendar w') (World.timers w')).

Section FileUpload.

Context `{!MathLog} {P : Type}.

(** Lines 19 to 28 and 41 to 50: the upload of a valid file. *)
Definition uploadOne (onUpload : File.t -> M P unit) (file : File.t)
  : M (Upload.t P) unit :=
  setPage (Upload.setError JNull);;
  setPage (Upload.setUploading true);;
  try_catch_finally
    (onParent (onUpload file))
    (fun err =>
       setPage (Upload.setError (prim_or (exn_message err) (JStr "Ошибка загрузки файла"))))
    (setPage (Upload.setUploading false)).

(** Lines 12 to 29: the loop over the files. *)
Fixpoint dropEach (VITE_MAX_FILE_SIZE : option Z) (onUpload : File.t -> M P unit)
    (acceptedFiles : list File.t) : M (Upload.t P) unit :=
  match acceptedFiles with
  | [] => mret tt
  | file :: files =>
      let validation := validateCSVFile VITE_MAX_FILE_SIZE file in
      (if negb (Validation.valid validation) then
         setPage (Upload.setError
                    (JStr (File.name file +:+ ": "
                           +:+ default "undefined" (Validation.error validation))))
       else uploadOne onUpload file);;
      dropEach VITE_MAX_FILE_SIZE onUpload files
  end.

Definition onDrop (VITE_MAX_FILE_SIZE : option Z) (multiple : bool)
    (onUpload : File.t -> M P unit) (acceptedFiles : list File.t)
  : M (Upload.t P) unit :=
  if multiple then dropEach VITE_MAX_FILE_SIZE onUpload acceptedFiles
  else
    match acceptedFiles with
    | [] => mret tt
    | file :: _ =>
        let validation := validateCSVFile VITE_MAX_FILE_SIZE file in
        if negb (Validation.valid validation) then
          setPage (Upload.setError
                     (from_option JStr JUndefined (Validation.error validation)))
        else uploadOne onUpload file
    end.

End FileUpload.

(** The four uploads of the dashboard: lines 114 to 164 of [Dashboard.jsx];
    [upload] is how the upload call of a file settles. *)
Definition dashboardUpload (type : fileType) (upload : File.t -> Result unit)
    (file : File.t) : M DashboardPage.t unit :=
  handleUpload type file (upload file).

(* ===================================================================== *)
(** * Part VI: notions that the statements use                            *)
(* ===================================================================== *)

(** What an entry of the comparison mode carries of its match record. *)
Definition carries (event : Event.t) (m : MatchRecord.t) : Prop :=
  ExtendedProps.pileId (Event.extendedProps event) = MatchRecord.pile_id m
  /\ ExtendedProps.stockyard (Event.extendedProps event) = MatchRecord.stockyard m
  /\ ExtendedProps.coalGrade (Event.extendedProps event) = MatchRecord.coal_grade m.

(** The three values the formatters take for unknown. *)
Definition unknown_values : list prim := [JNull; JUndefined; JNum nan].

(** The four counters over a list of piles. *)
Definition riskCounts (piles : list Prediction.t) : nat :=
  length (List.filter (hasRisk "critical") piles)
  + length (List.filter (hasRisk "high") piles)
  + length (List.filter (hasRisk "medium") piles)
  + length (List.filter (hasRisk "low") piles).

(** Whether a pile has one of the four levels. *)
Definition hasKnownRisk (p : Prediction.t) : bool :=
  hasRisk "critical" p || hasRisk "high" p || hasRisk "medium" p || hasRisk "low" p.



(** The three required kinds of files are uploaded. *)
Definition filesReady (files : DashboardPage.files_t) : Prop :=
  is_Some (DashboardPage.supplies files)
  /\ is_Some (DashboardPage.temperature files)
  /\ DashboardPage.weather files <> [].

(** Whether an entry is of a selected pile, or no pile is selected. *)
Definition ofSelected (selectedPiles : gset Z) (event : Event.t) : bool :=
  included selectedPiles (ExtendedProps.pileId (Event.extendedProps event)).

(** The four colours of the risk levels. *)
Definition palette : list string := ["#dc2626"; "#ea580c"; "#eab308"; "#16a34a"].

(** The four names of the risk levels. *)
Definition riskLevels : list string := ["critical"; "high"; "medium"; "low"].

(** The characters of the text of a finite number: digits, a sign, a
    point, an exponent. *)
Definition plain (c : ascii) : bool :=
  let n := nat_of_ascii c in
  ((48 <=? n) && (n <=? 57))%nat
  || Ascii.eqb c "-" || Ascii.eqb c "." || Ascii.eqb c "e" || Ascii.eqb c "+".

Fixpoint string_forall (f : ascii -> bool) (s : string) : bool :=
  match s with
  | EmptyString => true
  | String c s' => f c && string_forall f s'
  end.

(** The world of a page after the uploads of the files of a list, one
    after the other, whether they fail or not. *)
Definition uploadAll {P : Type} (onUpload : File.t -> M P unit) (files : list File.t)
    (w : World.t P) : World.t P :=
  fold_left (fun w' file => (onUpload file w').2) files w.

(** Whether a call settles with a value. *)
Definition fulfilled {A : Type} (call : Result A) : bool :=
  match call with
  | Ok _ => true
  | Throw _ => false
  end.

Section UploadNotions.

Context `{!MathLog}.

(** Whether a file passes the upload check. *)
Definition passes (VITE_MAX_FILE_SIZE : option Z) (file : File.t) : bool :=
  Validation.valid (validateCSVFile VITE_MAX_FILE_SIZE file).

(** The message of the component after a file of a drop of several files,
    when the upload of the file settles as [upload] says: nothing after an
    upload, the message of the failure, or the name of the file and the
    reason of the check. *)
Definition fileError (VITE_MAX_FILE_SIZE : option Z) (upload : File.t -> Result unit)
    (file : File.t) : prim :=
  if passes VITE_MAX_FILE_SIZE file then
    match upload file with
    | Ok _ => JNull
    | Throw err => prim_or (exn_message err) (JStr "Ошибка загрузки файла")
    end
  else
    JStr (File.name file +:+ ": "
          +:+ default "undefined"
                (Validation.error (validateCSVFile VITE_MAX_FILE_SIZE file))).

End UploadNotions.

(* ===================================================================== *)
(** * Part VII: sample data                                               *)
(* ===================================================================== *)

Module Sample.

(** The record of the response format in [backend/README.md]. *)
Definition pile1 : Prediction.t :=
  {| Prediction.pile_id := 1;
     Prediction.stockyard := JNum 6;
     Prediction.coal_grade := JStr "A1";
     Prediction.observation_date := JStr "2020-09-30T00:00:00";
     Prediction.predicted_fire_date := JStr "2020-10-03T00:00:00";
     Prediction.predicted_days_to_fire := JNum 3.2;
     Prediction.predicted_days_to_fire_rounded := JNum 3;
     Prediction.confidence := JStr "high";
     Prediction.risk_level := JStr "high";
     Prediction.features :=
       {[ "stock_tons" := JNum 1234.5; "temp_max_mean" := JNum 45.2;
          "temp_air_mean" := JNum 18.5 ]} |}.

(** A second pile, with no risk level. *)
Definition pile2 : Prediction.t :=
  {| Prediction.pile_id := 2;
     Prediction.stockyard := JNum 4;
     Prediction.coal_grade := JStr "E5";
     Prediction.observation_date := JStr "2020-09-30T00:00:00";
     Prediction.predicted_fire_date := JStr "2020-10-20T00:00:00";
     Prediction.predicted_days_to_fire := JNum 20.4;
     Prediction.predicted_days_to_fire_rounded := JNum 20;
     Prediction.confidence := JUndefined;
     Prediction.risk_level := JUndefined;
     Prediction.features := ∅ |}.

(** A prediction matched by the real fire, one day late. *)
Definition hit : MatchRecord.t :=
  {| MatchRecord.pile_id := 1;
     MatchRecord.is_match := true;
     MatchRecord.days_difference := JNum 1;
     MatchRecord.predicted_fire_date := JStr "2020-10-03T00:00:00";
     MatchRecord.real_fire_date := JStr "2020-10-04T00:00:00";
     MatchRecord.stockyard := JNum 6;
     MatchRecord.coal_grade := JStr "A1" |}.

(** A prediction at the end of a year, missed by the fire of the next
    January. *)
Definition miss : MatchRecord.t :=
  {| MatchRecord.pile_id := 2;
     MatchRecord.is_match := false;
     MatchRecord.days_difference := JNum 9;
     MatchRecord.predicted_fire_date := JStr "2020-12-28T00:00:00";
     MatchRecord.real_fire_date := JStr "2021-01-06T00:00:00";
     MatchRecord.stockyard := JNum 4;
     MatchRecord.coal_grade := JStr "E5" |}.

(** The mock metrics of [ModelMetrics.jsx], lines 12 to 20. *)
Definition mockMetrics : Metrics.t :=
  {| Metrics.mae := Num 1.85;
     Metrics.accuracy_pm1 := Num 0.52;
     Metrics.accuracy_pm2 := Num 0.73;
     Metrics.accuracy_pm3 := Num 0.85;
     Metrics.total_predictions := Num 100;
     Metrics.correct_pm2 := Num 73 |}.

Definition events (predictions : list Prediction.t) (currentYear : Z)
    (showComparison : bool) (realFiresData : option (list MatchRecord.t))
    (selectedPiles : gset Z) : list Event.t :=
  @events ExampleHost.dateParse ExampleHost.localTZA predictions currentYear
          showComparison realFiresData selectedPiles.

Definition formatDate : prim -> Result string :=
  @formatDate ExampleHost.parseISO ExampleHost.format.

Definition formatDateTime : prim -> Result string :=
  @formatDateTime ExampleHost.parseISO ExampleHost.format.

Definition validateCSVFile : option Z -> File.t -> Validation.t :=
  @validateCSVFile ExampleHost.log.


(** The calendar page with the predictions loaded and the first pile
    selected. *)
Definition loaded : World.t CalendarPage.t :=
  {| World.page :=
       {| CalendarPage.predictions := [pile1; pile2];
          CalendarPage.loading := false;
          CalendarPage.dateRange := None;
          CalendarPage.currentYear := 2020;
          CalendarPage.availableYears := [2020];
          CalendarPage.realFiresData := None;
          CalendarPage.showComparison := false;
          CalendarPage.evaluationMetrics := None;
          CalendarPage.selectedPiles := {[1]};
          CalendarPage.availablePiles := [1; 2] |};
     World.storage :=
       {| Storage.firesUploaded := Some "true";
          Storage.predictionDateRange := None;
          Storage.predictions := Some [pile1; pile2] |};
     World.alerts := [];
     World.console := [];
     World.calendar := [];
     World.timers := [] |}.

(** The dashboard with the three kinds of files uploaded. *)
Definition csv (name : string) : File.t :=
  {| File.name := name; File.size := 2048 |}.

Definition ready : World.t DashboardPage.t :=
  {| World.page :=
       {| DashboardPage.files :=
            {| DashboardPage.supplies := Some (csv "supplies.csv");
               DashboardPage.fires := None;
               DashboardPage.temperature := Some (csv "temperature.csv");
               DashboardPage.weather := [csv "weather_data_2020.csv"] |};
          DashboardPage.predicting := false;
          DashboardPage.error := JNull;
          DashboardPage.success := JNull;
          DashboardPage.dateRange := None |};
     World.storage :=
       {| Storage.firesUploaded := None;
          Storage.predictionDateRange := None;
          Storage.predictions := None |};
     World.alerts := [];
     World.console := [];
     World.calendar := [];
     World.timers := [] |}.

(** A call rejected by the network. *)
Definition networkError : exn := HttpError JUndefined (JStr "Network Error").

(** The same, as the HTTP client has it. *)
Definition rejection : AxiosError.t :=
  {| AxiosError.response_data_message := JUndefined;
     AxiosError.message := JStr "Network Error" |}.

(** A record with a pile id and nothing else. *)
Definition bare : Prediction.t :=
  {| Prediction.pile_id := 3;
     Prediction.stockyard := JUndefined;
     Prediction.coal_grade := JUndefined;
     Prediction.observation_date := JUndefined;
     Prediction.predicted_fire_date := JUndefined;
     Prediction.predicted_days_to_fire := JUndefined;
     Prediction.predicted_days_to_fire_rounded := JUndefined;
     Prediction.confidence := JUndefined;
     Prediction.risk_level := JUndefined;
     Prediction.features := ∅ |}.

Definition noLegacy : Legacy.t :=
  {| Legacy.days_to_fire := JUndefined;
     Legacy.stock_tons := JUndefined;
     Legacy.temp_max_mean := JUndefined |}.

Definition PredictionCard : Prediction.t -> Legacy.t -> Result Card.t :=
  @PredictionCard ExampleHost.stringToNumber ExampleHost.parseISO ExampleHost.format.

Definition shownEvents : CalendarPage.t -> list Event.t :=
  @shownEvents ExampleHost.dateParse ExampleHost.localTZA.

(** An evaluation with the two match records and the mock metrics. *)
Definition evaluation : EvalResponse.t :=
  {| EvalResponse.matched_predictions := Some [hit; miss];
     EvalResponse.mae := Num 1.85;
     EvalResponse.accuracy_pm1 := Num 0.52;
     EvalResponse.accuracy_pm2 := Num 0.73;
     EvalResponse.accuracy_pm3 := Num 0.85;
     EvalResponse.total_predictions := Num 100;
     EvalResponse.correct_pm2 := Num 73 |}.

(** A prediction response with the two piles and the range of the data. *)
Definition range2020 : DateRange.t :=
  {| DateRange.data_start_date := JStr "2020-01-01";
     DateRange.data_end_date := JStr "2020-09-30";
     DateRange.data_years := Some [2020];
     DateRange.primary_year := Some 2020 |}.

Definition predicted : PredictResponse.t :=
  {| PredictResponse.predictions := [pile1; pile2];
     PredictResponse.date_range := Some range2020 |}.

(** The dashboard as it is mounted, and an upload component of it. *)
Definition empty : World.t DashboardPage.t :=
  {| World.page := dashboardInitial;
     World.storage :=
       {| Storage.firesUploaded := None;
          Storage.predictionDateRange := None;
          Storage.predictions := None |};
     World.alerts := [];
     World.console := [];
     World.calendar := [];
     World.timers := [] |}.

Definition dropzone : World.t (Upload.t DashboardPage.t) :=
  {| World.page := Upload.initial dashboardInitial;
     World.storage := World.storage empty;
     World.alerts := [];
     World.console := [];
     World.calendar := [];
     World.timers := [] |}.

(** The calendar page on a session storage. *)
Definition calendarOn (store : Storage.t) : World.t CalendarPage.t :=
  {| World.page := CalendarPage.initial 2026;
     World.storage := store;
     World.alerts := [];
     World.console := [];
     World.calendar := [];
     World.timers := [] |}.

End Sample.

(* ===================================================================== *)
(** * Part VIII: the calendar entries                                     *)
(* ===================================================================== *)

Section CalendarFacts.

Context `{!DateParse, !LocalTZA}.

Lemma filter_cons_true {A : Type} (f : A -> bool) (x : A) (l : list A) :
  f x = true -> List.filter f (x :: l) = x :: List.filter f l.
Proof. intros Hx. simpl. by rewrite Hx. Qed.

Lemma included_iff (selectedPiles : gset Z) (pile_id : Z) :
  included selectedPiles pile_id = true <->
  selectedPiles = ∅ \/ pile_id ∈ selectedPiles.
Proof.
  unfold included. rewrite orb_true_iff, Nat.eqb_eq, bool_decide_eq_true.
  by rewrite size_empty_iff, leibniz_equiv_iff.
Qed.

(** The loop of line 120 appends, record by record, what [matchEvents]
    gives. *)
Lemma fold_left_pushMatch (fires : list MatchRecord.t) (allEvents : list Event.t) :
  fold_left pushMatch fires allEvents
  = allEvents ++ flat_map matchEvents fires.
Proof.
  revert allEvents. induction fires as [|m fires IH]; intros allEvents; simpl.
  - by rewrite app_nil_r.
  - rewrite IH. unfold pushMatch, matchEvents.
    destruct (MatchRecord.is_match m); simpl; by rewrite <- ?app_assoc.
Qed.

(** The two modes of [events]. *)
Lemma events_predictions_mode predictions currentYear realFiresData selectedPiles :
  events predictions currentYear false realFiresData selectedPiles
  = List.filter (inYear currentYear)
      (processCalendarEvents
         (List.filter (fun p => included selectedPiles (Prediction.pile_id p))
                      predictions)).
Proof.
  unfold events. destruct predictions as [|p predictions]; [done|].
  simpl (length _ =? 0)%nat. cbv iota. by destruct realFiresData.
Qed.

Lemma events_comparison_mode predictions currentYear fires selectedPiles :
  predictions <> [] -> fires <> [] ->
  events predictions currentYear true (Some fires) selectedPiles
  = List.filter (inYear currentYear) (comparisonEvents selectedPiles fires).
Proof.
  intros Hp Hf. unfold events.
  destruct predictions as [|p predictions]; [done|].
  destruct fires as [|m fires]; [done|].
  simpl (length _ =? 0)%nat. cbv iota. simpl negb. simpl andb. cbv iota.
  by rewrite fold_left_pushMatch.
Qed.

(** Without predictions the list is empty, in the comparison mode too:
    the early return of line 102. *)
Lemma events_no_predictions currentYear showComparison realFiresData selectedPiles :
  events [] currentYear showComparison realFiresData selectedPiles = [].
Proof. done. Qed.

(** Before the filter on the year, every entry is of a selected pile. *)
Lemma events_shape predictions currentYear showComparison realFiresData selectedPiles :
  exists allEvents : list Event.t,
    events predictions currentYear showComparison realFiresData selectedPiles
    = List.filter (inYear currentYear) allEvents
    /\ forall event, In event allEvents ->
         included selectedPiles (ExtendedProps.pileId (Event.extendedProps event)) = true.
Proof.
  unfold events. destruct (length predictions =? 0)%nat.
  { exists []. split; [done|]. intros event []. }
  assert (Hpred : forall event,
    In event (processCalendarEvents
                (List.filter (fun p => included selectedPiles (Prediction.pile_id p))
                             predictions)) ->
    included selectedPiles (ExtendedProps.pileId (Event.extendedProps event)) = true).
  { intros event Hin. unfold processCalendarEvents in Hin.
    apply List.in_map_iff in Hin as (p & <- & Hp). by apply List.filter_In in Hp as [_ Hp]. }
  destruct realFiresData as [fires|]; [|eauto].
  destruct (showComparison && negb (length fires =? 0)%nat); [|eauto].
  eexists. split; [done|]. intros event Hin.
  rewrite fold_left_pushMatch in Hin. simpl in Hin.
  apply List.in_flat_map in Hin as (m & Hm & Hin). apply List.filter_In in Hm as [_ Hm].
  unfold matchEvents in Hin.
  destruct (MatchRecord.is_match m); simpl in Hin;
    repeat (destruct Hin as [<-|Hin]; [exact Hm|]); destruct Hin.
Qed.

(** C1 (as amended). In the predictions mode, a record of a selected pile
    (or any record, when no pile is selected) gives exactly one entry when
    its [predicted_fire_date] falls in the displayed year, between the
    entries of the records before it and of those after it, and no entry
    otherwise. The entry is anchored at the [predicted_fire_date], has the
    colour of the [risk_level] as background and border, and carries the
    whole record; the four risk levels have the colours of the table. *)
Theorem events_prediction_entry
    (before after : list Prediction.t) (pred : Prediction.t) (currentYear : Z)
    (realFiresData : option (list MatchRecord.t)) (selectedPiles : gset Z) :
  selectedPiles = ∅ \/ Prediction.pile_id pred ∈ selectedPiles ->
  events (before ++ pred :: after) currentYear false realFiresData selectedPiles
  = events before currentYear false realFiresData selectedPiles
    ++ (if inYear currentYear (calendarEntry pred) then [calendarEntry pred] else [])
    ++ events after currentYear false realFiresData selectedPiles
  /\ (inYear currentYear (calendarEntry pred) = true <->
      getFullYear (newDate (RawValue (Prediction.predicted_fire_date pred)))
      = Some currentYear)
  /\ Event.start (calendarEntry pred) = RawValue (Prediction.predicted_fire_date pred)
  /\ Event.backgroundColor (calendarEntry pred) = getRiskColor (Prediction.risk_level pred)
  /\ Event.borderColor (calendarEntry pred) = getRiskColor (Prediction.risk_level pred)
  /\ ExtendedProps.spread (Event.extendedProps (calendarEntry pred)) = Some pred
  /\ getRiskColor (JStr "critical") = Prim (JStr "#dc2626")
  /\ getRiskColor (JStr "high") = Prim (JStr "#ea580c")
  /\ getRiskColor (JStr "medium") = Prim (JStr "#eab308")
  /\ getRiskColor (JStr "low") = Prim (JStr "#16a34a").
Proof.
  intros Hsel. apply included_iff in Hsel.
  split; [|split; [|by repeat split]].
  - rewrite !events_predictions_mode, List.filter_app.
    rewrite (filter_cons_true _ pred) by done.
    unfold processCalendarEvents.
    rewrite List.map_app, List.filter_app. simpl. by destruct (inYear _ _).
  - unfold inYear, eventYear. simpl.
    destruct (getFullYear _) as [y|]; [|done].
    rewrite Z.eqb_eq. split; congruence.
Qed.

(** C2 (as amended). In the comparison mode, with predictions loaded, a
    match record of a selected pile (or any record, when no pile is
    selected) contributes, between the entries of the records before it and
    of those after it, those of its entries that fall in the displayed
    year: for a match, the one entry anchored at the real fire date, typed
    and coloured as a match; otherwise the entry anchored at the predicted
    date, typed as a prediction, and the entry anchored at the real date,
    typed as real. Each carries the pile id, the stockyard and the coal
    grade. *)
Theorem events_match_entries
    (predictions : list Prediction.t) (before after : list MatchRecord.t)
    (m : MatchRecord.t) (currentYear : Z) (selectedPiles : gset Z) :
  predictions <> [] ->
  selectedPiles = ∅ \/ MatchRecord.pile_id m ∈ selectedPiles ->
  events predictions currentYear true (Some (before ++ m :: after)) selectedPiles
  = List.filter (inYear currentYear) (comparisonEvents selectedPiles before)
    ++ List.filter (inYear currentYear) (matchEvents m)
    ++ List.filter (inYear currentYear) (comparisonEvents selectedPiles after)
  /\ (MatchRecord.is_match m = true -> matchEvents m = [matchEntry m])
  /\ (MatchRecord.is_match m = false ->
      matchEvents m = [predictionEntry m; realEntry m])
  /\ (Event.start (matchEntry m)
        = DateObj (newDate (RawValue (MatchRecord.real_fire_date m)))
      /\ ExtendedProps.type (Event.extendedProps (matchEntry m)) = JStr "match"
      /\ Event.backgroundColor (matchEntry m) = Prim (JStr "#16a34a")
      /\ carries (matchEntry m) m)
  /\ (Event.start (predictionEntry m)
        = DateObj (newDate (RawValue (MatchRecord.predicted_fire_date m)))
      /\ ExtendedProps.type (Event.extendedProps (predictionEntry m)) = JStr "prediction"
      /\ carries (predictionEntry m) m)
  /\ (Event.start (realEntry m)
        = DateObj (newDate (RawValue (MatchRecord.real_fire_date m)))
      /\ ExtendedProps.type (Event.extendedProps (realEntry m)) = JStr "real"
      /\ carries (realEntry m) m).
Proof.
  intros Hpred Hsel. apply included_iff in Hsel.
  split; [|unfold matchEvents; split; [by intros ->|split; [by intros ->|]];
           by repeat split].
  rewrite events_comparison_mode by (done || by destruct before).
  unfold comparisonEvents. rewrite List.filter_app.
  rewrite (filter_cons_true _ m) by done.
  rewrite List.flat_map_app, List.filter_app. simpl flat_map.
  by rewrite List.filter_app.
Qed.

(** C6. Every entry of the list is of a pile in the selection, unless the
    selection is empty; so no entry is of a pile left out of a selection
    that is not empty. This holds in both modes. *)
Theorem events_selected_piles_only
    (predictions : list Prediction.t) (currentYear : Z) (showComparison : bool)
    (realFiresData : option (list MatchRecord.t)) (selectedPiles : gset Z)
    (event : Event.t) :
  In event (events predictions currentYear showComparison realFiresData selectedPiles) ->
  (selectedPiles = ∅
   \/ ExtendedProps.pileId (Event.extendedProps event) ∈ selectedPiles)
  /\ (forall pile_id : Z,
        selectedPiles <> ∅ -> pile_id ∉ selectedPiles ->
        ExtendedProps.pileId (Event.extendedProps event) <> pile_id).
Proof.
  intros Hin.
  destruct (events_shape predictions currentYear showComparison realFiresData
                         selectedPiles) as (allEvents & Heq & Hall).
  rewrite Heq in Hin. apply List.filter_In in Hin as [Hin _].
  apply Hall, included_iff in Hin. split; [done|].
  intros pile_id Hne Hout Hid. destruct Hin as [Hin|Hin]; [done|].
  by rewrite Hid in Hin.
Qed.

(** C7. Every entry of the list has its anchor date in the displayed
    year: [new Date(event.start).getFullYear()] is [currentYear], in both
    modes. *)
Theorem events_in_current_year
    (predictions : list Prediction.t) (currentYear : Z) (showComparison : bool)
    (realFiresData : option (list MatchRecord.t)) (selectedPiles : gset Z) :
  Forall (fun event => eventYear event = Some currentYear)
         (events predictions currentYear showComparison realFiresData selectedPiles).
Proof.
  destruct (events_shape predictions currentYear showComparison realFiresData
                         selectedPiles) as (allEvents & -> & _).
  apply List.Forall_forall. intros event Hin. apply List.filter_In in Hin as [_ Hyear].
  unfold inYear in Hyear. destruct (eventYear event) as [y|]; [|done].
  by apply Z.eqb_eq in Hyear as ->.
Qed.

End CalendarFacts.

(** ** The calendar on the sample data, on the example host *)

(** C1, the claim as written, fails: pile 1 is selected, and with the year
    2021 displayed its record, predicted for October 2020, has no entry. *)
Lemma events_prediction_other_year :
  (Prediction.pile_id Sample.pile1 ∈ ({[1]} : gset Z))
  /\ Sample.events [Sample.pile1] 2021 false None {[1]} = [].
Proof. split; [by apply elem_of_singleton|]. by vm_compute. Qed.

Lemma events_prediction_entry_witness :
  (({[1]} : gset Z) = ∅ \/ Prediction.pile_id Sample.pile1 ∈ ({[1]} : gset Z))
  /\ Sample.events [Sample.pile2; Sample.pile1] 2020 false None {[1]}
     = [calendarEntry Sample.pile1].
Proof.
  assert (Hsel : ({[1]} : gset Z) = ∅
                 \/ Prediction.pile_id Sample.pile1 ∈ ({[1]} : gset Z))
    by (right; by apply elem_of_singleton).
  split; [exact Hsel|].
  destruct (@events_prediction_entry ExampleHost.dateParse ExampleHost.localTZA
              [Sample.pile2] [] Sample.pile1 2020 None {[1]} Hsel) as [Heq _].
  unfold Sample.events. refine (eq_trans Heq _). by vm_compute.
Defined.

(** C2, the claim as written, fails: with the year 2021 displayed the match
    of October 2020 has no entry, and with 2020 displayed the missed
    prediction has one entry, not two. *)
Lemma events_match_other_year :
  MatchRecord.is_match Sample.hit = true
  /\ Sample.events [Sample.pile1] 2021 true (Some [Sample.hit]) ∅ = []
  /\ MatchRecord.is_match Sample.miss = false
  /\ Sample.events [Sample.pile1] 2020 true (Some [Sample.miss]) ∅
     = [predictionEntry (H := ExampleHost.dateParse) Sample.miss].
Proof. repeat split; by vm_compute. Qed.

Lemma events_match_entries_witness :
  [Sample.pile1] <> []
  /\ ((∅ : gset Z) = ∅ \/ MatchRecord.pile_id Sample.miss ∈ (∅ : gset Z))
  /\ Sample.events [Sample.pile1] 2020 true (Some [Sample.hit; Sample.miss]) ∅
     = [matchEntry (H := ExampleHost.dateParse) Sample.hit;
        predictionEntry (H := ExampleHost.dateParse) Sample.miss].
Proof.
  assert (Hpred : [Sample.pile1] <> []) by done.
  assert (Hsel : (∅ : gset Z) = ∅ \/ MatchRecord.pile_id Sample.miss ∈ (∅ : gset Z))
    by (by left).
  split; [exact Hpred|]. split; [exact Hsel|].
  destruct (@events_match_entries ExampleHost.dateParse ExampleHost.localTZA
              [Sample.pile1] [Sample.hit] [] Sample.miss 2020 ∅ Hpred Hsel)
    as [Heq _].
  unfold Sample.events. refine (eq_trans Heq _). by vm_compute.
Defined.

Lemma events_selected_piles_only_witness :
  In (calendarEntry Sample.pile1)
     (Sample.events [Sample.pile1; Sample.pile2] 2020 false None {[1]})
  /\ ExtendedProps.pileId (Event.extendedProps (calendarEntry Sample.pile1)) <> 2.
Proof.
  assert (Hin : In (calendarEntry Sample.pile1)
                   (Sample.events [Sample.pile1; Sample.pile2] 2020 false None {[1]}))
    by (vm_compute; by left).
  split; [exact Hin|].
  destruct (@events_selected_piles_only ExampleHost.dateParse ExampleHost.localTZA
              _ _ _ _ _ _ Hin) as [_ Hout].
  apply Hout; [|by apply not_elem_of_singleton].
  intros Hempty. by apply (non_empty_singleton_L (C := gset Z) 1).
Defined.

(* ===================================================================== *)
(** * Part IX: the formatters, the summary and the upload check           *)
(* ===================================================================== *)

(** ** Rounding to a number of decimals *)

(** [toFixed_n f m e] is the integer nearest to [m * 2^e * 10^f], the
    upper one of two: [n - 1/2 <= m * 2^e * 10^f < n + 1/2]. *)
Lemma toFixed_n_nearest (f m e : Z) :
  0 <= f -> 0 <= m ->
  (2 * toFixed_n f m e - 1) * pow2 (- e) <= 2 * m * pow2 e * 10 ^ f
  /\ 2 * m * pow2 e * 10 ^ f < (2 * toFixed_n f m e + 1) * pow2 (- e).
Proof.
  intros Hf Hm. unfold toFixed_n, pow2.
  destruct (Z.leb_spec 0 e) as [He|He].
  - rewrite (Z.max_r (- e) 0), (Z.max_l e 0) by lia. simpl (2 ^ 0). lia.
  - rewrite (Z.max_l (- e) 0), (Z.max_r e 0) by lia. simpl (2 ^ 0).
    assert (Hd : 0 < 2 ^ (- e)) by (apply Z.pow_pos_nonneg; lia).
    replace (2 ^ (- e + 1)) with (2 * 2 ^ (- e))
      by (rewrite Z.pow_add_r by lia; simpl (2 ^ 1); lia).
    pose proof (Z.div_mod (2 * m * 10 ^ f + 2 ^ (- e)) (2 * 2 ^ (- e))) as Hdiv.
    pose proof (Z.mod_pos_bound (2 * m * 10 ^ f + 2 ^ (- e)) (2 * 2 ^ (- e))) as Hmod.
    lia.
Qed.

(** A magnitude below [10^21] is written in fixed notation. *)
Lemma sc_leb_1e21 (m e : Z) :
  m * pow2 e < 10 ^ 21 * pow2 (- e) -> sc_leb (1, 0, 21) (m, e, 0) = false.
Proof.
  intros Hbelow.
  assert (Ha : sc_num (1, 0, 21) = 10 ^ 21) by done.
  assert (Hb : sc_den (1, 0, 21) = 1) by done.
  assert (Hc : sc_num (m, e, 0) = m * pow2 e)
    by (unfold sc_num; change (pow10 0) with 1; lia).
  assert (Hd : sc_den (m, e, 0) = pow2 (- e))
    by (unfold sc_den; change (pow10 (- 0)) with 1; lia).
  unfold sc_leb, sc_compare. rewrite Ha, Hb, Hc, Hd.
  destruct (Z.compare_spec (10 ^ 21 * pow2 (- e)) (m * pow2 e * 1)); [lia..|done].
Qed.

Lemma finite_value_nonneg (x : float) (neg : bool) (m e : Z) :
  finite_value x = Some (neg, m, e) -> 0 <= m.
Proof.
  unfold finite_value. destruct (Prim2SF x); intros [= <- <- <-]; lia.
Qed.

Lemma string_length_app (a b : string) :
  String.length (a +:+ b) = (String.length a + String.length b)%nat.
Proof. induction a as [|c a IH]; simpl; [done|]. by rewrite IH. Qed.

Lemma string_or_nonempty (s fallback : string) :
  (0 < String.length s)%nat -> string_or s fallback = s.
Proof. unfold string_or. destruct s; simpl; [lia|done]. Qed.

(** With decimals asked for, the notation has a decimal point. *)
Lemma fixed_notation_nonempty (f n : Z) :
  f <> 0 -> (0 < String.length (fixed_notation f n))%nat.
Proof.
  intros Hf. unfold fixed_notation. apply Z.eqb_neq in Hf as ->.
  rewrite !string_length_app. simpl. lia.
Qed.

(** There is one [NaN]. *)
Lemma is_nan_nan (x : float) : is_nan x = true -> x = nan.
Proof.
  unfold is_nan, PrimFloat.is_nan. rewrite FloatAxioms.eqb_spec. intros Hx.
  apply Prim2SF_inj. change (Prim2SF nan) with S754_nan.
  destruct (Prim2SF x) as [s|s| |s m e]; [by destruct s..|done|].
  exfalso. unfold SFeqb, SFcompare in Hx.
  rewrite Z.compare_refl, Pos.compare_refl in Hx. by destruct s.
Qed.

(** The values that the guard of the formatters takes for unknown are
    [null], [undefined] and [NaN]. *)
Lemma is_unknown_values (value : prim) :
  is_unknown value = true <-> In value unknown_values.
Proof.
  unfold unknown_values. split.
  - destruct value as [| |b|x|s]; simpl; try done; [tauto..|].
    intros Hx. apply is_nan_nan in Hx as ->. tauto.
  - intros [<-|[<-|[<-|[]]]]; by vm_compute.
Qed.

Section DataProcessorFacts.

Context `{!StringToNumber, !MathLog, !ParseISO, !Format}.

(** ** The colour of a risk level *)

(** A level that is no key of [colors] and no property of
    [Object.prototype] has the colour of the low level. *)
Lemma getRiskColor_fallback (riskLevel : prim) :
  ToString riskLevel ∉ ["critical"; "high"; "medium"; "low"] ->
  inherited (ToString riskLevel) = None ->
  getRiskColor riskLevel = Prim (JStr "#16a34a").
Proof.
  intros Hkey Hproto.
  assert (Hne : forall key : string,
             key ∈ ["critical"; "high"; "medium"; "low"] -> key <> ToString riskLevel)
    by (intros key Hin Heq; apply Hkey; by rewrite <- Heq).
  unfold getRiskColor, get at 1, colors.
  rewrite !lookup_insert_ne, lookup_singleton_ne, Hproto;
    [done|apply Hne; set_solver..].
Qed.

(** C10, at the failing input: the level ["constructor"] reads the
    constructor that [colors] inherits, and [getRiskColor] returns that
    function instead of the colour of the low level; a missing level and a
    level with a plain unknown name do get the colour of the low level. *)
Lemma getRiskColor_constructor :
  getRiskColor (JStr "constructor") = Builtin "Object"
  /\ getRiskColor JNull = Prim (JStr "#16a34a")
  /\ getRiskColor JUndefined = Prim (JStr "#16a34a")
  /\ getRiskColor (JStr "extreme") = Prim (JStr "#16a34a").
Proof. repeat split; by vm_compute. Qed.

(** ** The formatters on an unknown value *)

(** C5 (as amended). On [null], [undefined] and [NaN], no formatter throws
    and each returns one fixed value: [formatValue], [formatNumber],
    [formatPercentage] and [formatConfidence] the placeholder (the dash, by
    default), whatever the number of decimals; [getRiskLabel] the label of
    an unknown level; [formatDate] and [formatDateTime] the empty string. *)
Theorem formatters_unknown (decimals : Z) (defaultValue : prim) :
  Forall (fun value =>
            formatValue value defaultValue = defaultValue
            /\ formatNumber value decimals defaultValue = Ok defaultValue
            /\ formatPercentage value decimals defaultValue = Ok defaultValue
            /\ formatConfidence value defaultValue = Ok (Prim defaultValue)
            /\ getRiskLabel value = Prim (JStr "Неизвестно")
            /\ formatDate value = Ok ""
            /\ formatDateTime value = Ok "")
         unknown_values
  /\ formatNumber (JNum nan) 1 dash = Ok (JStr "—")
  /\ formatNumber JNull 1 dash = Ok (JStr "—").
Proof.
  split; [|done].
  unfold unknown_values.
  repeat first [apply List.Forall_nil | apply List.Forall_cons];
    repeat split; by vm_compute.
Qed.

(** ** The metrics summary *)

(** C4. Without metrics there is no summary. With metrics whose fields are
    numbers - the error [mae] finite, of sign [neg] and magnitude
    [m * 2^e] below [10^21], the counts not [NaN] - the summary holds: the
    notation with two decimals of the integer [n] nearest to a hundred
    times the magnitude of the error, [n - 1/2 <= 100 * m * 2^e < n + 1/2],
    behind its sign; the accuracy times a hundred with one decimal and a
    percent sign; the two counts as they are (a zero as the zero); and
    [meetsTarget] telling whether the accuracy is at least [0.7]: yes at
    [0.7], no at [0.69]. The function is a function of its argument
    alone. *)
Theorem calculateMetricsSummary_ok
    (metrics : Metrics.t) (mae acc total correct : float)
    (neg : bool) (m e : Z) :
  Metrics.mae metrics = Num mae ->
  Metrics.accuracy_pm2 metrics = Num acc ->
  Metrics.total_predictions metrics = Num total ->
  Metrics.correct_pm2 metrics = Num correct ->
  finite_value mae = Some (neg, m, e) ->
  m * pow2 e < 10 ^ 21 * pow2 (- e) ->
  is_nan total = false -> is_nan correct = false ->
  let n := toFixed_n 2 m e in
  calculateMetricsSummary None = Ok None
  /\ calculateMetricsSummary (Some metrics)
     = Ok (Some {| Summary.mae := (if neg then "-" else "") +:+ fixed_notation 2 n;
                   Summary.accuracyPm2 := toFixed_text 1 (acc * 100) +:+ "%";
                   Summary.totalPredictions := if is_zero total then 0%float else total;
                   Summary.correctPm2 := if is_zero correct then 0%float else correct;
                   Summary.meetsTarget := (0.7 <=? acc)%float |})
  /\ ((2 * n - 1) * pow2 (- e) <= 2 * m * pow2 e * 10 ^ 2
      /\ 2 * m * pow2 e * 10 ^ 2 < (2 * n + 1) * pow2 (- e))
  /\ (0.7 <=? 0.7)%float = true
  /\ (0.7 <=? 0.69)%float = false.
Proof.
  intros Hmae Hacc Htotal Hcorrect Hsf Hbelow Hnt Hnc n.
  split; [done|].
  split; [|split; [apply toFixed_n_nearest; [done|by eapply finite_value_nonneg]|done]].
  assert (Htext : toFixed_text 2 mae
                  = (if neg then "-" else "") +:+ fixed_notation 2 n)
    by (unfold toFixed_text; by rewrite Hsf, sc_leb_1e21).
  assert (Hlen : (0 < String.length (toFixed_text 2 mae))%nat).
  { rewrite Htext, string_length_app.
    pose proof (fixed_notation_nonempty 2 n). lia. }
  unfold calculateMetricsSummary. rewrite Hmae, Hacc, Htotal, Hcorrect.
  change (toFixed 2 mae) with (Ok (A := string) (toFixed_text 2 mae)).
  change (toFixed 1 ?x) with (Ok (A := string) (toFixed_text 1 x)).
  cbn [rmap rbind optnum_number optnum_or_zero].
  by rewrite string_or_nonempty, Htext, Hnt, Hnc, !orb_false_r.
Qed.

(** ** The upload check *)

(** C8. [validateCSVFile] returns a result for every file and every
    setting: invalid, with a reason, for a name that does not end in
    [.csv], whatever the size; invalid, with a reason, for a [.csv] name
    and a size over the maximum; valid for a [.csv] name and a size up to
    the maximum. The maximum is 52428800 bytes, 50 MiB, unless set. *)
Theorem validateCSVFile_cases (VITE_MAX_FILE_SIZE : option Z) (file : File.t) :
  (endsWith (File.name file) ".csv" = false ->
   Validation.valid (validateCSVFile VITE_MAX_FILE_SIZE file) = false
   /\ is_Some (Validation.error (validateCSVFile VITE_MAX_FILE_SIZE file)))
  /\ (endsWith (File.name file) ".csv" = true ->
      maxSize VITE_MAX_FILE_SIZE < File.size file ->
      Validation.valid (validateCSVFile VITE_MAX_FILE_SIZE file) = false
      /\ is_Some (Validation.error (validateCSVFile VITE_MAX_FILE_SIZE file)))
  /\ (endsWith (File.name file) ".csv" = true ->
      File.size file <= maxSize VITE_MAX_FILE_SIZE ->
      validateCSVFile VITE_MAX_FILE_SIZE file
      = {| Validation.valid := true; Validation.error := None |})
  /\ maxSize None = 52428800
  /\ maxSize None = 50 * 1024 * 1024.
Proof.
  unfold validateCSVFile. split; [|split; [|split; [|done]]].
  - intros ->. simpl. split; [done|by eexists].
  - intros -> Hsize. simpl. apply Z.gtb_lt in Hsize as ->. split; [done|by eexists].
  - intros -> Hsize. simpl.
    destruct (Z.gtb_spec (File.size file) (maxSize VITE_MAX_FILE_SIZE)); [lia|done].
Qed.

End DataProcessorFacts.

(** ** The formatters, the summary and the upload check on sample data *)

(** C5, the claim as written, fails: on [null] and on [undefined] the date
    formatters return the empty string, not a placeholder. *)
Lemma formatDate_blank :
  is_unknown JNull = true
  /\ Sample.formatDate JNull = Ok ""
  /\ Sample.formatDateTime JUndefined = Ok "".
Proof. by vm_compute. Qed.

Example formatDate_sample :
  Sample.formatDate (Prediction.predicted_fire_date Sample.pile1) = Ok "03.10.2020".
Proof. by vm_compute. Qed.

Lemma calculateMetricsSummary_ok_witness :
  finite_value 1.85 = Some (false, 8331659310635418, -52)
  /\ 8331659310635418 * pow2 (-52) < 10 ^ 21 * pow2 (- -52)
  /\ calculateMetricsSummary (Some Sample.mockMetrics)
     = Ok (Some {| Summary.mae := "1.85";
                   Summary.accuracyPm2 := "73.0%";
                   Summary.totalPredictions := 100;
                   Summary.correctPm2 := 73;
                   Summary.meetsTarget := true |}).
Proof.
  assert (Hsf : finite_value 1.85 = Some (false, 8331659310635418, -52))
    by (by vm_compute).
  assert (Hbelow : 8331659310635418 * pow2 (-52) < 10 ^ 21 * pow2 (- -52))
    by (by vm_compute).
  split; [exact Hsf|]. split; [exact Hbelow|].
  pose proof (calculateMetricsSummary_ok Sample.mockMetrics 1.85 0.73 100 73
                false 8331659310635418 (-52)
                eq_refl eq_refl eq_refl eq_refl Hsf Hbelow eq_refl eq_refl)
    as Hsummary.
  cbv zeta in Hsummary. destruct Hsummary as (_ & Heq & _).
  refine (eq_trans Heq _). by vm_compute.
Defined.

Lemma validateCSVFile_cases_witness :
  Validation.valid
    (Sample.validateCSVFile None {| File.name := "data.txt"; File.size := 10 |}) = false
  /\ Validation.valid
       (Sample.validateCSVFile None {| File.name := "data.csv"; File.size := 52428801 |})
     = false
  /\ Sample.validateCSVFile None {| File.name := "data.csv"; File.size := 52428800 |}
     = {| Validation.valid := true; Validation.error := None |}.
Proof.
  split; [|split].
  - destruct (@validateCSVFile_cases ExampleHost.log None
                {| File.name := "data.txt"; File.size := 10 |})
      as (Hname & _).
    by apply Hname.
  - destruct (@validateCSVFile_cases ExampleHost.log None
                {| File.name := "data.csv"; File.size := 52428801 |})
      as (_ & Hsize & _).
    by apply Hsize.
  - destruct (@validateCSVFile_cases ExampleHost.log None
                {| File.name := "data.csv"; File.size := 52428800 |})
      as (_ & _ & Hvalid & _).
    by apply Hvalid.
Defined.

Example validateCSVFile_reason :
  Sample.validateCSVFile None {| File.name := "data.csv"; File.size := 52428801 |}
  = {| Validation.valid := false;
       Validation.error := Some "Размер файла не должен превышать 50 MB" |}.
Proof. by vm_compute. Qed.

(* ===================================================================== *)
(** * Part X: the per-date statistics                                     *)
(* ===================================================================== *)

(** A pile counts under one level at most. *)
Lemma hasRisk_exclusive (p : Prediction.t) :
  (Nat.b2n (hasRisk "critical" p) + Nat.b2n (hasRisk "high" p)
   + Nat.b2n (hasRisk "medium" p) + Nat.b2n (hasRisk "low" p)
   = Nat.b2n (hasKnownRisk p))%nat.
Proof.
  unfold hasKnownRisk, hasRisk, strict_eq.
  destruct (Prediction.risk_level p) as [| |b|x|s]; try done.
  destruct (String.eqb_spec s "critical") as [->|]; [done|].
  destruct (String.eqb_spec s "high") as [->|]; [done|].
  destruct (String.eqb_spec s "medium") as [->|]; [done|].
  by destruct (String.eqb_spec s "low").
Qed.

(** The counters count the piles that have one of the four levels. *)
Lemma riskCounts_known (piles : list Prediction.t) :
  riskCounts piles = length (List.filter hasKnownRisk piles).
Proof.
  unfold riskCounts. induction piles as [|p piles IH]; [done|].
  pose proof (hasRisk_exclusive p) as Hp. simpl.
  destruct (hasRisk "critical" p), (hasRisk "high" p), (hasRisk "medium" p),
    (hasRisk "low" p), (hasKnownRisk p); simpl in *; lia.
Qed.

(** The total is the number of records predicted for the selected date,
    and the four counters sum to the number of those that have one of the
    four levels: to the total at most. *)
Lemma dateStats_counts (selectedDate : prim) (predictions : list Prediction.t) :
  truthy selectedDate = true ->
  let stats := dateStats selectedDate predictions in
  let filtered := List.filter (onDate selectedDate) predictions in
  DateStats.total stats = length filtered
  /\ (DateStats.critical stats + DateStats.high stats + DateStats.medium stats
      + DateStats.low stats = length (List.filter hasKnownRisk filtered))%nat
  /\ (DateStats.critical stats + DateStats.high stats + DateStats.medium stats
      + DateStats.low stats <= DateStats.total stats)%nat.
Proof.
  intros Hdate stats filtered.
  assert (Hstats : stats
    = {| DateStats.total := length filtered;
         DateStats.critical := length (List.filter (hasRisk "critical") filtered);
         DateStats.high := length (List.filter (hasRisk "high") filtered);
         DateStats.medium := length (List.filter (hasRisk "medium") filtered);
         DateStats.low := length (List.filter (hasRisk "low") filtered) |}).
  { unfold stats, filtered, dateStats. rewrite Hdate.
    by destruct predictions. }
  rewrite Hstats. simpl. fold (riskCounts filtered).
  rewrite riskCounts_known. split; [done|]. split; [done|].
  apply List.filter_length_le.
Qed.

(** C3, at the failing input: the one record predicted for the selected
    date has no risk level; the total is one and the four counters are
    zero, while the card of the pile is drawn with the low level. *)
Lemma dateStats_missing_risk_level :
  Prediction.risk_level Sample.pile2 = JUndefined
  /\ dateStats (Prediction.predicted_fire_date Sample.pile2) [Sample.pile2]
     = {| DateStats.total := 1; DateStats.critical := 0; DateStats.high := 0;
          DateStats.medium := 0; DateStats.low := 0 |}
  /\ pilesForDate (Prediction.predicted_fire_date Sample.pile2) [Sample.pile2]
     = [Sample.pile2]
  /\ cardRiskLevel Sample.pile2 = JStr "low".
Proof. by vm_compute. Qed.

(* ===================================================================== *)
(** * Part XI: a service call that fails                                  *)
(* ===================================================================== *)


(** [loadRealFiresData] on a response with matched predictions: the real
    fires and the metrics are those of the response, the comparison is on,
    and nothing is shown. *)
Lemma loadRealFiresData_success
    (response : EvalResponse.t) (matched : list MatchRecord.t)
    (w : World.t CalendarPage.t) :
  EvalResponse.matched_predictions response = Some matched ->
  Storage.firesUploaded (World.storage w) = Some "true" ->
  let w' := (loadRealFiresData (Ok (Some response)) w).2 in
  (loadRealFiresData (Ok (Some response)) w).1 = Ok tt
  /\ World.alerts w' = World.alerts w
  /\ CalendarPage.predictions (World.page w') = CalendarPage.predictions (World.page w)
  /\ CalendarPage.realFiresData (World.page w') = Some matched
  /\ CalendarPage.evaluationMetrics (World.page w')
     = Some {| Metrics.mae := EvalResponse.mae response;
               Metrics.accuracy_pm1 := EvalResponse.accuracy_pm1 response;
               Metrics.accuracy_pm2 := EvalResponse.accuracy_pm2 response;
               Metrics.accuracy_pm3 := EvalResponse.accuracy_pm3 response;
               Metrics.total_predictions := EvalResponse.total_predictions response;
               Metrics.correct_pm2 := EvalResponse.correct_pm2 response |}
  /\ CalendarPage.showComparison (World.page w') = true
  /\ CalendarPage.loading (World.page w') = false.
Proof.
  intros Hmatched Hfires.
  destruct w as [page [fires range cached] alerts console calendar timers].
  destruct response as [matched' mae pm1 pm2 pm3 total correct].
  simpl in *. by subst.
Qed.






(* ===================================================================== *)
(** * Part XII: the pile filter and the clicks of the calendar page       *)
(* ===================================================================== *)

(** ** The selection of piles *)

Ltac membership :=
  intros;
  repeat first [ rewrite elem_of_difference | rewrite elem_of_union
               | rewrite elem_of_singleton ];
  intuition congruence.

Lemma toggle_out (pileId : Z) (prev : gset Z) :
  pileId ∈ prev -> (prev ∖ {[pileId]}) ∪ {[pileId]} = prev.
Proof.
  intros Hin. apply set_eq. intros x. destruct (decide (x = pileId)) as [->|].
  - membership.
  - membership.
Qed.

Lemma toggle_in (pileId : Z) (prev : gset Z) :
  pileId ∉ prev -> (prev ∪ {[pileId]}) ∖ {[pileId]} = prev.
Proof.
  intros Hout. apply set_eq. intros x. destruct (decide (x = pileId)) as [->|]; membership.
Qed.

(** X1. Toggling a pile changes the membership of that pile and of no other,
    and leaves the rest of the page as it is; toggling it again gives the
    page back. *)
Theorem togglePileSelection_twice (pileId : Z) (s : CalendarPage.t) :
  togglePileSelection pileId (togglePileSelection pileId s) = s
  /\ (pileId ∈ CalendarPage.selectedPiles (togglePileSelection pileId s)
      <-> pileId ∉ CalendarPage.selectedPiles s)
  /\ (forall other : Z, other <> pileId ->
        other ∈ CalendarPage.selectedPiles (togglePileSelection pileId s)
        <-> other ∈ CalendarPage.selectedPiles s)
  /\ CalendarPage.setSelectedPiles (CalendarPage.selectedPiles s)
                                   (togglePileSelection pileId s) = s.
Proof.
  destruct s as [predictions loading range year years fires comparison metrics
                   selected available].
  unfold togglePileSelection, CalendarPage.setSelectedPiles. simpl.
  destruct (decide (pileId ∈ selected)) as [Hin|Hout].
  - rewrite (bool_decide_eq_true_2 _ Hin).
    rewrite bool_decide_eq_false_2 by membership.
    rewrite toggle_out by done. split; [done|]. split; [membership|].
    split; [membership|done].
  - rewrite (bool_decide_eq_false_2 _ Hout).
    rewrite bool_decide_eq_true_2 by membership.
    rewrite toggle_in by done. split; [done|]. split; [membership|].
    split; [membership|done].
Qed.

Section SelectionFacts.

Context `{!DateParse, !LocalTZA}.

Lemma filter_all {A : Type} (f : A -> bool) (l : list A) :
  (forall x, In x l -> f x = true) -> List.filter f l = l.
Proof.
  induction l as [|x l IH]; intros Hall; simpl; [done|].
  rewrite (Hall x) by (by left). f_equal. apply IH. intros y Hy. apply Hall. by right.
Qed.

Lemma filter_comm {A : Type} (f g : A -> bool) (l : list A) :
  List.filter f (List.filter g l) = List.filter g (List.filter f l).
Proof.
  induction l as [|x l IH]; simpl; [done|].
  destruct (f x) eqn:Hf, (g x) eqn:Hg; simpl; rewrite ?Hf, ?Hg, IH; done.
Qed.

Lemma filter_map_comm {A B : Type} (f : B -> bool) (g : A -> B) (l : list A) :
  List.filter f (map g l) = map g (List.filter (fun x => f (g x)) l).
Proof.
  induction l as [|x l IH]; simpl; [done|]. destruct (f (g x)); simpl; by rewrite IH.
Qed.

Lemma matchEvents_pile (m : MatchRecord.t) (event : Event.t) :
  In event (matchEvents m) ->
  ExtendedProps.pileId (Event.extendedProps event) = MatchRecord.pile_id m.
Proof.
  unfold matchEvents. destruct (MatchRecord.is_match m); simpl; intros Hin;
    repeat (destruct Hin as [<-|Hin]; [done|]); destruct Hin.
Qed.

Lemma comparisonEvents_filter (selectedPiles : gset Z) (fires : list MatchRecord.t) :
  comparisonEvents selectedPiles fires
  = List.filter (ofSelected selectedPiles) (flat_map matchEvents fires).
Proof.
  unfold comparisonEvents. induction fires as [|m fires IH]; simpl; [done|].
  rewrite List.filter_app, <- IH.
  destruct (included selectedPiles (MatchRecord.pile_id m)) eqn:Hm; simpl.
  - f_equal. symmetry. apply filter_all. intros event Hin.
    unfold ofSelected. by rewrite (matchEvents_pile m event Hin).
  - replace (List.filter (ofSelected selectedPiles) (matchEvents m)) with (@nil Event.t);
      [done|].
    symmetry. unfold matchEvents, ofSelected.
    destruct (MatchRecord.is_match m); simpl; by rewrite Hm.
Qed.

(** The entries before the filter on the year, with no pile selected. *)
Lemma events_unselected predictions currentYear showComparison realFiresData :
  exists allEvents : list Event.t,
    (forall selectedPiles,
       events predictions currentYear showComparison realFiresData selectedPiles
       = List.filter (inYear currentYear) (List.filter (ofSelected selectedPiles) allEvents))
    /\ (forall event, In event allEvents ->
          (exists p, In p predictions
                     /\ Prediction.pile_id p = ExtendedProps.pileId (Event.extendedProps event))
          \/ (exists fires m, realFiresData = Some fires /\ In m fires
                /\ MatchRecord.pile_id m = ExtendedProps.pileId (Event.extendedProps event))).
Proof.
  unfold events. destruct (length predictions =? 0)%nat eqn:Hlen.
  { exists []. split; [done|]. by intros event []. }
  assert (Hpred : forall selectedPiles,
    processCalendarEvents
      (List.filter (fun p => included selectedPiles (Prediction.pile_id p)) predictions)
    = List.filter (ofSelected selectedPiles) (processCalendarEvents predictions)).
  { intros selectedPiles. unfold processCalendarEvents. by rewrite filter_map_comm. }
  assert (Hfrom : forall event, In event (processCalendarEvents predictions) ->
    exists p, In p predictions
              /\ Prediction.pile_id p = ExtendedProps.pileId (Event.extendedProps event)).
  { intros event Hin. apply List.in_map_iff in Hin as (p & <- & Hp). by exists p. }
  destruct realFiresData as [fires|].
  - destruct (showComparison && negb (length fires =? 0)%nat) eqn:Hmode.
    + exists (flat_map matchEvents fires). split.
      * intros selectedPiles. rewrite fold_left_pushMatch. simpl.
        by rewrite <- comparisonEvents_filter.
      * intros event Hin. right. apply List.in_flat_map in Hin as (m & Hm & Hin).
        exists fires, m. by rewrite (matchEvents_pile m event Hin).
    + exists (processCalendarEvents predictions). split.
      * intros selectedPiles. by rewrite Hpred.
      * intros event Hin. left. by apply Hfrom.
  - exists (processCalendarEvents predictions). split.
    + intros selectedPiles. by rewrite Hpred.
    + intros event Hin. left. by apply Hfrom.
Qed.

(** X2. A selection of piles only hides entries: the list with a selection is
    the list with no pile selected, restricted to the entries of the
    selected piles, in the same order. *)
Theorem events_selection_filter
    (predictions : list Prediction.t) (currentYear : Z) (showComparison : bool)
    (realFiresData : option (list MatchRecord.t)) (selectedPiles : gset Z) :
  events predictions currentYear showComparison realFiresData selectedPiles
  = List.filter (ofSelected selectedPiles)
      (events predictions currentYear showComparison realFiresData ∅).
Proof.
  destruct (events_unselected predictions currentYear showComparison realFiresData)
    as (allEvents & Heq & _).
  rewrite (Heq selectedPiles), (Heq ∅).
  rewrite (filter_all (ofSelected ∅)) by done.
  apply filter_comm.
Qed.

(** X3. With every pile of the records among the available piles, selecting all
    piles and selecting none show the same entries. *)
Theorem selectAllPiles_shows_all (s : CalendarPage.t) :
  (forall p, In p (CalendarPage.predictions s) ->
     In (Prediction.pile_id p) (CalendarPage.availablePiles s)) ->
  (forall fires m, CalendarPage.realFiresData s = Some fires -> In m fires ->
     In (MatchRecord.pile_id m) (CalendarPage.availablePiles s)) ->
  shownEvents (selectAllPiles s) = shownEvents (deselectAllPiles s).
Proof.
  intros Hpred Hfires. unfold shownEvents, selectAllPiles, deselectAllPiles. simpl.
  destruct (events_unselected (CalendarPage.predictions s) (CalendarPage.currentYear s)
              (CalendarPage.showComparison s) (CalendarPage.realFiresData s))
    as (allEvents & Heq & Hfrom).
  rewrite (Heq (list_to_set (CalendarPage.availablePiles s))), (Heq ∅). f_equal.
  rewrite (filter_all (ofSelected ∅)) by done.
  apply filter_all. intros event Hin.
  unfold ofSelected. apply included_iff. right. apply elem_of_list_to_set.
  apply list_elem_of_In.
  destruct (Hfrom event Hin) as [(p & Hp & <-)|(fires & m & Hdata & Hm & <-)].
  - by apply Hpred.
  - by eapply Hfires.
Qed.

(** X4. The real fires count in the comparison mode only, and only when there
    are some: otherwise the entries are those of the predictions. *)
Theorem events_without_matches
    (predictions : list Prediction.t) (currentYear : Z) (showComparison : bool)
    (realFiresData : option (list MatchRecord.t)) (selectedPiles : gset Z) :
  events predictions currentYear false realFiresData selectedPiles
  = events predictions currentYear false None selectedPiles
  /\ events predictions currentYear showComparison None selectedPiles
     = events predictions currentYear false None selectedPiles
  /\ events predictions currentYear showComparison (Some []) selectedPiles
     = events predictions currentYear false None selectedPiles.
Proof.
  unfold events. destruct (length predictions =? 0)%nat; [done|].
  split; [by destruct realFiresData|]. split; [done|].
  by rewrite andb_false_r.
Qed.

(** ** The click on an entry *)

Lemma find_first (predictions : list Prediction.t) (pileId : Z) (p : Prediction.t) :
  In p predictions -> Prediction.pile_id p = pileId ->
  exists first before after,
    List.find (fun q => Prediction.pile_id q =? pileId) predictions = Some first
    /\ predictions = before ++ first :: after
    /\ Prediction.pile_id first = pileId
    /\ (forall q, In q before -> Prediction.pile_id q <> pileId).
Proof.
  induction predictions as [|q predictions IH]; intros Hin Hid; [done|]. simpl.
  destruct (Z.eqb_spec (Prediction.pile_id q) pileId) as [Heq|Hne].
  - exists q, [], predictions. by repeat split.
  - destruct Hin as [->|Hin]; [done|].
    destruct (IH Hin Hid) as (first & before & after & Hfind & -> & Hfirst & Hbefore).
    exists first, (q :: before), after. repeat split; [done..|].
    intros r [<-|Hr]; [done|by apply Hbefore].
Qed.

(** X5. In the predictions mode, the click on an entry finds a record: the
    first record of the pile of the entry; with one record a pile, it is
    the record that the entry carries. *)
Theorem handleEventClick_finds
    (predictions : list Prediction.t) (currentYear : Z)
    (realFiresData : option (list MatchRecord.t)) (selectedPiles : gset Z)
    (event : Event.t) :
  In event (events predictions currentYear false realFiresData selectedPiles) ->
  exists first before after,
    handleEventClick predictions event = Some first
    /\ predictions = before ++ first :: after
    /\ Prediction.pile_id first = ExtendedProps.pileId (Event.extendedProps event)
    /\ (forall q, In q before ->
          Prediction.pile_id q <> ExtendedProps.pileId (Event.extendedProps event))
    /\ (NoDup (map Prediction.pile_id predictions) ->
        ExtendedProps.spread (Event.extendedProps event) = Some first).
Proof.
  intros Hin. rewrite events_predictions_mode in Hin.
  apply List.filter_In in Hin as [Hin _]. unfold processCalendarEvents in Hin.
  apply List.in_map_iff in Hin as (p & <- & Hp). apply List.filter_In in Hp as [Hp _].
  destruct (find_first predictions (Prediction.pile_id p) p Hp eq_refl)
    as (first & before & after & Hfind & Hsplit & Hfirst & Hbefore).
  exists first, before, after. repeat split; try done.
  intros Hnodup. simpl. f_equal.
  rewrite Hsplit in Hp, Hnodup. rewrite map_app, map_cons in Hnodup.
  apply NoDup_app in Hnodup as (_ & Hout & Hafter).
  apply NoDup_cons in Hafter as [Hafter _].
  apply in_app_or in Hp as [Hp|[Hp|Hp]]; [|done|].
  - by destruct (Hbefore p Hp).
  - exfalso. apply Hafter. rewrite Hfirst. apply list_elem_of_In. by apply in_map.
Qed.

End SelectionFacts.

(* ===================================================================== *)
(** * Part XIII: the calls of the calendar page that succeed              *)
(* ===================================================================== *)

Lemma sorted_nodup_increasing (l : list Z) :
  StronglySorted Z.le l -> NoDup l -> StronglySorted Z.lt l.
Proof.
  induction 1 as [|x sorted Hsorted IH Hall]; intros Hnodup; [constructor|].
  apply NoDup_cons in Hnodup as [Hx Hnodup]. constructor; [by apply IH|].
  apply List.Forall_forall. intros y Hy.
  assert (x <= y) by (by eapply List.Forall_forall in Hall).
  assert (x <> y) by (intros ->; apply Hx; by apply list_elem_of_In).
  lia.
Qed.

(** The available piles are the pile ids of the list, each once, in
    increasing order. *)
Lemma distinct_sorted_spec (l : list Z) :
  StronglySorted Z.lt (distinct_sorted l)
  /\ (forall x, In x (distinct_sorted l) <-> In x l).
Proof.
  unfold distinct_sorted.
  assert (Hperm : merge_sort Z.le (remove_dups l) ≡ₚ remove_dups l)
    by apply merge_sort_Permutation.
  split.
  - apply sorted_nodup_increasing.
    + apply StronglySorted_merge_sort; apply _.
    + rewrite Hperm. apply NoDup_remove_dups.
  - intros x. rewrite <- !list_elem_of_In, Hperm. apply elem_of_remove_dups.
Qed.

Section LoadedFacts.

Context `{!DateParse, !LocalTZA}.

(** X6. [fetchPredictions] on a response: the handler returns; the list is
    that of the response; the available piles are the pile ids of its
    records, each once, in increasing order; all of them are selected, and
    in the predictions mode this selection hides no entry. Nothing is
    shown or logged. *)
Theorem fetchPredictions_success
    (response : PredictResponse.t) (calendarRef : bool) (thisYear : Z)
    (w : World.t CalendarPage.t) :
  let w' := (fetchPredictions (Ok (Some response)) calendarRef thisYear w).2 in
  let piles := CalendarPage.availablePiles (World.page w') in
  (fetchPredictions (Ok (Some response)) calendarRef thisYear w).1 = Ok tt
  /\ CalendarPage.predictions (World.page w') = PredictResponse.predictions response
  /\ StronglySorted Z.lt piles
  /\ (forall pile_id : Z,
        In pile_id piles <->
        exists p, In p (PredictResponse.predictions response)
                  /\ Prediction.pile_id p = pile_id)
  /\ CalendarPage.selectedPiles (World.page w') = list_to_set piles
  /\ events (CalendarPage.predictions (World.page w'))
            (CalendarPage.currentYear (World.page w')) false
            (CalendarPage.realFiresData (World.page w'))
            (CalendarPage.selectedPiles (World.page w'))
     = events (CalendarPage.predictions (World.page w'))
              (CalendarPage.currentYear (World.page w')) false
              (CalendarPage.realFiresData (World.page w')) ∅
  /\ CalendarPage.loading (World.page w') = false
  /\ World.alerts w' = World.alerts w
  /\ World.console w' = World.console w.
Proof.
  intros w' piles.
  destruct (distinct_sorted_spec (map Prediction.pile_id (PredictResponse.predictions response)))
    as [Hsorted Hin].
  assert (Hpage :
    CalendarPage.predictions (World.page w') = PredictResponse.predictions response
    /\ piles = distinct_sorted (map Prediction.pile_id (PredictResponse.predictions response))
    /\ CalendarPage.selectedPiles (World.page w') = list_to_set piles
    /\ (fetchPredictions (Ok (Some response)) calendarRef thisYear w).1 = Ok tt
    /\ CalendarPage.loading (World.page w') = false
    /\ World.alerts w' = World.alerts w
    /\ World.console w' = World.console w).
  { unfold piles, w'.
    destruct w as [page store alerts console calendar timers].
    destruct response as [predictions [range|]]; [|done].
    by destruct calendarRef. }
  destruct Hpage as (Hpred & Hpiles & Hsel & Hok & Hloading & Halerts & Hconsole).
  repeat split; try done.
  - by rewrite Hpiles.
  - rewrite Hpiles, Hin. intros Hp. apply List.in_map_iff in Hp as (p & <- & Hp). by exists p.
  - rewrite Hpiles, Hin. intros (p & Hp & <-). by apply in_map.
  - rewrite !events_predictions_mode. f_equal. f_equal.
    rewrite !filter_all; [done|done|].
    intros p Hp. apply included_iff. right. rewrite Hsel. apply elem_of_list_to_set.
    apply list_elem_of_In. rewrite Hpiles. apply Hin. apply in_map. by rewrite <- Hpred.
Qed.

End LoadedFacts.

(** X7. After a load of the real fires that succeeded, the two buttons of the
    view mode switch the comparison off and on again without a call:
    whatever a call would give, the page is back as it was after the
    load. *)
Theorem comparisonClick_after_load
    (response : EvalResponse.t) (matched : list MatchRecord.t)
    (call : Result (option EvalResponse.t)) (w : World.t CalendarPage.t) :
  EvalResponse.matched_predictions response = Some matched ->
  Storage.firesUploaded (World.storage w) = Some "true" ->
  CalendarPage.realFiresData (World.page w) = None ->
  let loaded := (comparisonClick (Ok (Some response)) w).2 in
  CalendarPage.showComparison (World.page (predictionsOnlyClick loaded).2) = false
  /\ comparisonClick call (predictionsOnlyClick loaded).2 = (Ok tt, loaded).
Proof.
  intros Hmatched Hfires Hnone loaded. unfold loaded, comparisonClick. rewrite Hnone.
  destruct w as [page [fires range cached] alerts console calendar timers].
  destruct response as [matched' mae pm1 pm2 pm3 total correct].
  simpl in *. by subst.
Qed.

(** X8. The metrics block of the calendar page after a load that succeeded:
    it renders when the response has a number for [mae], and the render
    throws when [mae] is [null] or left out. *)
Theorem metricsBlock_after_load
    (response : EvalResponse.t) (matched : list MatchRecord.t)
    (w : World.t CalendarPage.t) :
  EvalResponse.matched_predictions response = Some matched ->
  Storage.firesUploaded (World.storage w) = Some "true" ->
  let page := World.page (loadRealFiresData (Ok (Some response)) w).2 in
  (forall mae, EvalResponse.mae response = Num mae ->
     exists texts, metricsBlock page = Ok (Some texts) /\ length texts = 5%nat)
  /\ ((forall mae, EvalResponse.mae response <> Num mae) ->
      exists message, metricsBlock page = Throw (TypeError message)).
Proof.
  intros Hmatched Hfires page.
  assert (Hpage : CalendarPage.evaluationMetrics page
                  = Some {| Metrics.mae := EvalResponse.mae response;
                            Metrics.accuracy_pm1 := EvalResponse.accuracy_pm1 response;
                            Metrics.accuracy_pm2 := EvalResponse.accuracy_pm2 response;
                            Metrics.accuracy_pm3 := EvalResponse.accuracy_pm3 response;
                            Metrics.total_predictions := EvalResponse.total_predictions response;
                            Metrics.correct_pm2 := EvalResponse.correct_pm2 response |}
                  /\ CalendarPage.showComparison page = true).
  { unfold page.
    destruct w as [page0 [fires range cached] alerts console calendar timers].
    destruct response as [matched' mae pm1 pm2 pm3 total correct].
    simpl in *. by subst. }
  destruct Hpage as [Hmetrics Hshow].
  unfold metricsBlock. rewrite Hmetrics, Hshow. simpl.
  unfold percentText.
  change (toFixed 1 ?x) with (Ok (A := string) (toFixed_text 1 x)).
  cbn [rmap rbind]. split.
  - intros mae ->. simpl.
    change (toFixed 2 mae) with (Ok (A := string) (toFixed_text 2 mae)).
    cbn [rbind]. by eexists.
  - intros Hmae. destruct (EvalResponse.mae response) as [| |mae]; simpl; [by eexists..|].
    by destruct (Hmae mae).
Qed.

(* ===================================================================== *)
(** * Part XIV: the texts of numbers                                      *)
(* ===================================================================== *)

Lemma string_forall_app (f : ascii -> bool) (a b : string) :
  string_forall f (a +:+ b) = string_forall f a && string_forall f b.
Proof. induction a as [|c a IH]; simpl; [done|]. by rewrite IH, andb_assoc. Qed.

Lemma string_forall_take (f : ascii -> bool) (n : nat) (s : string) :
  string_forall f s = true -> string_forall f (string_take n s) = true.
Proof.
  revert s. induction n as [|n IH]; intros [|c s]; simpl; try done.
  intros [Hc Hs]%andb_true_iff. by rewrite Hc, IH.
Qed.

Lemma string_forall_drop (f : ascii -> bool) (n : nat) (s : string) :
  string_forall f s = true -> string_forall f (string_drop n s) = true.
Proof.
  revert s. induction n as [|n IH]; intros [|c s]; simpl; try done.
  intros [Hc Hs]%andb_true_iff. by apply IH.
Qed.

Lemma zeros_plain (n : nat) : string_forall plain (zeros n) = true.
Proof. induction n as [|n IH]; simpl; [done|]. by rewrite IH. Qed.

Lemma string_of_uint_plain (d : Decimal.uint) :
  string_forall plain (NilEmpty.string_of_uint d) = true.
Proof. induction d; simpl; by rewrite ?IHd. Qed.

Lemma digits_plain (z : Z) : string_forall plain (digits z) = true.
Proof.
  unfold digits, NilZero.string_of_int.
  destruct (Z.to_int z) as [d|d]; unfold NilZero.string_of_uint.
  - destruct d; try done; apply string_of_uint_plain.
  - simpl. destruct d; try done; apply string_of_uint_plain.
Qed.

Lemma digits_nonempty (z : Z) : digits z <> "".
Proof.
  unfold digits, NilZero.string_of_int.
  destruct (Z.to_int z) as [d|d]; unfold NilZero.string_of_uint; by destruct d.
Qed.

Ltac plain_parts :=
  rewrite ?string_forall_app, ?andb_true_iff;
  repeat split;
  first [ apply digits_plain | apply zeros_plain
        | apply string_forall_take, digits_plain
        | apply string_forall_drop, digits_plain
        | done ].

Lemma decimal_notation_plain (s n k : Z) :
  string_forall plain (decimal_notation s n k) = true.
Proof.
  unfold decimal_notation.
  destruct ((-6 <? n) && (n <=? 21)), (k <=? n), (0 <? n), (n - 1 <? 0), (k =? 1);
    plain_parts.
Qed.

Lemma magnitudeToString_plain (m e : Z) :
  string_forall plain (magnitudeToString m e) = true.
Proof.
  unfold magnitudeToString.
  destruct (shortest 17 m e (decimal_exponent m e) 1) as [[s n] k].
  apply decimal_notation_plain.
Qed.

Lemma fixed_notation_plain (f n : Z) :
  string_forall plain (fixed_notation f n) = true.
Proof.
  unfold fixed_notation. destruct (f =? 0); [apply digits_plain|].
  destruct (Z.of_nat (String.length (digits n)) <=? f).
  - assert (Hpadded : string_forall plain
                        (zeros (Z.to_nat (f + 1 - Z.of_nat (String.length (digits n))))
                         +:+ digits n) = true)
      by (by rewrite string_forall_app, zeros_plain, digits_plain).
    rewrite !string_forall_app, !andb_true_iff. repeat split;
      first [ by apply string_forall_take | by apply string_forall_drop | done ].
  - plain_parts.
Qed.

(** The text of a finite number has digits, a sign, a point and an
    exponent, and nothing else. *)
Lemma toFixed_text_plain (f : Z) (x : float) :
  finite_value x <> None -> string_forall plain (toFixed_text f x) = true.
Proof.
  intros Hfinite. unfold toFixed_text.
  destruct (finite_value x) as [[[neg m] e]|]; [|done].
  rewrite string_forall_app. apply andb_true_iff. split; [by destruct neg|].
  destruct (sc_leb _ _); [apply magnitudeToString_plain|apply fixed_notation_plain].
Qed.

Lemma toFixed_text_not_NaN (f : Z) (x : float) :
  is_nan x = false -> toFixed_text f x <> "NaN".
Proof.
  intros Hnan Htext.
  destruct (finite_value x) as [v|] eqn:Hfinite.
  - assert (Hplain : string_forall plain (toFixed_text f x) = true)
      by (apply toFixed_text_plain; by rewrite Hfinite).
    by rewrite Htext in Hplain.
  - unfold toFixed_text in Htext. rewrite Hfinite in Htext.
    unfold finite_value in Hfinite. unfold numberToString in Htext.
    unfold is_nan, PrimFloat.is_nan in Hnan. rewrite FloatAxioms.eqb_spec in Hnan.
    destruct (Prim2SF x) as [s|s| |s m e]; try done. by destruct s.
Qed.

Section NumberFacts.

Context `{!StringToNumber}.

(** X9. [formatNumber] on a number that is not [NaN], with a number of
    decimals from 0 to 100: a text, never the text [NaN]; for a finite
    number, a text of digits, sign, point and exponent. *)
Theorem formatNumber_of_number (x : float) (decimals : Z) (defaultValue : prim) :
  is_nan x = false -> 0 <= decimals <= 100 ->
  exists text,
    formatNumber (JNum x) decimals defaultValue = Ok (JStr text)
    /\ text <> "NaN"
    /\ (finite_value x <> None -> string_forall plain text = true).
Proof.
  intros Hnan Hdecimals. exists (toFixed_text decimals x).
  unfold formatNumber, toFixed. simpl. rewrite Hnan.
  destruct (Z.ltb_spec decimals 0); [lia|].
  destruct (Z.ltb_spec 100 decimals); [lia|]. simpl.
  split; [done|]. split; [by apply toFixed_text_not_NaN|apply toFixed_text_plain].
Qed.

(** X10. With a number of decimals below 0 or over 100, [formatNumber] and
    [formatPercentage] throw on every value that is not unknown. *)
Theorem formatNumber_decimals_out_of_range
    (value : prim) (decimals : Z) (defaultValue : prim) :
  is_unknown value = false -> decimals < 0 \/ 100 < decimals ->
  (exists message, formatNumber value decimals defaultValue = Throw (RangeError message))
  /\ (exists message,
        formatPercentage value decimals defaultValue = Throw (RangeError message)).
Proof.
  intros Hknown Hdecimals. unfold formatNumber, formatPercentage, toFixed.
  rewrite Hknown.
  assert (Hrange : (decimals <? 0) || (100 <? decimals) = true).
  { apply orb_true_iff. rewrite !Z.ltb_lt. lia. }
  rewrite Hrange. simpl. eauto.
Qed.

End NumberFacts.

(* ===================================================================== *)
(** * Part XV: the risk levels, the confidence, the file names and the
      entry ids                                                           *)
(* ===================================================================== *)

Section LevelFacts.

Context `{!StringToNumber, !MathLog, !ParseISO, !Format}.

(** X11. A risk level that names no property of [Object.prototype] has one of
    the four colours; a level that is none of the four names either has
    the colour of the low level, while its label is that of an unknown
    level. *)
Theorem getRiskColor_palette (riskLevel : prim) :
  inherited (ToString riskLevel) = None ->
  (exists colour, getRiskColor riskLevel = Prim (JStr colour) /\ In colour palette)
  /\ (ToString riskLevel ∉ riskLevels ->
      getRiskColor riskLevel = getRiskColor (JStr "low")
      /\ getRiskLabel riskLevel = Prim (JStr "Неизвестно")).
Proof.
  intros Hproto. split.
  - destruct (decide (ToString riskLevel ∈ riskLevels)) as [Hin|Hout].
    + unfold getRiskColor, get at 1. unfold riskLevels in Hin.
      repeat (apply elem_of_cons in Hin as [->|Hin]);
        [eexists; split; [by vm_compute|simpl; tauto]..|].
      by apply elem_of_nil in Hin.
    + exists "#16a34a". split; [by apply getRiskColor_fallback|simpl; tauto].
  - intros Hout. split; [by rewrite getRiskColor_fallback|].
    assert (Hne : forall key : string, key ∈ riskLevels -> key <> ToString riskLevel)
      by (intros key Hin Heq; apply Hout; by rewrite <- Heq).
    unfold getRiskLabel, get, labels.
    rewrite !lookup_insert_ne, lookup_singleton_ne, Hproto;
      [done|apply Hne; unfold riskLevels; set_solver..].
Qed.

Lemma lower_ascii_idemp (c : ascii) : lower_ascii (lower_ascii c) = lower_ascii c.
Proof. by destruct c as [[] [] [] [] [] [] [] []]. Qed.

Lemma toLowerCase_idemp (s : string) : toLowerCase (toLowerCase s) = toLowerCase s.
Proof. induction s as [|c s IH]; simpl; [done|]. by rewrite lower_ascii_idemp, IH. Qed.

Lemma toLowerCase_empty (s : string) :
  String.eqb (toLowerCase s) "" = String.eqb s "".
Proof. by destruct s. Qed.

(** X12. [formatConfidence] reads a confidence whatever the case of its
    letters: a string and its lower-case form have the same label. *)
Theorem formatConfidence_case_insensitive (s : string) (defaultValue : prim) :
  formatConfidence (JStr s) defaultValue
  = formatConfidence (JStr (toLowerCase s)) defaultValue
  /\ formatConfidence (JStr (toLowerCase "HIGH")) defaultValue = Ok (Prim (JStr "Высокая"))
  /\ formatConfidence (JStr (toLowerCase "Medium")) defaultValue = Ok (Prim (JStr "Средняя"))
  /\ formatConfidence (JStr (toLowerCase "low")) defaultValue = Ok (Prim (JStr "Низкая")).
Proof.
  split; [|by vm_compute].
  unfold formatConfidence, truthy. by rewrite toLowerCase_empty, toLowerCase_idemp.
Qed.

(** X13. On a truthy confidence that is no string, a number or [true],
    [formatConfidence] throws. *)
Theorem formatConfidence_not_a_string (confidence defaultValue : prim) :
  truthy confidence = true -> (forall s, confidence <> JStr s) ->
  exists message, formatConfidence confidence defaultValue = Throw (TypeError message).
Proof.
  intros Htruthy Hstring. unfold formatConfidence. rewrite Htruthy. simpl.
  destruct confidence as [| |b|x|s]; try (by eexists). by destruct (Hstring s).
Qed.

(** ** The extension of a file name *)

Lemma string_drop_app (a b : string) : string_drop (String.length a) (a +:+ b) = b.
Proof. by induction a. Qed.

Lemma endsWith_app (stem ext suffix : string) :
  String.length ext = String.length suffix ->
  endsWith (stem +:+ ext) suffix = String.eqb ext suffix.
Proof.
  intros Hlen. unfold endsWith. rewrite string_length_app, <- Hlen.
  replace (String.length stem + String.length ext - String.length ext)%nat
    with (String.length stem) by lia.
  rewrite string_drop_app.
  destruct (Nat.leb_spec (String.length ext) (String.length stem + String.length ext));
    [done|lia].
Qed.

(** X14. The check of the extension looks at the last four characters of the
    name and at their case: a name that ends in [.csv] passes when the size
    is at most the maximum, whatever comes before; a name that ends in
    [.CSV], or that has fewer than four characters, never passes. *)
Theorem validateCSVFile_extension
    (VITE_MAX_FILE_SIZE : option Z) (stem : string) (size : Z) :
  Validation.valid
    (validateCSVFile VITE_MAX_FILE_SIZE {| File.name := stem +:+ ".csv"; File.size := size |})
  = (size <=? maxSize VITE_MAX_FILE_SIZE)
  /\ Validation.valid
       (validateCSVFile VITE_MAX_FILE_SIZE
                        {| File.name := stem +:+ ".CSV"; File.size := size |})
     = false
  /\ (forall name : string,
        (String.length name < 4)%nat ->
        Validation.valid
          (validateCSVFile VITE_MAX_FILE_SIZE {| File.name := name; File.size := size |})
        = false).
Proof.
  unfold validateCSVFile. simpl. rewrite !endsWith_app by done. simpl.
  split; [|split; [done|]].
  - rewrite Z.gtb_ltb, Z.leb_antisym. by destruct (_ <? _).
  - intros name Hlen.
    assert (Hends : endsWith name ".csv" = false).
    { unfold endsWith. change (String.length ".csv") with 4%nat.
      by destruct (Nat.leb_spec 4 (String.length name)); [lia|]. }
    by rewrite Hends.
Qed.

End LevelFacts.

(** ** The ids of the entries *)

Lemma digits_inj (z z' : Z) : digits z = digits z' -> z = z'.
Proof.
  unfold digits. intros Heq. apply DecimalZ.to_int_inj.
  assert (Hnonnil : forall n : Z,
    Z.to_int n <> Decimal.Pos Decimal.Nil /\ Z.to_int n <> Decimal.Neg Decimal.Nil).
  { intros [|p|p]; simpl; split; try done;
      intros [= Hp]; by apply DecimalPos.Unsigned.to_uint_nonnil in Hp. }
  destruct (Hnonnil z) as [Hp Hn], (Hnonnil z') as [Hp' Hn'].
  pose proof (NilZero.isi (Z.to_int z) Hp Hn) as Hz.
  pose proof (NilZero.isi (Z.to_int z') Hp' Hn') as Hz'.
  rewrite Heq in Hz. congruence.
Qed.

Lemma NoDup_map_filter {A B : Type} (f : A -> B) (g : A -> bool) (l : list A) :
  NoDup (map f l) -> NoDup (map f (List.filter g l)).
Proof.
  induction l as [|x l IH]; simpl; [done|].
  intros [Hx Hl]%NoDup_cons. destruct (g x); simpl; [|by apply IH].
  constructor; [|by apply IH].
  intros Hin. apply Hx. apply list_elem_of_fmap in Hin as (y & -> & Hy).
  apply list_elem_of_fmap. exists y. split; [done|].
  apply list_elem_of_In. apply list_elem_of_In in Hy. by apply List.filter_In in Hy as [Hy _].
Qed.

Section IdFacts.

Context `{!DateParse, !LocalTZA}.

(** X15. Two entries of prediction records have the same id when, and only
    when, the records are of the same pile; so with one record a pile, the
    entries of the predictions mode have ids that differ. *)
Theorem events_ids
    (predictions : list Prediction.t) (currentYear : Z)
    (realFiresData : option (list MatchRecord.t)) (selectedPiles : gset Z) :
  NoDup (map Prediction.pile_id predictions) ->
  NoDup (map Event.id (events predictions currentYear false realFiresData selectedPiles))
  /\ (forall p q : Prediction.t,
        Event.id (calendarEntry p) = Event.id (calendarEntry q)
        <-> Prediction.pile_id p = Prediction.pile_id q).
Proof.
  assert (Hid : forall p q : Prediction.t,
            Event.id (calendarEntry p) = Event.id (calendarEntry q)
            <-> Prediction.pile_id p = Prediction.pile_id q).
  { intros p q. simpl. split; [|by intros ->].
    intros [= Heq]. by apply digits_inj. }
  intros Hnodup. split; [|done].
  rewrite events_predictions_mode. unfold processCalendarEvents.
  rewrite filter_map_comm, map_map.
  rewrite <- (filter_comm _ (fun p => inYear currentYear (calendarEntry p))).
  set (kept := List.filter _ _).
  assert (Hkept : NoDup (map Prediction.pile_id kept)).
  { unfold kept. do 2 apply NoDup_map_filter. done. }
  clear -Hkept Hid. induction kept as [|p kept IH]; simpl; [constructor|].
  apply NoDup_cons in Hkept as [Hp Hkept]. constructor; [|by apply IH].
  intros Hin. apply Hp. apply list_elem_of_fmap in Hin as (q & Heq & Hq).
  apply list_elem_of_fmap. exists q. split; [|done]. by apply (Hid p q).
Qed.

End IdFacts.

(* ===================================================================== *)
(** * Part XVI: the summary, the chart and the card                       *)
(* ===================================================================== *)

(** The summary of a metrics object. *)
Lemma calculateMetricsSummary_value (metrics : Metrics.t) :
  calculateMetricsSummary (Some metrics)
  = Ok (Some {| Summary.mae :=
                  match Metrics.mae metrics with
                  | Num x => string_or (toFixed_text 2 x) "N/A"
                  | _ => "N/A"
                  end;
                Summary.accuracyPm2 :=
                  toFixed_text 1 (optnum_number (Metrics.accuracy_pm2 metrics) * 100)
                  +:+ "%";
                Summary.totalPredictions :=
                  optnum_or_zero (Metrics.total_predictions metrics);
                Summary.correctPm2 := optnum_or_zero (Metrics.correct_pm2 metrics);
                Summary.meetsTarget :=
                  (0.7 <=? optnum_number (Metrics.accuracy_pm2 metrics))%float |}).
Proof.
  unfold calculateMetricsSummary.
  change (toFixed 1 ?x) with (Ok (A := string) (toFixed_text 1 x)).
  change (toFixed 2 ?x) with (Ok (A := string) (toFixed_text 2 x)).
  by destruct (Metrics.mae metrics).
Qed.

(** X16. [calculateMetricsSummary] returns a summary on every metrics object:
    an error that is no number is printed as [N/A]; an accuracy that is
    left out is printed as [NaN%], one that is [null] as [0.0%], and
    neither meets the target; a count that is no number is zero. *)
Theorem calculateMetricsSummary_missing_fields (metrics : Metrics.t) :
  exists summary,
    calculateMetricsSummary (Some metrics) = Ok (Some summary)
    /\ ((forall x, Metrics.mae metrics <> Num x) -> Summary.mae summary = "N/A")
    /\ (Metrics.accuracy_pm2 metrics = NUndefined ->
        Summary.accuracyPm2 summary = "NaN%" /\ Summary.meetsTarget summary = false)
    /\ (Metrics.accuracy_pm2 metrics = NNull ->
        Summary.accuracyPm2 summary = "0.0%" /\ Summary.meetsTarget summary = false)
    /\ ((forall x, Metrics.total_predictions metrics <> Num x) ->
        Summary.totalPredictions summary = 0%float)
    /\ ((forall x, Metrics.correct_pm2 metrics <> Num x) ->
        Summary.correctPm2 summary = 0%float).
Proof.
  eexists. split; [apply calculateMetricsSummary_value|].
  destruct metrics as [mae pm1 pm2 pm3 total correct]. cbn.
  split; [destruct mae as [| |x]; [done..|]; intros Hx; by destruct (Hx x)|].
  split; [by intros ->|]. split; [by intros ->|].
  split; [destruct total as [| |x]; [done..|]; intros Hx; by destruct (Hx x)|].
  destruct correct as [| |x]; [done..|]. intros Hx. by destruct (Hx x).
Qed.

(** X17. The bar of the chart for two days, the summary and the metrics block
    of the calendar print the same accuracy: the text of the bar, followed
    by the percent sign. No chart is drawn without metrics, and the chart
    of a metrics object has its three bars, the second marked as the
    target. *)
Theorem MetricsChart_agrees (metrics : Metrics.t) :
  MetricsChart None = Ok None
  /\ exists pm1 pm2 pm3 summary,
       MetricsChart (Some metrics)
       = Ok (Some [ {| Bar.name := "±1 день"; Bar.accuracy := pm1; Bar.target := false |};
                    {| Bar.name := "±2 дня"; Bar.accuracy := pm2; Bar.target := true |};
                    {| Bar.name := "±3 дня"; Bar.accuracy := pm3; Bar.target := false |} ])
       /\ calculateMetricsSummary (Some metrics) = Ok (Some summary)
       /\ Summary.accuracyPm2 summary = pm2 +:+ "%"
       /\ percentText (Metrics.accuracy_pm1 metrics) = Ok (pm1 +:+ "%")
       /\ percentText (Metrics.accuracy_pm2 metrics) = Ok (pm2 +:+ "%")
       /\ percentText (Metrics.accuracy_pm3 metrics) = Ok (pm3 +:+ "%").
Proof.
  split; [done|]. do 3 eexists. eexists.
  split; [|split; [apply calculateMetricsSummary_value|]].
  - unfold MetricsChart.
    change (toFixed 1 ?x) with (Ok (A := string) (toFixed_text 1 x)). by cbn [rbind].
  - unfold percentText.
    change (toFixed 1 ?x) with (Ok (A := string) (toFixed_text 1 x)). by cbn.
Qed.

Section CardFacts.

Context `{!StringToNumber, !ParseISO, !Format}.

(** [Math.round] of [NaN] is [NaN]. *)
Lemma Math_round_nan (x : float) : is_nan x = true -> is_nan (Math_round x) = true.
Proof. intros Hx. by rewrite (is_nan_nan x Hx). Qed.

(** X18. The card of a record without data: with the stockyard and the coal
    grade unknown, the dates, the rounded days and the confidence falsy,
    the features and the top-level fields of the stock and of the
    temperature missing, and no number of days besides, the card renders,
    and has a placeholder in every row. *)
Theorem PredictionCard_placeholders (prediction : Prediction.t) (legacy : Legacy.t) :
  is_unknown (Prediction.stockyard prediction) = true ->
  is_unknown (Prediction.coal_grade prediction) = true ->
  truthy (Prediction.observation_date prediction) = false ->
  truthy (Prediction.predicted_fire_date prediction) = false ->
  truthy (Prediction.predicted_days_to_fire_rounded prediction) = false ->
  is_nan (ToNumber (Legacy.days_to_fire legacy)) = true ->
  truthy (default JUndefined (Prediction.features prediction !! "stock_tons")) = false ->
  is_unknown (Legacy.stock_tons legacy) = true ->
  truthy (default JUndefined (Prediction.features prediction !! "temp_max_mean")) = false ->
  is_unknown (Legacy.temp_max_mean legacy) = true ->
  truthy (Prediction.confidence prediction) = false ->
  PredictionCard prediction legacy
  = Ok {| Card.title := "Штабель #" +:+ digits (Prediction.pile_id prediction);
          Card.badgeClass := badgeClass (Prediction.risk_level prediction);
          Card.badge := getRiskLabel (Prediction.risk_level prediction);
          Card.stockyard := JStr "Нет данных";
          Card.coal_grade := JStr "Нет данных";
          Card.observation_date := "—";
          Card.predicted_fire_date := "—";
          Card.days := JStr "—";
          Card.stock := JStr "—";
          Card.temperature := JStr "—";
          Card.confidence := Prim (JStr "—") |}.
Proof.
  intros Hyard Hgrade Hobserved Hpredicted Hrounded Hdays Hstock Hstock' Htemp Htemp'
         Hconfidence.
  unfold PredictionCard, cardDate, formatDate, cardTemperature, cardFeature, cardDays,
    formatNumber, formatConfidence, formatValue, prim_or.
  rewrite Hyard, Hgrade, Hobserved, Hpredicted, Hrounded, Hstock, Hstock', Htemp, Htemp',
    Hconfidence.
  cbn [negb rmap rbind string_or is_unknown].
  by rewrite (Math_round_nan _ Hdays).
Qed.

(** X19. A record predicted to catch fire in zero days, without the top-level
    number of days, has a dash for its days; a record with a number of days
    that is not zero has that number. *)
Theorem cardDays_zero (x : float) (days_to_fire : prim) :
  is_nan (ToNumber days_to_fire) = true ->
  (is_zero x = true -> cardDays (JNum x) days_to_fire = JStr "—")
  /\ (truthy (JNum x) = true -> cardDays (JNum x) days_to_fire = JNum x).
Proof.
  intros Hdays. unfold cardDays, prim_or, formatValue. split.
  - intros Hzero. simpl. rewrite Hzero. simpl. by rewrite (Math_round_nan _ Hdays).
  - intros Htruthy. rewrite Htruthy. simpl in *.
    by destruct (is_nan x); [rewrite orb_true_r in Htruthy|].
Qed.

End CardFacts.

(* ===================================================================== *)
(** * Part XVII: the dates of the date/pile matrix                        *)
(* ===================================================================== *)

Lemma same_value_zero_refl (value : prim) : same_value_zero value value = true.
Proof.
  destruct value as [| |b|x|s]; simpl; try done.
  - by destruct b.
  - unfold is_nan, PrimFloat.is_nan. by destruct (PrimFloat.eqb x x).
  - apply String.eqb_refl.
Qed.

(** A truthy value is strictly equal to itself. *)
Lemma strict_eq_refl (value : prim) : truthy value = true -> strict_eq value value = true.
Proof.
  destruct value as [| |b|x|s]; simpl; try done.
  - by destruct b.
  - unfold is_nan, PrimFloat.is_nan. destruct (PrimFloat.eqb x x); [done|].
    by rewrite orb_true_r.
  - intros _. apply String.eqb_refl.
Qed.

Lemma distinct_spec (seen values : list prim) :
  NoDup (distinct seen values)
  /\ (forall value, In value (distinct seen values) ->
        In value values /\ existsb (same_value_zero value) seen = false).
Proof.
  revert seen. induction values as [|value values IH]; intros seen; simpl.
  { split; [constructor|done]. }
  destruct (existsb (same_value_zero value) seen) eqn:Hseen.
  - destruct (IH seen) as [Hnodup Hin]. split; [done|].
    intros other Hother. destruct (Hin other Hother). by split; [right|].
  - destruct (IH (value :: seen)) as [Hnodup Hin]. split.
    + constructor; [|done]. intros Hvalue%list_elem_of_In.
      destruct (Hin value Hvalue) as [_ Hnew]. simpl in Hnew.
      by rewrite same_value_zero_refl in Hnew.
    + intros other [<-|Hother]; [by split; [left|]|].
      destruct (Hin other Hother) as [Hvalues Hnew]. simpl in Hnew.
      apply orb_false_iff in Hnew as [_ Hnew]. by split; [right|].
Qed.

Lemma filterR_spec {A : Type} (f : A -> Result bool) (l kept : list A) :
  filterR f l = Ok kept ->
  (forall x, In x kept -> In x l /\ f x = Ok true) /\ (NoDup l -> NoDup kept).
Proof.
  revert kept. induction l as [|x l IH]; intros kept; simpl.
  { intros [= <-]. by split. }
  destruct (f x) as [keep|e] eqn:Hx; [|done]. simpl.
  destruct (filterR f l) as [kept'|e]; [|done]. simpl.
  destruct (IH kept' eq_refl) as [Hin Hnodup]. intros [= <-].
  destruct keep.
  - split.
    + intros y [<-|Hy]; [by split; [left|]|]. destruct (Hin y Hy). by split; [right|].
    + intros [Hout Hl]%NoDup_cons. constructor; [|by apply Hnodup].
      intros Hkept%list_elem_of_In. apply Hout. apply list_elem_of_In.
      by destruct (Hin x Hkept).
  - split.
    + intros y Hy. destruct (Hin y Hy). by split; [right|].
    + intros [_ Hl]%NoDup_cons. by apply Hnodup.
Qed.

Section MatrixFacts.

Context `{!ParseISO, !ParseISOOther, !IsValid, !CodeUnitOrder}.

Lemma sort_insert_Permutation (value : prim) (sorted : list prim) :
  sort_insert value sorted ≡ₚ value :: sorted.
Proof.
  induction sorted as [|first sorted IH]; simpl; [done|].
  destruct (codeUnitLt _ _); [|done]. rewrite IH. apply Permutation_swap.
Qed.

Lemma sort_Permutation (values : list prim) : sort values ≡ₚ values.
Proof.
  induction values as [|value values IH]; simpl; [done|].
  by rewrite sort_insert_Permutation, IH.
Qed.

(** X20. The dates that the matrix offers when it is mounted: each date once,
    each truthy and valid, each the predicted date of a stored record, so
    that its total is one at least and its list of piles is not empty; the
    first of them is selected. The effect returns, and the storage is as
    before. *)
Theorem loadPredictions_dates (store : Storage.t) :
  let w' := (loadPredictions (matrixMounted store)).2 in
  let page := World.page w' in
  (loadPredictions (matrixMounted store)).1 = Ok tt
  /\ NoDup (MatrixPage.availableDates page)
  /\ (forall date, In date (MatrixPage.availableDates page) ->
        truthy date = true
        /\ validDate date = Ok true
        /\ (exists p, In p (MatrixPage.predictions page)
                      /\ Prediction.predicted_fire_date p = date)
        /\ (1 <= DateStats.total (dateStats date (MatrixPage.predictions page)))%nat
        /\ pilesForDate date (MatrixPage.predictions page) <> [])
  /\ MatrixPage.selectedDate page = default JNull (head (MatrixPage.availableDates page))
  /\ MatrixPage.predictions page = default [] (Storage.predictions store)
  /\ World.storage w' = store.
Proof.
  intros w' page. unfold page, w', loadPredictions, matrixMounted.
  destruct store as [fires range [parsed|]];
    [|repeat split; first [constructor | by intros ? [] | done]].
  unfold mbind, M_bind, getStorage, try_catch_finally, eval, uniqueDates. simpl.
  destruct (filterR validDate (distinct [] (map Prediction.predicted_fire_date parsed)))
    as [kept|e] eqn:Hkept; simpl;
    [|repeat split; first [constructor | by intros ? [] | done]].
  destruct (filterR_spec _ _ _ Hkept) as [Hin Hnodup].
  destruct (distinct_spec [] (map Prediction.predicted_fire_date parsed))
    as [Hdistinct Hfrom].
  assert (Hpage : forall dates : list prim,
    dates ≡ₚ kept ->
    NoDup dates
    /\ (forall date, In date dates ->
          truthy date = true
          /\ validDate date = Ok true
          /\ (exists p, In p parsed /\ Prediction.predicted_fire_date p = date)
          /\ (1 <= DateStats.total (dateStats date parsed))%nat
          /\ pilesForDate date parsed <> [])).
  { intros dates Hperm. split; [rewrite Hperm; by apply Hnodup|].
    intros date Hdate. apply list_elem_of_In in Hdate. rewrite Hperm in Hdate.
    apply list_elem_of_In in Hdate. destruct (Hin date Hdate) as [Hdistinct' Hvalid].
    destruct (Hfrom date Hdistinct') as [Hmap _].
    apply List.in_map_iff in Hmap as (p & Hp & Hparsed).
    assert (Htruthy : truthy date = true).
    { unfold validDate in Hvalid. by destruct (truthy date). }
    assert (Hon : In p (List.filter (onDate date) parsed)).
    { apply List.filter_In. split; [done|]. unfold onDate. rewrite Hp.
      by apply strict_eq_refl. }
    assert (Hlen : (0 <? length parsed)%nat = true)
      by (destruct parsed; [done|by apply Nat.ltb_lt; simpl; lia]).
    split; [done|]. split; [done|]. split; [by exists p|].
    unfold dateStats, pilesForDate. rewrite Htruthy, Hlen. simpl.
    destruct (List.filter (onDate date) parsed); [done|]. split; [simpl; lia|done]. }
  destruct (Hpage (sort kept) (sort_Permutation kept)) as [Hnd Hall].
  destruct (sort kept) as [|first dates] eqn:Hsort; simpl;
    (split; [done|]; split; [done|]; split; [exact Hall|]; by repeat split).
Qed.

End MatrixFacts.

(** ** The statistics of a date *)

Lemma filter_split_length {A : Type} (f : A -> bool) (l : list A) :
  (length (List.filter f l) + length (List.filter (fun x => negb (f x)) l)
   = length l)%nat.
Proof. induction l as [|x l IH]; simpl; [done|]. destruct (f x); simpl; lia. Qed.

(** X21. The total of a date is the number of its pile cards, and the four
    counters fall short of it by the number of piles whose level is none of
    the four names. *)
Theorem dateStats_total_split (selectedDate : prim) (predictions : list Prediction.t) :
  let stats := dateStats selectedDate predictions in
  let piles := pilesForDate selectedDate predictions in
  DateStats.total stats = length piles
  /\ (DateStats.critical stats + DateStats.high stats + DateStats.medium stats
      + DateStats.low stats
      + length (List.filter (fun p => negb (hasKnownRisk p)) piles)
      = DateStats.total stats)%nat.
Proof.
  unfold dateStats, pilesForDate.
  destruct (truthy selectedDate && (0 <? length predictions)%nat); simpl; [|done].
  split; [done|].
  fold (riskCounts (List.filter (onDate selectedDate) predictions)).
  rewrite riskCounts_known. apply filter_split_length.
Qed.

(* ===================================================================== *)
(** * Part XVIII: the uploads of the dashboard                            *)
(* ===================================================================== *)

(** ** The weather files *)

Lemma filter_index_past {A : Type} (index start : nat) (l : list A) :
  (index < start)%nat ->
  filter_index (fun i => negb (i =? index)%nat) start l = l.
Proof.
  revert start. induction l as [|x l IH]; intros start Hstart; simpl; [done|].
  destruct (Nat.eqb_spec start index); [lia|]. simpl. f_equal. apply IH. lia.
Qed.

Lemma filter_index_remove {A : Type} (index start : nat) (l : list A) :
  filter_index (fun i => negb (i =? start + index)%nat) start l
  = take index l ++ drop (S index) l.
Proof.
  revert index start. induction l as [|x l IH]; intros index start; simpl.
  { by destruct index. }
  destruct index as [|index].
  - rewrite Nat.add_0_r, Nat.eqb_refl. simpl. rewrite drop_0.
    apply filter_index_past. lia.
  - destruct (Nat.eqb_spec start (start + S index)); [lia|]. simpl. f_equal.
    replace (start + S index)%nat with (S start + index)%nat by lia. apply IH.
Qed.

Lemma filter_index_at {A : Type} (index : nat) (l : list A) :
  filter_index (fun i => negb (i =? index)%nat) 0 l = take index l ++ drop (S index) l.
Proof. apply (filter_index_remove index 0). Qed.

(** X22. [handleRemoveWeatherFile] takes out the weather file at the index and
    no other, and nothing at an index past the last; the other files are
    kept. It undoes the upload of a weather file, when given the index of
    that file. *)
Theorem handleRemoveWeatherFile_removes
    (index : nat) (file : File.t) (w : World.t DashboardPage.t) :
  let files := DashboardPage.files (World.page w) in
  let files' := DashboardPage.files (World.page (handleRemoveWeatherFile index w).2) in
  let uploaded := (handleUpload Weather file (Ok tt) w).2 in
  DashboardPage.weather files'
  = take index (DashboardPage.weather files) ++ drop (S index) (DashboardPage.weather files)
  /\ DashboardPage.supplies files' = DashboardPage.supplies files
  /\ DashboardPage.fires files' = DashboardPage.fires files
  /\ DashboardPage.temperature files' = DashboardPage.temperature files
  /\ ((length (DashboardPage.weather files) <= index)%nat -> files' = files)
  /\ DashboardPage.files
       (World.page (handleRemoveWeatherFile (length (DashboardPage.weather files))
                                            uploaded).2)
     = files.
Proof.
  destruct w as [[[supplies fires temperature weather] predicting error success range]
                   storage alerts console calendar timers].
  simpl. rewrite !filter_index_at.
  split; [done|]. split; [done|]. split; [done|]. split; [done|]. split.
  - intros Hlen. by rewrite take_ge, drop_ge, app_nil_r by lia.
  - by rewrite take_app_length, drop_ge, app_nil_r by (rewrite length_app; simpl; lia).
Qed.

(** ** The guard of the prediction *)

(** X23. With a required file missing, the button of the prediction is off,
    and [handlePredict] sets the message about the files and does nothing
    else: the outcome of the call plays no part, and no timer is set. The
    button is on exactly when the three kinds of files are there. *)
Theorem handlePredict_missing_files
    (call : Result (option PredictResponse.t)) (w : World.t DashboardPage.t) :
  canPredict (DashboardPage.files (World.page w)) = false ->
  handlePredict call w
  = (Ok tt, {| World.page :=
                 DashboardPage.setError (JStr requiredFilesMissing) (World.page w);
               World.storage := World.storage w;
               World.alerts := World.alerts w;
               World.console := World.console w;
               World.calendar := World.calendar w;
               World.timers := World.timers w |})
  /\ (forall files, canPredict files = true <-> filesReady files).
Proof.
  intros Hcan. split.
  - destruct w as [[[supplies fires temperature weather] predicting error success range]
                     storage alerts console calendar timers].
    unfold canPredict in Hcan. unfold handlePredict. simpl in *.
    destruct supplies, temperature, weather; simpl in *; try done.
  - intros [supplies fires temperature weather]. unfold canPredict, filesReady. simpl.
    rewrite !andb_true_iff, !bool_decide_eq_true, Nat.ltb_lt.
    destruct weather as [|file weather]; simpl.
    + split; [intros [_ Hlen]; lia|by intros (_ & _ & Hweather)].
    + split; [by intros [[Hs Ht] _]|intros (Hs & Ht & _); repeat split; [done..|lia]].
Qed.

(** ** The drop of files on the upload component *)

Section DropFacts.

Context `{!MathLog}.

Lemma uploadOne_parent {P : Type} (onUpload : File.t -> M P unit) (file : File.t)
    (w : World.t (Upload.t P)) :
  (uploadOne onUpload file w).1 = Ok tt
  /\ parentWorld (uploadOne onUpload file w).2 = (onUpload file (parentWorld w)).2
  /\ Upload.uploading (World.page (uploadOne onUpload file w).2) = false
  /\ Upload.error (World.page (uploadOne onUpload file w).2)
     = match (onUpload file (parentWorld w)).1 with
       | Ok _ => JNull
       | Throw err => prim_or (exn_message err) (JStr "Ошибка загрузки файла")
       end.
Proof.
  destruct w as [[uploading error parent] storage alerts console calendar timers].
  unfold uploadOne, mbind, M_bind, try_catch_finally, onParent, parentWorld. simpl.
  destruct (onUpload file _) as [[[]|err] [parent' storage' alerts' console' calendar' timers']];
    by simpl.
Qed.

Lemma dropEach_parent {P : Type} (VITE_MAX_FILE_SIZE : option Z)
    (onUpload : File.t -> M P unit) (files : list File.t) (w : World.t (Upload.t P)) :
  (dropEach VITE_MAX_FILE_SIZE onUpload files w).1 = Ok tt
  /\ parentWorld (dropEach VITE_MAX_FILE_SIZE onUpload files w).2
     = uploadAll onUpload (List.filter (passes VITE_MAX_FILE_SIZE) files) (parentWorld w).
Proof.
  revert w. induction files as [|file files IH]; intros w; [done|].
  cbn [dropEach]. unfold mbind, M_bind. fold (passes VITE_MAX_FILE_SIZE file).
  simpl List.filter. destruct (passes VITE_MAX_FILE_SIZE file); cbn [negb].
  - destruct (uploadOne_parent onUpload file w) as (Hok & Hparent & _).
    destruct (uploadOne onUpload file w) as [r w1]. simpl in Hok, Hparent. subst r.
    destruct (IH w1) as [Hok' Hparent']. split; [done|].
    rewrite Hparent'. simpl. by rewrite Hparent.
  - destruct w as [[uploading error parent] storage alerts console calendar timers].
    simpl. match goal with |- (dropEach _ _ _ ?w1).1 = _ /\ _ => exact (IH w1) end.
Qed.

(** X24. The page sees the uploads of the files that pass the check, one after
    the other - all of them when several files may be dropped, the first
    file only otherwise - and nothing of a file that fails the check. The
    drop itself never throws. *)
Theorem onDrop_uploads_valid_files
    {P : Type} (VITE_MAX_FILE_SIZE : option Z) (multiple : bool)
    (onUpload : File.t -> M P unit) (acceptedFiles : list File.t)
    (w : World.t (Upload.t P)) :
  (onDrop VITE_MAX_FILE_SIZE multiple onUpload acceptedFiles w).1 = Ok tt
  /\ parentWorld (onDrop VITE_MAX_FILE_SIZE multiple onUpload acceptedFiles w).2
     = uploadAll onUpload
         (List.filter (passes VITE_MAX_FILE_SIZE)
                      (if multiple then acceptedFiles else take 1 acceptedFiles))
         (parentWorld w).
Proof.
  unfold onDrop. destruct multiple; [apply dropEach_parent|].
  destruct acceptedFiles as [|file files]; [done|].
  simpl take. simpl List.filter. fold (passes VITE_MAX_FILE_SIZE file).
  destruct (passes VITE_MAX_FILE_SIZE file); cbn [negb].
  - destruct (uploadOne_parent onUpload file w) as (Hok & Hparent & _). by split.
  - by destruct w as [[uploading error parent] storage alerts console calendar timers].
Qed.

Lemma from_option_last {A B : Type} (f : A -> B) (d : B) (x : A) (l : list A) :
  from_option f d (last (x :: l)) = from_option f (f x) (last l).
Proof.
  revert d x. induction l as [|y l IH]; intros d x; [done|].
  change (last (x :: y :: l)) with (last (y :: l)). by rewrite !(IH _ y).
Qed.

Lemma dashboardUpload_weather (upload : File.t -> Result unit) (file : File.t)
    (w : World.t DashboardPage.t) :
  (dashboardUpload Weather upload file w).1 = upload file
  /\ DashboardPage.files (World.page (dashboardUpload Weather upload file w).2)
     = if fulfilled (upload file)
       then withFile Weather file (DashboardPage.files (World.page w))
       else DashboardPage.files (World.page w).
Proof.
  destruct w as [page storage alerts console calendar timers].
  unfold dashboardUpload, handleUpload, try_catch_finally, mbind, M_bind, await. simpl.
  by destruct (upload file) as [[]|err].
Qed.

(** X25. A drop of several weather files on the dashboard: the list of weather
    files grows by the files that pass the check and whose upload succeeds,
    in the order of the drop, and a file that fails stops none of those
    after it; the other files are kept. The message of the component is
    that of the last file alone. *)
Theorem onDrop_weather_files
    (VITE_MAX_FILE_SIZE : option Z) (upload : File.t -> Result unit)
    (acceptedFiles : list File.t) (w : World.t (Upload.t DashboardPage.t)) :
  let w' := (onDrop VITE_MAX_FILE_SIZE true (dashboardUpload Weather upload)
                    acceptedFiles w).2 in
  let files := DashboardPage.files (Upload.parent (World.page w)) in
  let files' := DashboardPage.files (Upload.parent (World.page w')) in
  DashboardPage.weather files'
  = DashboardPage.weather files
    ++ List.filter (fun file => passes VITE_MAX_FILE_SIZE file && fulfilled (upload file))
                   acceptedFiles
  /\ DashboardPage.supplies files' = DashboardPage.supplies files
  /\ DashboardPage.fires files' = DashboardPage.fires files
  /\ DashboardPage.temperature files' = DashboardPage.temperature files
  /\ Upload.error (World.page w')
     = from_option (fileError VITE_MAX_FILE_SIZE upload) (Upload.error (World.page w))
                   (last acceptedFiles).
Proof.
  unfold onDrop. revert w.
  induction acceptedFiles as [|file files IH]; intros w.
  { simpl. by rewrite app_nil_r. }
  cbn [dropEach]. unfold mbind, M_bind. rewrite from_option_last.
  unfold fileError at 2. fold (passes VITE_MAX_FILE_SIZE file).
  simpl List.filter. destruct (passes VITE_MAX_FILE_SIZE file) eqn:Hpass; cbn [negb andb].
  - destruct (uploadOne_parent (dashboardUpload Weather upload) file w)
      as (Hok & Hparent & _ & Herror).
    destruct (dashboardUpload_weather upload file (parentWorld w)) as [Hcall Hfiles].
    destruct (uploadOne (dashboardUpload Weather upload) file w) as [r w1].
    simpl in Hok, Hparent, Herror. subst r.
    assert (Hw1 : DashboardPage.files (Upload.parent (World.page w1))
                  = if fulfilled (upload file)
                    then withFile Weather file
                           (DashboardPage.files (Upload.parent (World.page w)))
                    else DashboardPage.files (Upload.parent (World.page w))).
    { change (DashboardPage.files (World.page (parentWorld w1))
              = if fulfilled (upload file)
                then withFile Weather file (DashboardPage.files (World.page (parentWorld w)))
                else DashboardPage.files (World.page (parentWorld w))).
      by rewrite Hparent, Hfiles. }
    destruct (IH w1) as (Hweather & Hsupplies & Hfires & Htemperature & Herr).
    cbv zeta in *. rewrite Hweather, Hsupplies, Hfires, Htemperature, Herr, Hw1, Herror, Hcall.
    destruct (upload file) as [[]|err]; simpl; [|done].
    by rewrite <- app_assoc.
  - destruct (IH (setPage (Upload.setError
                    (JStr (File.name file +:+ ": "
                           +:+ default "undefined"
                                 (Validation.error
                                    (validateCSVFile VITE_MAX_FILE_SIZE file))))) w).2)
      as (Hweather & Hsupplies & Hfires & Htemperature & Herr).
    cbv zeta in *.
    destruct w as [[uploading error parent] storage alerts console calendar timers].
    simpl in *. by rewrite Hweather, Hsupplies, Hfires, Htemperature, Herr.
Qed.

End DropFacts.

(* ===================================================================== *)
(** * Part XIX: what passes between the pages                             *)
(* ===================================================================== *)

(** ** The mark of the fires file *)

(** X26. An upload on the dashboard sets the mark of the fires file in the
    session storage when it is the upload of a fires file and succeeds,
    and leaves the storage as it is otherwise. On a storage without the
    mark before the upload, the calendar page then loads the real fires in
    the first case, and in the other shows the alert that asks for the
    file, whatever the service would answer. *)
Theorem handleUpload_fires_mark
    (type : fileType) (file : File.t) (upload : Result unit)
    (w : World.t DashboardPage.t) (calendar : World.t CalendarPage.t) :
  Storage.firesUploaded (World.storage w) <> Some "true" ->
  World.storage calendar = World.storage (handleUpload type file upload w).2 ->
  (type = Fires -> upload = Ok tt ->
   Storage.firesUploaded (World.storage calendar) = Some "true"
   /\ forall response matched,
        EvalResponse.matched_predictions response = Some matched ->
        let calendar' := (loadRealFiresData (Ok (Some response)) calendar).2 in
        CalendarPage.realFiresData (World.page calendar') = Some matched
        /\ CalendarPage.showComparison (World.page calendar') = true
        /\ World.alerts calendar' = World.alerts calendar)
  /\ (type <> Fires \/ fulfilled upload = false ->
      World.storage calendar = World.storage w
      /\ forall call,
           (loadRealFiresData call calendar).1 = Ok tt
           /\ World.page (loadRealFiresData call calendar).2 = World.page calendar
           /\ World.alerts (loadRealFiresData call calendar).2
              = World.alerts calendar ++ [uploadFiresFirst]).
Proof.
  intros Hbefore Hstore. split.
  - intros -> ->.
    assert (Hmark : Storage.firesUploaded (World.storage calendar) = Some "true").
    { rewrite Hstore. by destruct w. }
    split; [done|]. intros response matched Hmatched calendar'. unfold calendar'.
    destruct calendar as [page [fires range cached] alerts console cal timers].
    destruct response as [matched' mae pm1 pm2 pm3 total correct].
    simpl in *. by subst.
  - intros Hother.
    assert (Hsame : World.storage calendar = World.storage w).
    { rewrite Hstore. destruct w as [page store alerts console cal timers].
      unfold handleUpload, try_catch_finally, mbind, M_bind, await. simpl.
      destruct upload as [[]|err]; [|done].
      destruct type; try done. by destruct Hother. }
    split; [done|]. intros call. rewrite Hsame in Hstore.
    destruct calendar as [page store alerts console cal timers]. simpl in Hsame. subst store.
    unfold loadRealFiresData, mbind, M_bind, getStorage. simpl.
    by rewrite bool_decide_eq_false_2.
Qed.

(** ** The message of a rejected call *)

Lemma string_app_nonempty (a b : string) : b <> "" -> a +:+ b <> "".
Proof. destruct a; simpl; [done|by intros _]. Qed.

Lemma string_app_nonempty_l (a b : string) : a <> "" -> a +:+ b <> "".
Proof. by destruct a. Qed.

Lemma numberToString_nonempty (x : float) : numberToString x <> "".
Proof.
  unfold numberToString. destruct (Prim2SF x) as [s|s| |s m e]; try done; [by destruct s|].
  apply string_app_nonempty. unfold magnitudeToString.
  destruct (shortest 17 (Z.pos m) e (decimal_exponent (Z.pos m) e) 1) as [[d n] k].
  unfold decimal_notation.
  destruct ((-6 <? n) && (n <=? 21)), (k <=? n), (0 <? n), (k =? 1);
    first [ apply string_app_nonempty_l, digits_nonempty
          | apply string_app_nonempty, string_app_nonempty_l; done
          | done ].
Qed.

Lemma ToString_truthy (value : prim) : truthy value = true -> ToString value <> "".
Proof.
  destruct value as [| |b|x|s]; simpl; try done.
  - by destruct b.
  - intros _. apply numberToString_nonempty.
  - by destruct s.
Qed.

Lemma rejectionMessage_truthy (error : AxiosError.t) :
  truthy (rejectionMessage error) = true.
Proof.
  unfold rejectionMessage, prim_or.
  destruct (truthy (AxiosError.response_data_message error)) eqn:Hdata; [by rewrite Hdata|].
  by destruct (truthy (AxiosError.message error)) eqn:Hmessage; [rewrite Hmessage|].
Qed.

Section RejectionFacts.

Context `{!MathLog}.

(** X27. A call that the service rejects reaches the handlers with the message
    of the response interceptor, which is never empty; that message is
    what [loadRealFiresData] shows in its alert, what [handlePredict] sets
    as the error of the dashboard, and what the upload component shows for
    a file that passes the check: the fallback texts of the three are not
    used, and neither is the [detail] of the response. *)
Theorem rejected_call_message
    (error : AxiosError.t) (calendar : World.t CalendarPage.t)
    (dashboard : World.t DashboardPage.t) (VITE_MAX_FILE_SIZE : option Z)
    (type : fileType) (file : File.t) (component : World.t (Upload.t DashboardPage.t)) :
  Storage.firesUploaded (World.storage calendar) = Some "true" ->
  filesReady (DashboardPage.files (World.page dashboard)) ->
  passes VITE_MAX_FILE_SIZE file = true ->
  let message := ToString (rejectionMessage error) in
  message <> ""
  /\ World.alerts (loadRealFiresData (apiCall (inl error)) calendar).2
     = World.alerts calendar ++ [message]
  /\ DashboardPage.error (World.page (handlePredict (apiCall (inl error)) dashboard).2)
     = JStr message
  /\ Upload.error
       (World.page
          (onDrop VITE_MAX_FILE_SIZE false
                  (dashboardUpload type (fun _ => apiCall (inl error))) [file] component).2)
     = JStr message
  /\ parentWorld
       (onDrop VITE_MAX_FILE_SIZE false
               (dashboardUpload type (fun _ => apiCall (inl error))) [file] component).2
     = parentWorld component.
Proof.
  intros Hfires (Hsupplies & Htemperature & Hweather) Hpasses. cbv zeta.
  unfold apiCall, responseInterceptor.
  pose proof (ToString_truthy _ (rejectionMessage_truthy error)) as Hmessage.
  destruct (ToString (rejectionMessage error)) as [|c message]; [done|].
  split; [done|]. split; [|split].
  - destruct calendar as [page [fires range cached] alerts console cal timers].
    simpl in Hfires. by subst fires.
  - destruct dashboard as [[[supplies fires temperature weather] predicting err success range]
                             storage alerts console cal timers].
    simpl in *. destruct Hsupplies as [s ->], Htemperature as [t ->].
    by destruct weather as [|first weather].
  - unfold onDrop. fold (passes VITE_MAX_FILE_SIZE file). rewrite Hpasses. cbn [negb].
    destruct (uploadOne_parent
                (dashboardUpload type (fun _ => Throw (Error (String c message)))) file
                component) as (_ & Hparent & _ & Herror).
    rewrite Hparent, Herror.
    by destruct component as [[uploading err page] storage alerts console cal timers].
Qed.

End RejectionFacts.

(** ** The date range of a prediction *)

(** X28. [handlePredict] on a response, with the files there: the handler
    returns, the message of success is set and the error cleared, the move
    to the calendar is scheduled, and the files are kept; a date range of
    the response is stored, in the state and in the session storage. The
    calendar page, on that storage and without a date range of its own,
    then opens at the end date of the range, when the range has one. *)
Theorem handlePredict_success
    (result : PredictResponse.t) (w : World.t DashboardPage.t) :
  filesReady (DashboardPage.files (World.page w)) ->
  let w' := (handlePredict (Ok (Some result)) w).2 in
  (handlePredict (Ok (Some result)) w).1 = Ok tt
  /\ DashboardPage.error (World.page w') = JNull
  /\ DashboardPage.success (World.page w') = JStr "Прогноз успешно выполнен!"
  /\ DashboardPage.predicting (World.page w') = false
  /\ DashboardPage.files (World.page w') = DashboardPage.files (World.page w)
  /\ World.timers w' = World.timers w ++ ["/calendar"]
  /\ Storage.predictionDateRange (World.storage w')
     = match PredictResponse.date_range result with
       | Some range => Some range
       | None => Storage.predictionDateRange (World.storage w)
       end
  /\ DashboardPage.dateRange (World.page w')
     = match PredictResponse.date_range result with
       | Some range => Some range
       | None => DashboardPage.dateRange (World.page w)
       end
  /\ (forall (range : DateRange.t) (today : string) (calendar : World.t CalendarPage.t),
        PredictResponse.date_range result = Some range ->
        truthy (DateRange.data_end_date range) = true ->
        World.storage calendar = World.storage w' ->
        CalendarPage.dateRange (World.page calendar) = None ->
        getInitialDate today calendar = DateRange.data_end_date range).
Proof.
  intros (Hsupplies & Htemperature & Hweather) w'. unfold w'.
  destruct w as [[[supplies fires temperature weather] predicting err success range0]
                   storage alerts console cal timers].
  simpl in *. destruct Hsupplies as [s ->], Htemperature as [t ->].
  destruct weather as [|first weather]; [done|].
  destruct result as [predictions [range|]]; simpl.
  - repeat split. intros range' today calendar [= <-] Hend Hstore Hnone.
    unfold getInitialDate. by rewrite Hnone, Hstore; simpl; rewrite Hend.
  - by repeat split.
Qed.

Section YearFacts.

Context `{!DateParse, !LocalTZA}.

(** X29. After [handleYearChange], every entry shown has its anchor date in the
    new year; the records, the real fires, the mode and the selection are
    kept, and a mounted calendar is sent to the first of January of that
    year. *)
Theorem handleYearChange_shows_year
    (year : Z) (calendarRef : bool) (w : World.t CalendarPage.t) :
  let w' := (handleYearChange year calendarRef w).2 in
  Forall (fun event => eventYear event = Some year) (shownEvents (World.page w'))
  /\ shownEvents (World.page w')
     = events (CalendarPage.predictions (World.page w)) year
              (CalendarPage.showComparison (World.page w))
              (CalendarPage.realFiresData (World.page w))
              (CalendarPage.selectedPiles (World.page w))
  /\ World.calendar w'
     = World.calendar w
       ++ (if calendarRef then [JStr (digits year +:+ "-01-01")] else [])
  /\ World.storage w' = World.storage w.
Proof.
  intros w'.
  assert (Hshown : shownEvents (World.page w')
     = events (CalendarPage.predictions (World.page w)) year
              (CalendarPage.showComparison (World.page w))
              (CalendarPage.realFiresData (World.page w))
              (CalendarPage.selectedPiles (World.page w))).
  { unfold w'. destruct w as [page storage alerts console cal timers].
    by destruct calendarRef. }
  split; [|split; [done|]].
  - rewrite Hshown.
    destruct (events_shape (CalendarPage.predictions (World.page w)) year
                (CalendarPage.showComparison (World.page w))
                (CalendarPage.realFiresData (World.page w))
                (CalendarPage.selectedPiles (World.page w))) as (allEvents & -> & _).
    apply List.Forall_forall. intros event Hin. apply List.filter_In in Hin as [_ Hyear].
    unfold inYear in Hyear. destruct (eventYear event) as [y|]; [|done].
    by apply Z.eqb_eq in Hyear as ->.
  - unfold w'. destruct w as [page storage alerts console cal timers].
    destruct calendarRef; simpl; [done|by rewrite app_nil_r].
Qed.

End YearFacts.

(** ** The busy flags *)


(* ===================================================================== *)
(** * Part XX: the facts above on the sample data                         *)
(* ===================================================================== *)

Lemma selectAllPiles_shows_all_witness :
  (forall p, In p (CalendarPage.predictions (World.page Sample.loaded)) ->
     In (Prediction.pile_id p) (CalendarPage.availablePiles (World.page Sample.loaded)))
  /\ Sample.shownEvents (selectAllPiles (World.page Sample.loaded))
     = Sample.shownEvents (deselectAllPiles (World.page Sample.loaded))
  /\ Sample.shownEvents (deselectAllPiles (World.page Sample.loaded))
     = [calendarEntry Sample.pile1; calendarEntry Sample.pile2].
Proof.
  assert (Hpred : forall p,
    In p (CalendarPage.predictions (World.page Sample.loaded)) ->
    In (Prediction.pile_id p) (CalendarPage.availablePiles (World.page Sample.loaded))).
  { intros p [<-|[<-|[]]]; simpl; tauto. }
  split; [exact Hpred|]. split; [|by vm_compute].
  apply (@selectAllPiles_shows_all ExampleHost.dateParse ExampleHost.localTZA
           (World.page Sample.loaded) Hpred).
  by intros fires m.
Defined.

Lemma handleEventClick_finds_witness :
  In (calendarEntry Sample.pile1)
     (Sample.events [Sample.pile1; Sample.pile2] 2020 false None {[1]})
  /\ NoDup (map Prediction.pile_id [Sample.pile1; Sample.pile2])
  /\ handleEventClick [Sample.pile1; Sample.pile2] (calendarEntry Sample.pile1)
     = Some Sample.pile1.
Proof.
  assert (Hin : In (calendarEntry Sample.pile1)
                   (Sample.events [Sample.pile1; Sample.pile2] 2020 false None {[1]}))
    by (vm_compute; by left).
  assert (Hnodup : NoDup (map Prediction.pile_id [Sample.pile1; Sample.pile2])).
  { simpl. apply NoDup_cons. split; [by apply not_elem_of_cons; split; [|apply not_elem_of_nil]|].
    apply NoDup_singleton. }
  split; [exact Hin|]. split; [exact Hnodup|].
  destruct (@handleEventClick_finds ExampleHost.dateParse ExampleHost.localTZA
              _ _ _ _ _ Hin) as (first & before & after & Hfind & _ & _ & _ & Hspread).
  specialize (Hspread Hnodup). simpl in Hspread. injection Hspread as <-. exact Hfind.
Defined.

Lemma comparisonClick_after_load_witness :
  EvalResponse.matched_predictions Sample.evaluation = Some [Sample.hit; Sample.miss]
  /\ Storage.firesUploaded (World.storage Sample.loaded) = Some "true"
  /\ CalendarPage.realFiresData (World.page Sample.loaded) = None
  /\ comparisonClick (Throw Sample.networkError)
       (predictionsOnlyClick (comparisonClick (Ok (Some Sample.evaluation)) Sample.loaded).2).2
     = (Ok tt, (comparisonClick (Ok (Some Sample.evaluation)) Sample.loaded).2)
  /\ CalendarPage.showComparison
       (World.page (comparisonClick (Ok (Some Sample.evaluation)) Sample.loaded).2) = true.
Proof.
  split; [done|]. split; [done|]. split; [done|]. split; [|done].
  by destruct (comparisonClick_after_load Sample.evaluation [Sample.hit; Sample.miss]
                 (Throw Sample.networkError) Sample.loaded eq_refl eq_refl eq_refl)
    as [_ Hback].
Defined.

Lemma metricsBlock_after_load_witness :
  EvalResponse.matched_predictions Sample.evaluation = Some [Sample.hit; Sample.miss]
  /\ Storage.firesUploaded (World.storage Sample.loaded) = Some "true"
  /\ EvalResponse.mae Sample.evaluation = Num 1.85
  /\ exists texts,
       metricsBlock (World.page (loadRealFiresData (Ok (Some Sample.evaluation))
                                                   Sample.loaded).2)
       = Ok (Some texts)
       /\ length texts = 5%nat.
Proof.
  split; [done|]. split; [done|]. split; [done|].
  destruct (metricsBlock_after_load Sample.evaluation [Sample.hit; Sample.miss]
              Sample.loaded eq_refl eq_refl) as [Hnumber _].
  by apply (Hnumber 1.85%float).
Defined.

Lemma formatNumber_of_number_witness :
  is_nan 1234.5 = false
  /\ 0 <= 1 <= 100
  /\ exists text,
       formatNumber (H := ExampleHost.stringToNumber) (JNum 1234.5) 1 dash = Ok (JStr text)
       /\ text <> "NaN".
Proof.
  assert (Hdecimals : 0 <= 1 <= 100) by lia.
  split; [done|]. split; [exact Hdecimals|].
  destruct (@formatNumber_of_number ExampleHost.stringToNumber 1234.5%float 1 dash
              eq_refl Hdecimals) as (text & Htext & Hnan & _).
  exists text. split; [exact Htext|exact Hnan].
Defined.

Lemma formatNumber_decimals_out_of_range_witness :
  is_unknown (JNum 0.5) = false
  /\ (101 < 0 \/ 100 < 101)
  /\ exists message,
       formatPercentage (H := ExampleHost.stringToNumber) (JNum 0.5) 101 dash
       = Throw (RangeError message).
Proof.
  assert (Hdecimals : 101 < 0 \/ 100 < 101) by lia.
  split; [done|]. split; [exact Hdecimals|].
  by destruct (@formatNumber_decimals_out_of_range ExampleHost.stringToNumber
                 (JNum 0.5) 101 dash eq_refl Hdecimals) as [_ Hpercentage].
Defined.

Lemma getRiskColor_palette_witness :
  inherited (ToString (JStr "extreme")) = None
  /\ (ToString (JStr "extreme") ∉ riskLevels)
  /\ getRiskColor (JStr "extreme") = getRiskColor (JStr "low")
  /\ getRiskLabel (JStr "extreme") = Prim (JStr "Неизвестно").
Proof.
  assert (Hout : ToString (JStr "extreme") ∉ riskLevels).
  { unfold riskLevels. simpl. rewrite !not_elem_of_cons. repeat split; try done.
    apply not_elem_of_nil. }
  split; [done|]. split; [exact Hout|].
  destruct (getRiskColor_palette (JStr "extreme") eq_refl) as [_ Hlow].
  by apply Hlow.
Defined.

Lemma formatConfidence_not_a_string_witness :
  truthy (JNum 0.9) = true
  /\ exists message, formatConfidence (JNum 0.9) dash = Throw (TypeError message).
Proof.
  split; [done|].
  by apply (formatConfidence_not_a_string (JNum 0.9) dash eq_refl).
Defined.

Lemma events_ids_witness :
  NoDup (map Prediction.pile_id [Sample.pile1; Sample.pile2])
  /\ NoDup (map Event.id (Sample.events [Sample.pile1; Sample.pile2] 2020 false None ∅)).
Proof.
  assert (Hnodup : NoDup (map Prediction.pile_id [Sample.pile1; Sample.pile2])).
  { simpl. apply NoDup_cons. split; [by apply not_elem_of_cons; split; [|apply not_elem_of_nil]|].
    apply NoDup_singleton. }
  split; [exact Hnodup|].
  by destruct (@events_ids ExampleHost.dateParse ExampleHost.localTZA
                 [Sample.pile1; Sample.pile2] 2020 None ∅ Hnodup) as [Hids _].
Defined.

Lemma PredictionCard_placeholders_witness :
  is_unknown (Prediction.stockyard Sample.bare) = true
  /\ truthy (Prediction.observation_date Sample.bare) = false
  /\ truthy (Prediction.predicted_days_to_fire_rounded Sample.bare) = false
  /\ is_nan (ToNumber (H := ExampleHost.stringToNumber)
                      (Legacy.days_to_fire Sample.noLegacy)) = true
  /\ truthy (Prediction.confidence Sample.bare) = false
  /\ Sample.PredictionCard Sample.bare Sample.noLegacy
     = Ok {| Card.title := "Штабель #3";
             Card.badgeClass := "risk-badge badge-undefined";
             Card.badge := Prim (JStr "Неизвестно");
             Card.stockyard := JStr "Нет данных";
             Card.coal_grade := JStr "Нет данных";
             Card.observation_date := "—";
             Card.predicted_fire_date := "—";
             Card.days := JStr "—";
             Card.stock := JStr "—";
             Card.temperature := JStr "—";
             Card.confidence := Prim (JStr "—") |}.
Proof.
  split; [done|]. split; [done|]. split; [done|]. split; [done|]. split; [done|].
  unfold Sample.PredictionCard.
  refine (eq_trans
            (@PredictionCard_placeholders ExampleHost.stringToNumber ExampleHost.parseISO
               ExampleHost.format Sample.bare Sample.noLegacy
               eq_refl eq_refl eq_refl eq_refl eq_refl eq_refl eq_refl eq_refl eq_refl
               eq_refl eq_refl) _).
  by vm_compute.
Defined.

Lemma cardDays_zero_witness :
  is_nan (ToNumber (H := ExampleHost.stringToNumber) JUndefined) = true
  /\ is_zero 0 = true
  /\ cardDays (H := ExampleHost.stringToNumber) (JNum 0) JUndefined = JStr "—".
Proof.
  split; [done|]. split; [done|].
  destruct (@cardDays_zero ExampleHost.stringToNumber 0%float JUndefined eq_refl)
    as [Hzero _].
  by apply Hzero.
Defined.

Lemma handlePredict_missing_files_witness :
  canPredict (DashboardPage.files (World.page Sample.empty)) = false
  /\ (handlePredict (Ok (Some Sample.predicted)) Sample.empty).1 = Ok tt
  /\ DashboardPage.error
       (World.page (handlePredict (Ok (Some Sample.predicted)) Sample.empty).2)
     = JStr requiredFilesMissing
  /\ World.timers (handlePredict (Ok (Some Sample.predicted)) Sample.empty).2 = [].
Proof.
  split; [done|].
  destruct (handlePredict_missing_files (Ok (Some Sample.predicted)) Sample.empty eq_refl)
    as [-> _].
  by repeat split.
Defined.

Lemma handleUpload_fires_mark_witness :
  Storage.firesUploaded (World.storage Sample.empty) <> Some "true"
  /\ Storage.firesUploaded
       (World.storage
          (Sample.calendarOn
             (World.storage (handleUpload Fires (Sample.csv "fires.csv") (Ok tt)
                                          Sample.empty).2)))
     = Some "true"
  /\ World.alerts
       (loadRealFiresData (Throw Sample.networkError)
          (Sample.calendarOn
             (World.storage (handleUpload Supplies (Sample.csv "supplies.csv") (Ok tt)
                                          Sample.empty).2))).2
     = [uploadFiresFirst].
Proof.
  assert (Hbefore : Storage.firesUploaded (World.storage Sample.empty) <> Some "true")
    by done.
  split; [exact Hbefore|]. split.
  - destruct (handleUpload_fires_mark Fires (Sample.csv "fires.csv") (Ok tt) Sample.empty
                (Sample.calendarOn
                   (World.storage (handleUpload Fires (Sample.csv "fires.csv") (Ok tt)
                                                Sample.empty).2))
                Hbefore eq_refl) as [Hmark _].
    by destruct (Hmark eq_refl eq_refl) as [Hset _].
  - destruct (handleUpload_fires_mark Supplies (Sample.csv "supplies.csv") (Ok tt)
                Sample.empty
                (Sample.calendarOn
                   (World.storage (handleUpload Supplies (Sample.csv "supplies.csv") (Ok tt)
                                                Sample.empty).2))
                Hbefore eq_refl) as [_ Hother].
    destruct Hother as [_ Hload]; [by left|].
    by destruct (Hload (Throw Sample.networkError)) as (_ & _ & ->).
Defined.

Lemma rejected_call_message_witness :
  Storage.firesUploaded (World.storage Sample.loaded) = Some "true"
  /\ filesReady (DashboardPage.files (World.page Sample.ready))
  /\ passes (H := ExampleHost.log) None (Sample.csv "supplies.csv") = true
  /\ World.alerts (loadRealFiresData (apiCall (inl Sample.rejection)) Sample.loaded).2
     = ["Network Error"]
  /\ DashboardPage.error
       (World.page (handlePredict (apiCall (inl Sample.rejection)) Sample.ready).2)
     = JStr "Network Error".
Proof.
  assert (Hfiles : filesReady (DashboardPage.files (World.page Sample.ready))).
  { split; [by eexists|]. split; [by eexists|done]. }
  assert (Hpasses : passes (H := ExampleHost.log) None (Sample.csv "supplies.csv") = true)
    by (by vm_compute).
  split; [done|]. split; [exact Hfiles|]. split; [exact Hpasses|].
  destruct (@rejected_call_message ExampleHost.log Sample.rejection Sample.loaded
              Sample.ready None Supplies (Sample.csv "supplies.csv") Sample.dropzone
              eq_refl Hfiles Hpasses) as (_ & Halert & Herror & _).
  split; [exact Halert|exact Herror].
Defined.

Lemma handlePredict_success_witness :
  filesReady (DashboardPage.files (World.page Sample.ready))
  /\ World.timers (handlePredict (Ok (Some Sample.predicted)) Sample.ready).2
     = ["/calendar"]
  /\ getInitialDate "2026-11-02"
       (Sample.calendarOn
          (World.storage (handlePredict (Ok (Some Sample.predicted)) Sample.ready).2))
     = JStr "2020-09-30".
Proof.
  assert (Hfiles : filesReady (DashboardPage.files (World.page Sample.ready))).
  { split; [by eexists|]. split; [by eexists|done]. }
  split; [exact Hfiles|].
  destruct (handlePredict_success Sample.predicted Sample.ready Hfiles)
    as (_ & _ & _ & _ & _ & Htimers & _ & _ & Hinitial).
  split; [exact Htimers|].
  by apply (Hinitial Sample.range2020).
Defined.

